(** * MindChat service worker (public/sw.js): offline-resilience engine

    A shallow embedding of the worker's event handlers.  The worker is
    asynchronous JavaScript running against platform services, modelled as
    follows.

    - Cache Storage ([caches]): named partitions.  A partition is the
      list, in insertion order, of the request/response pairs put in it;
      of a stored request the URL and the headers are kept.
      [cache.match] returns the first pair the request matches: same URL,
      and the same value for every header the stored response's [Vary]
      names; a request that is not a GET matches nothing.  [cache.put]
      rejects a request that is not a GET, a 206 response and a response
      that varies on [*]; otherwise it removes the pairs its request
      matches and appends the new pair.  [caches.open] creates an absent
      partition, [caches.delete] removes one; a handle obtained from
      [caches.open] stays bound to the partition it was opened on.
    - IndexedDB ([MindChatDB]): the [pending_requests] object store (the
      Outbox) as the list of its records in key order together with its
      key generator, and the [mood_data] store as the list of its records.
      Opening the database and its transactions are taken to succeed.
    - The network ([fetch]): an oracle.  The fetch with ticket [n] (the
      n-th the worker issues) resolves with a response or rejects.
    - [fetch(request)] uses up the body of the request it is given, so
      [request.text()] afterwards rejects unless the request has no body.

    An async function is a computation in a state monad over [World] that
    can throw; [try]/[catch] is a combinator.  The one promise the source
    does not await (the revalidation of stale-while-revalidate) is kept in
    the world as a revalidation in flight, which a separate step settles.

    Embedded in the first part: the fetch, activate and message listeners,
    handleGetRequest, handlePostRequest, the three strategies,
    getFallbackResponse, storeForBackgroundSync, syncPendingRequests,
    checkCrisisSupport, cacheAudioFile, clearAllCaches and triggerSync.
    Embedded in the second part: the install, sync, periodicsync and
    notificationclick listeners, the two batch syncs and the mood reminder.
    The push listener is not embedded. *)

From stdpp Require Import gmap strings list fin_maps.
From Stdlib Require Import Ascii ZArith Lia.

Local Open Scope string_scope.
Local Open Scope list_scope.
Local Open Scope Z_scope.

(** ** Strings: the three String.prototype predicates the worker uses *)

Module JsString.

(** [s.startsWith(p)] *)
Definition startsWith (s p : string) : bool := String.prefix p s.

(** [s.endsWith(suf)]: some tail of [s] is [suf]. *)
Fixpoint endsWith (s suf : string) : bool :=
  if String.eqb s suf then true
  else match s with
       | EmptyString => false
       | String _ s' => endsWith s' suf
       end.

(** [s.includes(sub)]: [sub] is a prefix of some tail of [s]. *)
Fixpoint includes (s sub : string) : bool :=
  if String.prefix sub s then true
  else match s with
       | EmptyString => false
       | String _ s' => includes s' sub
       end.

(** ASCII lower-casing, for header names (Headers.get is
    case-insensitive). *)
Definition lower_ascii (c : ascii) : ascii :=
  let n := nat_of_ascii c in
  if (Nat.leb 65 n && Nat.leb n 90)%bool then ascii_of_nat (n + 32) else c.

Fixpoint lower (s : string) : string :=
  match s with
  | EmptyString => EmptyString
  | String c s' => String (lower_ascii c) (lower s')
  end.

End JsString.
Import JsString.

(** ** HTTP headers *)

(** [headers.get(name)]: case-insensitive, values joined by a comma. *)
Definition headers_get (hs : list (string * string)) (name : string) : option string :=
  match List.filter (fun kv => String.eqb (lower (fst kv)) (lower name)) hs with
  | [] => None
  | kv :: more => Some (fold_left (fun acc kv' => acc +:+ ", " +:+ snd kv') more (snd kv))
  end.

(** A name put in its place in a sorted list of names without repeats. *)
Fixpoint insert_name (name : string) (names : list string) : list string :=
  match names with
  | [] => [name]
  | n :: rest =>
      if String.eqb name n then names
      else if String.ltb name n then name :: names
      else n :: insert_name name rest
  end.

(** The names [headers.entries()] goes through: lower-cased, sorted, each
    once. *)
Definition header_names (hs : list (string * string)) : list string :=
  fold_right insert_name [] (map (fun kv => lower (fst kv)) hs).

(** [Object.fromEntries(headers.entries())]: one property per name, in the
    order of [entries()], holding the combined value. *)
Definition headers_entries (hs : list (string * string)) : list (string * string) :=
  map (fun name => (name, default "" (headers_get hs name))) (header_names hs).

(** The header list of a request built with a string body: the platform
    adds the content type of the body when the headers name none. *)
Definition with_text_body (hs : list (string * string)) : list (string * string) :=
  match headers_get hs "content-type" with
  | Some _ => hs
  | None => hs ++ [("content-type", "text/plain;charset=UTF-8")]
  end.

(** The values of a comma-separated header. *)
Fixpoint split_commas (s : string) : list string :=
  match s with
  | EmptyString => [EmptyString]
  | String c s' =>
      if Ascii.eqb c "," then EmptyString :: split_commas s'
      else match split_commas s' with
           | [] => [String c EmptyString]
           | v :: vs => String c v :: vs
           end
  end.

Definition is_space (c : ascii) : bool := Ascii.eqb c " " || Ascii.eqb c "009".

Fixpoint trim_left (s : string) : string :=
  match s with
  | EmptyString => EmptyString
  | String c s' => if is_space c then trim_left s' else s
  end.

Fixpoint trim_right (s : string) : string :=
  match s with
  | EmptyString => EmptyString
  | String c s' =>
      match trim_right s' with
      | EmptyString => if is_space c then EmptyString else String c EmptyString
      | rest => String c rest
      end
  end.

Definition trim (s : string) : string := trim_right (trim_left s).

(** ** Data model *)

(** [new URL(request.url)]: only the parts the worker looks at. *)
Record URL := mkURL {
  origin : string;
  pathname : string;
  search : string
}.

(** [url.href], the string [request.url]. *)
Definition href (u : URL) : string := origin u +:+ pathname u +:+ search u.

(** JSON values built by [JSON.stringify] in the worker. *)
#[warnings="-register-all"] Inductive json :=
| JBool (b : bool)
| JStr (s : string)
| JObj (fields : list (string * json)).

Inductive Body :=
| BText (s : string)
| BJson (j : json)
| BSvgPlaceholder.

Record Response := mkResponse {
  status : Z;
  r_headers : list (string * string);
  r_body : Body
}.

(** [response.ok] *)
Definition ok (r : Response) : bool := (200 <=? status r) && (status r <=? 299).

(** The header names listed by the response's [Vary], lower-cased. *)
Definition vary_fields (r : Response) : list string :=
  match headers_get (r_headers r) "vary" with
  | Some v => map (fun field => lower (trim field)) (split_commas v)
  | None => []
  end.

(** A response [cache.put] rejects with a TypeError: partial content, or a
    response that varies on everything. *)
Definition refused (r : Response) : bool :=
  (status r =? 206) || existsb (String.eqb "*") (vary_fields r).

(** An intercepted request.  [body] is [None] for a request without a body
    ([request.body === null]). *)
Record Request := mkRequest {
  method : string;
  url : URL;
  headers : list (string * string);
  body : option string
}.

(** Whether [request.text()] still resolves once the request has been
    handed to [fetch]: the fetch has used the body up, so only a request
    without one can be read, as the empty string. *)
Definition rereadable (request : Request) : bool :=
  match body request with
  | None => true
  | Some _ => false
  end.

(** What a fetch puts on the wire. *)
Record NetRequest := mkNetRequest {
  n_url : string;
  n_method : string;
  n_headers : list (string * string);
  n_body : option string
}.

(** [fetch(request)] *)
Definition wire (request : Request) : NetRequest :=
  {| n_url := href (url request); n_method := method request;
     n_headers := headers request; n_body := body request |}.

(** A record of the [pending_requests] store (the Outbox):
    [requestData] of storeForBackgroundSync plus its generated key. *)
Record RequestData := mkRequestData {
  rd_id : nat;
  rd_url : string;
  rd_method : string;
  rd_headers : list (string * string);
  rd_body : string;
  rd_timestamp : Z
}.

(** [fetch(requestData.url, {method, headers, body})]: a request built
    from the record, with a string body. *)
Definition wire_data (requestData : RequestData) : NetRequest :=
  {| n_url := rd_url requestData; n_method := rd_method requestData;
     n_headers := with_text_body (rd_headers requestData);
     n_body := Some (rd_body requestData) |}.

(** A record of the [mood_data] store.  [date] is the time value of
    [new Date(mood.date)] in milliseconds, [None] for an invalid date. *)
Record MoodRecord := mkMood {
  date : option Z;
  value : Z
}.

Record Notification := mkNotification {
  title : string;
  tag : string;
  requireInteraction : bool;
  actions : list (string * string);
  data_url : string
}.

(** A request/response pair of a partition: the URL and the headers of the
    request it was stored for, and the response. *)
Record Entry := mkEntry {
  e_url : string;
  e_headers : list (string * string);
  e_response : Response
}.

(** A partition of the cache storage; [p_id] tells apart two partitions
    that have had the same name, one deleted before the other was
    created. *)
Record Partition := mkPartition {
  p_id : nat;
  p_entries : list Entry
}.

(** The [Cache] object [caches.open] resolves with. *)
Record Handle := mkHandle {
  h_name : string;
  h_id : nat
}.

(** A fetch issued by stale-while-revalidate whose promise is still in
    flight: the [.then] callback will put its response in [rv_cache]. *)
Record Revalidation := mkRevalidation {
  rv_request : Request;
  rv_cache : Handle;
  rv_ticket : nat
}.

Record World := mkWorld {
  caches : gmap string Partition;
  next_cache_id : nat;
  pending_requests : list RequestData;
  next_key : nat;
  mood_data : list MoodRecord;
  fetched : list NetRequest;
  revalidating : list Revalidation;
  notifications : list Notification;
  sync_tags : list string;
  skip_waiting : bool;
  claimed : bool;
  clock : Z
}.

Definition set_caches (c : gmap string Partition) (w : World) : World :=
  {| caches := c; next_cache_id := next_cache_id w;
     pending_requests := pending_requests w;
     next_key := next_key w; mood_data := mood_data w; fetched := fetched w;
     revalidating := revalidating w; notifications := notifications w;
     sync_tags := sync_tags w; skip_waiting := skip_waiting w;
     claimed := claimed w; clock := clock w |}.

Definition set_next_cache_id (n : nat) (w : World) : World :=
  {| caches := caches w; next_cache_id := n;
     pending_requests := pending_requests w;
     next_key := next_key w; mood_data := mood_data w; fetched := fetched w;
     revalidating := revalidating w; notifications := notifications w;
     sync_tags := sync_tags w; skip_waiting := skip_waiting w;
     claimed := claimed w; clock := clock w |}.

Definition set_pending_requests (l : list RequestData) (k : nat) (w : World) : World :=
  {| caches := caches w; next_cache_id := next_cache_id w;
     pending_requests := l;
     next_key := k; mood_data := mood_data w; fetched := fetched w;
     revalidating := revalidating w; notifications := notifications w;
     sync_tags := sync_tags w; skip_waiting := skip_waiting w;
     claimed := claimed w; clock := clock w |}.

Definition set_fetched (l : list NetRequest) (w : World) : World :=
  {| caches := caches w; next_cache_id := next_cache_id w;
     pending_requests := pending_requests w;
     next_key := next_key w; mood_data := mood_data w; fetched := l;
     revalidating := revalidating w; notifications := notifications w;
     sync_tags := sync_tags w; skip_waiting := skip_waiting w;
     claimed := claimed w; clock := clock w |}.

Definition set_revalidating (l : list Revalidation) (w : World) : World :=
  {| caches := caches w; next_cache_id := next_cache_id w;
     pending_requests := pending_requests w;
     next_key := next_key w; mood_data := mood_data w; fetched := fetched w;
     revalidating := l; notifications := notifications w;
     sync_tags := sync_tags w; skip_waiting := skip_waiting w;
     claimed := claimed w; clock := clock w |}.

Definition set_notifications (l : list Notification) (w : World) : World :=
  {| caches := caches w; next_cache_id := next_cache_id w;
     pending_requests := pending_requests w;
     next_key := next_key w; mood_data := mood_data w; fetched := fetched w;
     revalidating := revalidating w; notifications := l;
     sync_tags := sync_tags w; skip_waiting := skip_waiting w;
     claimed := claimed w; clock := clock w |}.

Definition set_sync_tags (l : list string) (w : World) : World :=
  {| caches := caches w; next_cache_id := next_cache_id w;
     pending_requests := pending_requests w;
     next_key := next_key w; mood_data := mood_data w; fetched := fetched w;
     revalidating := revalidating w; notifications := notifications w;
     sync_tags := l; skip_waiting := skip_waiting w;
     claimed := claimed w; clock := clock w |}.

Definition set_skip_waiting (b : bool) (w : World) : World :=
  {| caches := caches w; next_cache_id := next_cache_id w;
     pending_requests := pending_requests w;
     next_key := next_key w; mood_data := mood_data w; fetched := fetched w;
     revalidating := revalidating w; notifications := notifications w;
     sync_tags := sync_tags w; skip_waiting := b;
     claimed := claimed w; clock := clock w |}.

Definition set_claimed (b : bool) (w : World) : World :=
  {| caches := caches w; next_cache_id := next_cache_id w;
     pending_requests := pending_requests w;
     next_key := next_key w; mood_data := mood_data w; fetched := fetched w;
     revalidating := revalidating w; notifications := notifications w;
     sync_tags := sync_tags w; skip_waiting := skip_waiting w;
     claimed := b; clock := clock w |}.

(** ** Matching a request against a partition *)

Definition same_value (a b : option string) : bool :=
  match a, b with
  | Some x, Some y => String.eqb x y
  | None, None => true
  | _, _ => false
  end.

(** A request with URL [key] and headers [hs] matches a stored pair: the
    URLs are equal and, for every header the stored response's [Vary]
    names, the request carries the value the stored request carried.  (No
    stored response varies on [*]: [cache.put] refuses it.) *)
Definition matches (key : string) (hs : list (string * string)) (e : Entry) : bool :=
  String.eqb (e_url e) key
  && forallb (fun field => same_value (headers_get hs field) (headers_get (e_headers e) field))
             (vary_fields (e_response e)).

(** What [cache.match] finds: the response of the first pair matched. *)
Definition query (key : string) (hs : list (string * string)) (es : list Entry)
  : option Response :=
  e_response <$> List.find (matches key hs) es.

(** What [cache.put] leaves: the pairs its request matches are removed and
    the new pair is appended. *)
Definition put_entry (key : string) (hs : list (string * string)) (response : Response)
    (es : list Entry) : list Entry :=
  List.filter (fun e => negb (matches key hs e)) es
    ++ [ {| e_url := key; e_headers := hs; e_response := response |} ].

(** ** The monad of async functions: state, and a thrown error *)

Inductive Error :=
| NetworkFailure          (* fetch rejected *)
| NoCacheNoNetwork        (* new Error('No cached response and network unavailable') *)
| BodyUnreadable          (* request.text() rejected *)
| PutRejected             (* cache.put rejected the response *)
| NotOk.                  (* cache.add got a response that is not ok *)

Inductive Result (A : Type) :=
| Ok (a : A)
| Throw (e : Error).
Arguments Ok {A} a.
Arguments Throw {A} e.

Definition M (A : Type) : Type := World -> Result A * World.

Definition ret {A} (a : A) : M A := fun w => (Ok a, w).
Definition throw {A} (e : Error) : M A := fun w => (Throw e, w).

Definition bind {A B} (m : M A) (k : A -> M B) : M B :=
  fun w => match m w with
           | (Ok a, w') => k a w'
           | (Throw e, w') => (Throw e, w')
           end.

(** [try { m } catch (error) { h error }] *)
Definition try_catch {A} (m : M A) (h : Error -> M A) : M A :=
  fun w => match m w with
           | (Ok a, w') => (Ok a, w')
           | (Throw e, w') => h e w'
           end.

Notation "'let*' x ':=' m 'in' k" := (bind m (fun x => k))
  (at level 10, x name, m at level 100, k at level 200, only parsing).
Notation "m ';;;' k" := (bind m (fun _ => k))
  (at level 100, k at level 200, only parsing).

Definition gets {A} (f : World -> A) : M A := fun w => (Ok (f w), w).
Definition modify (f : World -> World) : M unit := fun w => (Ok tt, f w).

(** ** Constants of the worker *)

Definition STATIC_CACHE : string := "mindchat-static-v1".
Definition DYNAMIC_CACHE : string := "mindchat-dynamic-v1".
Definition AUDIO_CACHE : string := "mindchat-audio-v1".

Definition STATIC_ASSETS : list string :=
  [ "/"; "/index.html"; "/manifest.json";
    "/icons/icon-192x192.png"; "/icons/icon-512x512.png" ].

(** ** Platform services *)

Section Worker.

(** The network: the outcome of the fetch with ticket [n] (the number of
    fetches issued before it), [None] when the promise rejects. *)
Variable net : nat -> NetRequest -> option Response.

(** [self.location.origin], against which [cache.match('/')] resolves. *)
Variable self_origin : string.

(** [caches.open(name)]: creates the partition when it does not exist and
    hands back a handle on it. *)
Definition caches_open (name : string) : M Handle :=
  fun w => match caches w !! name with
           | Some p => (Ok {| h_name := name; h_id := p_id p |}, w)
           | None =>
               (Ok {| h_name := name; h_id := next_cache_id w |},
                set_next_cache_id (S (next_cache_id w))
                  (set_caches
                     (<[name := {| p_id := next_cache_id w; p_entries := [] |}]> (caches w))
                     w))
           end.

(** The pairs of the partition a handle is bound to, as long as that
    partition is still in the cache storage.  Once it has been deleted the
    handle works on a cache no name leads to: the worker reads through a
    handle only right after opening it, and what it writes through such a
    handle is never seen again. *)
Definition live (cache : Handle) (w : World) : option (list Entry) :=
  match caches w !! h_name cache with
  | Some p => if Nat.eqb (p_id p) (h_id cache) then Some (p_entries p) else None
  | None => None
  end.

(** [cache.match(request)], for a request with method [m], URL [key] and
    headers [hs]: a request that is not a GET matches nothing.
    [cache.match('/')] is the GET without headers. *)
Definition cache_match (cache : Handle) (m key : string) (hs : list (string * string))
  : M (option Response) :=
  gets (fun w => if String.eqb m "GET" then live cache w ≫= query key hs else None).

(** The write of a pair into the partition of a handle. *)
Definition cache_store (cache : Handle) (key : string) (hs : list (string * string))
    (response : Response) : M unit :=
  modify (fun w =>
    match live cache w with
    | Some es =>
        set_caches
          (<[h_name cache := {| p_id := h_id cache;
                                p_entries := put_entry key hs response es |}]> (caches w)) w
    | None => w
    end).

(** [cache.put(request, response)]: rejects a request that is not a GET
    and a response it refuses. *)
Definition cache_put (cache : Handle) (m key : string) (hs : list (string * string))
    (response : Response) : M unit :=
  if negb (String.eqb m "GET") || refused response then throw PutRejected
  else cache_store cache key hs response.

(** Starting a fetch: the request goes on the wire and a ticket for its
    promise is handed back. *)
Definition fetch_start (nr : NetRequest) : M nat :=
  fun w => (Ok (length (fetched w)), set_fetched (fetched w ++ [nr]) w).

(** Awaiting the promise of a fetch. *)
Definition fetch_await (ticket : nat) (nr : NetRequest) : M Response :=
  match net ticket nr with
  | Some response => ret response
  | None => throw NetworkFailure
  end.

(** [await fetch(...)] *)
Definition fetch (nr : NetRequest) : M Response :=
  let* ticket := fetch_start nr in fetch_await ticket nr.

(** [await request.text()] on a request already handed to [fetch]. *)
Definition request_text (request : Request) : M string :=
  if rereadable request then ret "" else throw BodyUnreadable.

(** [Date.now()] *)
Definition date_now : M Z := gets clock.

(** [store.add(requestData)] on [pending_requests]: the key generator
    supplies the id. *)
Definition store_add (u m : string) (h : list (string * string)) (b : string) (t : Z)
  : M unit :=
  modify (fun w =>
    set_pending_requests
      (pending_requests w ++
         [ {| rd_id := next_key w; rd_url := u; rd_method := m;
              rd_headers := h; rd_body := b; rd_timestamp := t |} ])
      (S (next_key w)) w).

(** [getAllFromStore(store)] on [pending_requests]: records in key order. *)
Definition getAllFromStore : M (list RequestData) := gets pending_requests.

(** [deleteStore.delete(id)] *)
Definition store_delete (id : nat) : M unit :=
  modify (fun w =>
    set_pending_requests
      (List.filter (fun e => negb (Nat.eqb (rd_id e) id)) (pending_requests w))
      (next_key w) w).

(** [self.registration.showNotification(...)] *)
Definition showNotification (n : Notification) : M unit :=
  modify (fun w => set_notifications (notifications w ++ [n]) w).

(** ** Caching strategies *)

(** Caching Strategy 1: Cache First *)
Definition cacheFirstStrategy (request : Request) (cacheName : string) : M Response :=
  let* cache := caches_open cacheName in
  let* cachedResponse := cache_match cache (method request) (href (url request)) (headers request) in
  match cachedResponse with
  | Some cached => ret cached
  | None =>
      let* networkResponse := fetch (wire request) in
      cache_put cache (method request) (href (url request)) (headers request)
        networkResponse ;;;
      ret networkResponse
  end.

(** Caching Strategy 2: Network First *)
Definition networkFirstStrategy (request : Request) (cacheName : string) : M Response :=
  try_catch
    (let* networkResponse := fetch (wire request) in
     let* cache := caches_open cacheName in
     cache_put cache (method request) (href (url request)) (headers request)
       networkResponse ;;;
     ret networkResponse)
    (fun error =>
       let* cache := caches_open cacheName in
       let* cachedResponse := cache_match cache (method request) (href (url request)) (headers request) in
       match cachedResponse with
       | Some cached => ret cached
       | None => throw error
       end).

(** Caching Strategy 3: Stale While Revalidate.  The fetch is started
    before the cached response is looked at; its promise, with the [.then]
    that stores the response and the [.catch] that turns any rejection
    into [null], is awaited only when there is no cached response, and is
    otherwise left in flight. *)
Definition staleWhileRevalidateStrategy (request : Request) (cacheName : string)
  : M Response :=
  let* cache := caches_open cacheName in
  let* cachedResponse := cache_match cache (method request) (href (url request)) (headers request) in
  let* ticket := fetch_start (wire request) in
  match cachedResponse with
  | Some cached =>
      modify (fun w =>
        set_revalidating
          (revalidating w ++
             [ {| rv_request := request; rv_cache := cache; rv_ticket := ticket |} ]) w) ;;;
      ret cached
  | None =>
      let* networkResponse :=
        try_catch
          (let* networkResponse := fetch_await ticket (wire request) in
           cache_put cache (method request) (href (url request)) (headers request)
             networkResponse ;;;
           ret (Some networkResponse))
          (fun _ => ret None) in
      match networkResponse with
      | Some fresh => ret fresh
      | None => throw NoCacheNoNetwork
      end
  end.

(** The promise of a revalidation settles: its [.then] callback stores
    the response, its [.catch] swallows a rejection, of the fetch or of
    the put. *)
Definition settle (rv : Revalidation) : M unit :=
  try_catch
    (let* networkResponse := fetch_await (rv_ticket rv) (wire (rv_request rv)) in
     cache_put (rv_cache rv) (method (rv_request rv)) (href (url (rv_request rv)))
       (headers (rv_request rv)) networkResponse)
    (fun _ => ret tt).

(** The oldest revalidation in flight settles. *)
Definition settle_next : M unit :=
  fun w => match revalidating w with
           | [] => (Ok tt, w)
           | rv :: rest => settle rv (set_revalidating rest w)
           end.

(** ** Fallback responses *)

(** [request.headers.get('Accept')?.includes(what)] *)
Definition accepts (request : Request) (what : string) : bool :=
  match headers_get (headers request) "Accept" with
  | Some v => includes v what
  | None => false
  end.

Definition offlineTextResponse : Response :=
  {| status := 503; r_headers := [("Content-Type", "text/plain")];
     r_body := BText "Offline - Please check your connection" |}.

Definition offlineApiResponse : Response :=
  {| status := 503; r_headers := [("Content-Type", "application/json")];
     r_body := BJson (JObj [ ("error", JStr "Offline");
                             ("message", JStr "This feature requires internet connection");
                             ("offline", JBool true) ]) |}.

Definition placeholderImageResponse : Response :=
  {| status := 200; r_headers := [("Content-Type", "image/svg+xml")];
     r_body := BSvgPlaceholder |}.

(** [new Response('Resource unavailable offline', { status: 503 })]: with
    no headers given, the platform sets the content type of the string
    body. *)
Definition unavailableResponse : Response :=
  {| status := 503; r_headers := [("content-type", "text/plain;charset=UTF-8")];
     r_body := BText "Resource unavailable offline" |}.

Definition getFallbackResponse (request : Request) : M Response :=
  if accepts request "text/html" then
    let* cache := caches_open STATIC_CACHE in
    let* shell := cache_match cache "GET" (self_origin +:+ "/") [] in
    ret (default offlineTextResponse shell)
  else if startsWith (pathname (url request)) "/api/" then ret offlineApiResponse
  else if accepts request "image/" then ret placeholderImageResponse
  else ret unavailableResponse.

(** ** Fetch event *)

(** GET request handler with caching strategies *)
Definition handleGetRequest (request : Request) (url : URL) : M Response :=
  try_catch
    (if existsb (fun asset => endsWith (pathname url) asset) STATIC_ASSETS then
       cacheFirstStrategy request STATIC_CACHE
     else if includes (pathname url) "/audio/" then
       cacheFirstStrategy request AUDIO_CACHE
     else if startsWith (pathname url) "/api/" then
       networkFirstStrategy request DYNAMIC_CACHE
     else
       staleWhileRevalidateStrategy request DYNAMIC_CACHE)
    (fun _ => getFallbackResponse request).

(** Background sync for offline data: a failure to serialize or store the
    request is caught (and logged).  The request has been handed to
    [fetch] by the caller. *)
Definition storeForBackgroundSync (request : Request) : M unit :=
  try_catch
    (let* text := request_text request in
     let* now := date_now in
     store_add (href (url request)) (method request) (headers_entries (headers request))
       text now)
    (fun _ => ret tt).

Definition queuedResponse : Response :=
  {| status := 200; r_headers := [("Content-Type", "application/json")];
     r_body := BJson (JObj [ ("success", JBool true);
                             ("offline", JBool true);
                             ("message", JStr "Data queued for sync when online") ]) |}.

(** POST request handler for offline data sync *)
Definition handlePostRequest (request : Request) (url : URL) : M Response :=
  try_catch
    (fetch (wire request))
    (fun error =>
       if startsWith (pathname url) "/api/" then
         storeForBackgroundSync request ;;;
         ret queuedResponse
       else throw error).

(** The fetch listener.  [None]: the listener did not call
    [event.respondWith], the worker takes no part in the request and the
    browser performs it as if there were no worker. *)
Definition onFetch (request : Request) (w : World) : option (Result Response) * World :=
  if String.eqb (method request) "GET" then
    let (r, w') := handleGetRequest request (url request) w in (Some r, w')
  else if String.eqb (method request) "POST" then
    let (r, w') := handlePostRequest request (url request) w in (Some r, w')
  else (None, w).

(** ** Background sync: replaying the Outbox *)

(** The body of the [for (const requestData of requests)] loop. *)
Definition replay_one (requestData : RequestData) : M unit :=
  try_catch
    (let* response := fetch (wire_data requestData) in
     if ok response then store_delete (rd_id requestData) else ret tt)
    (fun _ => ret tt).

Fixpoint replay_loop (requests : list RequestData) : M unit :=
  match requests with
  | [] => ret tt
  | requestData :: rest => replay_one requestData ;;; replay_loop rest
  end.

(** Sync pending requests when back online *)
Definition syncPendingRequests : M unit :=
  try_catch
    (let* requests := getAllFromStore in replay_loop requests)
    (fun _ => ret tt).

(** ** Activate event *)

(** [caches.keys()] *)
Definition caches_keys : M (list string) := gets (fun w => (map_to_list (caches w)).*1).

(** [caches.delete(name)] *)
Definition caches_delete (name : string) : M unit :=
  modify (fun w => set_caches (delete name (caches w)) w).

(** [Promise.all(names.map(f))] for effects on the cache storage. *)
Fixpoint for_each (names : list string) (f : string -> M unit) : M unit :=
  match names with
  | [] => ret tt
  | name :: rest => f name ;;; for_each rest f
  end.

Definition neq (a b : string) : bool := negb (String.eqb a b).

(** Activate event - clean up old caches *)
Definition activate : M unit :=
  let* cacheNames := caches_keys in
  for_each cacheNames (fun cacheName =>
    if neq cacheName STATIC_CACHE && neq cacheName DYNAMIC_CACHE && neq cacheName AUDIO_CACHE
    then caches_delete cacheName
    else ret tt) ;;;
  modify (set_claimed true).

(** ** Periodic sync: crisis support check *)

(** [new Date(mood.date) >= threeDaysAgo]; an invalid date compares false. *)
Definition date_geq (d : option Z) (t : Z) : bool :=
  match d with
  | Some ms => t <=? ms
  | None => false
  end.

Definition crisisNotification : Notification :=
  {| title := "MindChat Support"; tag := "crisis-support";
     requireInteraction := true;
     actions := [("crisis-support", "Get Support"); ("dismiss", "Not Now")];
     data_url := "/?section=crisis" |}.

(** Crisis support check *)
Definition checkCrisisSupport : M unit :=
  try_catch
    (let* recentMoods := gets mood_data in
     let* now := date_now in
     let threeDaysAgo := now - 3 * 24 * 60 * 60 * 1000 in
     let recentLowMoods :=
       List.filter (fun mood => date_geq (date mood) threeDaysAgo && (value mood <=? 2))
                   recentMoods in
     if (3 <=? length recentLowMoods)%nat then showNotification crisisNotification
     else ret tt)
    (fun _ => ret tt).

(** ** Message event: the control channel *)

Record MessageData := mkMessage {
  m_type : string;
  m_url : URL;
  m_tag : string
}.

(** [cache.add(url)]: fetch with a request that has no headers, reject a
    response that is not ok, store.  The request asks for no range, so the
    answer is taken not to be a part of the resource (206), nor to vary on
    [*]: the two ok responses the platform would not store. *)
Definition cache_add (cache : Handle) (u : URL) : M unit :=
  let* response :=
    fetch {| n_url := href u; n_method := "GET"; n_headers := []; n_body := None |} in
  if ok response then cache_store cache (href u) [] response else throw NotOk.

(** Cache audio file on demand *)
Definition cacheAudioFile (u : URL) : M unit :=
  try_catch
    (let* cache := caches_open AUDIO_CACHE in cache_add cache u)
    (fun _ => ret tt).

(** Clear all caches *)
Definition clearAllCaches : M unit :=
  try_catch
    (let* cacheNames := caches_keys in for_each cacheNames caches_delete)
    (fun _ => ret tt).

(** Trigger background sync *)
Definition triggerSync (t : string) : M unit :=
  try_catch
    (modify (fun w => set_sync_tags (sync_tags w ++ [t]) w))
    (fun _ => ret tt).

(** Message handler for communication with main app.  [None] is a
    message without data. *)
Definition onMessage (data : option MessageData) : M unit :=
  match data with
  | None => ret tt
  | Some d =>
      if String.eqb (m_type d) "" then ret tt
      else if String.eqb (m_type d) "SKIP_WAITING" then modify (set_skip_waiting true)
      else if String.eqb (m_type d) "CACHE_AUDIO" then cacheAudioFile (m_url d)
      else if String.eqb (m_type d) "CLEAR_CACHE" then clearAllCaches
      else if String.eqb (m_type d) "SYNC_NOW" then triggerSync (m_tag d)
      else ret tt
  end.

End Worker.

(** ** Observations on a world *)

(** The pairs of partition [cache], none when there is no such partition. *)
Definition entries_of (cs : gmap string Partition) (cache : string) : list Entry :=
  match cs !! cache with
  | Some p => p_entries p
  | None => []
  end.

(** The response of the pair stored last under URL [key]. *)
Fixpoint latest (key : string) (es : list Entry) : option Response :=
  match es with
  | [] => None
  | e :: rest =>
      match latest key rest with
      | Some r => Some r
      | None => if String.eqb (e_url e) key then Some (e_response e) else None
      end
  end.

(** The snapshot stored for [key] in partition [cache], if any: the
    response stored last under this URL, whatever request it was stored
    for. *)
Definition snapshot (w : World) (cache key : string) : option Response :=
  latest key (entries_of (caches w) cache).

(** What [cache.match(request)] finds in partition [cache]. *)
Definition found (w : World) (cache : string) (request : Request) : option Response :=
  if String.eqb (method request) "GET"
  then query (href (url request)) (headers request) (entries_of (caches w) cache)
  else None.

(** Whether [cache.put(request, response)] stores the response. *)
Definition cacheable (request : Request) (response : Response) : bool :=
  String.eqb (method request) "GET" && negb (refused response).

(** The handle [caches.open(cache)] resolves with. *)
Definition handle_of (cache : string) (w : World) : Handle :=
  {| h_name := cache;
     h_id := match caches w !! cache with
             | Some p => p_id p
             | None => next_cache_id w
             end |}.

(** The world after [caches.open(cache)]. *)
Definition opened (cache : string) (w : World) : World :=
  match caches w !! cache with
  | Some _ => w
  | None =>
      set_next_cache_id (S (next_cache_id w))
        (set_caches (<[cache := {| p_id := next_cache_id w; p_entries := [] |}]> (caches w)) w)
  end.

(** The world after [caches.open(cache)] and a write of [response] for the
    request with URL [key] and headers [hs]. *)
Definition stored (cache key : string) (hs : list (string * string)) (response : Response)
    (w : World) : World :=
  set_caches
    (<[cache := {| p_id := h_id (handle_of cache w);
                   p_entries := put_entry key hs response (entries_of (caches w) cache) |}]>
       (caches (opened cache w)))
    (opened cache w).

(** The fingerprint of a GET request: its URL. *)
Definition fingerprint (request : Request) : string := href (url request).

(** [n] calls of the same async function, one after the other. *)
Fixpoint calls {A} (n : nat) (m : M A) (w : World) : list (Result A) * World :=
  match n with
  | O => ([], w)
  | S n' => let (r, w') := m w in
            let (rs, w'') := calls n' m w' in (r :: rs, w'')
  end.

(** ** The classifier, as the specification words it (section 4.2)

    The three tests on the path are the ones [handleGetRequest] makes. *)

Inductive Strategy := CacheFirst | NetworkFirst | StaleWhileRevalidate.

Definition is_static_asset (path : string) : bool :=
  existsb (fun asset => endsWith path asset) STATIC_ASSETS.
Definition in_audio_namespace (path : string) : bool := includes path "/audio/".
Definition in_api_namespace (path : string) : bool := startsWith path "/api/".

Definition classify (path : string) : Strategy * string :=
  if is_static_asset path then (CacheFirst, STATIC_CACHE)
  else if in_audio_namespace path then (CacheFirst, AUDIO_CACHE)
  else if in_api_namespace path then (NetworkFirst, DYNAMIC_CACHE)
  else (StaleWhileRevalidate, DYNAMIC_CACHE).

Definition run_strategy (net : nat -> NetRequest -> option Response) (s : Strategy)
  : Request -> string -> M Response :=
  match s with
  | CacheFirst => cacheFirstStrategy net
  | NetworkFirst => networkFirstStrategy net
  | StaleWhileRevalidate => staleWhileRevalidateStrategy net
  end.

(** ** The Outbox *)

(** The record [storeForBackgroundSync] builds in world [w] for a request
    it can read. *)
Definition outbox_entry (request : Request) (w : World) : RequestData :=
  {| rd_id := next_key w; rd_url := href (url request); rd_method := method request;
     rd_headers := headers_entries (headers request); rd_body := "";
     rd_timestamp := clock w |}.

(** Whether the replay of [requestData], issued as the fetch with ticket
    [n], receives a success (2xx) response. *)
Definition replay_succeeds (net : nat -> NetRequest -> option Response) (n : nat)
    (requestData : RequestData) : bool :=
  match net n (wire_data requestData) with
  | Some response => ok response
  | None => false
  end.

(** The entries of [requests] whose own replay does not receive a success
    response, in order; the first replay has ticket [n]. *)
Fixpoint unsynced (net : nat -> NetRequest -> option Response) (n : nat)
    (requests : list RequestData) : list RequestData :=
  match requests with
  | [] => []
  | requestData :: rest =>
      if replay_succeeds net n requestData then unsynced net (S n) rest
      else requestData :: unsynced net (S n) rest
  end.

(** The keys deleted by a replay of [requests]. *)
Fixpoint synced_ids (net : nat -> NetRequest -> option Response) (n : nat)
    (requests : list RequestData) : list nat :=
  match requests with
  | [] => []
  | requestData :: rest =>
      if replay_succeeds net n requestData then rd_id requestData :: synced_ids net (S n) rest
      else synced_ids net (S n) rest
  end.

(** The store after the records with a key in [ids] are deleted. *)
Definition remove_ids (ids : list nat) (l : list RequestData) : list RequestData :=
  List.filter (fun e => negb (existsb (Nat.eqb (rd_id e)) ids)) l.

(** The object store's invariant: keys are unique and were handed out by
    the key generator. *)
Definition outbox_wf (w : World) : Prop :=
  NoDup (map rd_id (pending_requests w))
  /\ Forall (fun e => (rd_id e < next_key w)%nat) (pending_requests w).

(** ** Activation *)

(** The partitions of the current version. *)
Definition expected_caches : list string := [STATIC_CACHE; DYNAMIC_CACHE; AUDIO_CACHE].

(** The test of the activate listener: a name that is none of the three. *)
Definition stale (cacheName : string) : bool :=
  neq cacheName STATIC_CACHE && neq cacheName DYNAMIC_CACHE && neq cacheName AUDIO_CACHE.

(** The cache storage after the partitions of [names] picked by [doomed]
    have been deleted one after the other. *)
Definition sweep (doomed : string -> bool) (names : list string)
    (cs : gmap string Partition) : gmap string Partition :=
  fold_left (fun acc name => if doomed name then delete name acc else acc) names cs.

(** A computation that never removes a partition. *)
Definition keeps_partitions {A} (m : M A) : Prop :=
  forall w name, is_Some (caches w !! name) -> is_Some (caches (snd (m w)) !! name).

(** ** The support trigger *)

(** The look-back window of the crisis check, in milliseconds. *)
Definition three_days : Z := 3 * 24 * 60 * 60 * 1000.

(** A mood record counted by the crisis check at time [now]. *)
Definition recent_low (now : Z) (mood : MoodRecord) : bool :=
  date_geq (date mood) (now - three_days) && (value mood <=? 2).

Definition low_count (w : World) : nat :=
  length (List.filter (recent_low (clock w)) (mood_data w)).

(** The calendar day (UTC) of an instant, counted from the epoch. *)
Definition calendar_day (ms : Z) : Z := ms / (24 * 60 * 60 * 1000).

(** ** Sample worlds, networks and requests *)

Module Sample.

Definition fresh : World :=
  {| caches := ∅; next_cache_id := 0; pending_requests := []; next_key := 1;
     mood_data := []; fetched := []; revalidating := []; notifications := [];
     sync_tags := []; skip_waiting := false; claimed := false; clock := 1700000000000 |}.

Definition site : string := "https://mindchat.example".

Definition page : Response :=
  {| status := 200; r_headers := [("Content-Type", "text/html")]; r_body := BText "shell" |}.

Definition failure : Response :=
  {| status := 500; r_headers := []; r_body := BText "Internal Server Error" |}.

(** A part of an audio file, as the server sends it for a Range request. *)
Definition partial : Response :=
  {| status := 206;
     r_headers := [("Content-Range", "bytes 0-1023/2400000"); ("Accept-Ranges", "bytes");
                   ("Content-Type", "audio/mpeg")];
     r_body := BText "ID3" |}.

Definition online : nat -> NetRequest -> option Response := fun _ _ => Some page.
Definition offline : nat -> NetRequest -> option Response := fun _ _ => None.
Definition broken : nat -> NetRequest -> option Response := fun _ _ => Some failure.

(** A server that answers with a part of the resource. *)
Definition ranged : nat -> NetRequest -> option Response := fun _ _ => Some partial.

(** A request without a body. *)
Definition request_to (m path : string) : Request :=
  {| method := m; url := {| origin := site; pathname := path; search := "" |};
     headers := [("Accept", "application/json")]; body := None |}.

(** The request of a media element for an audio file. *)
Definition range_request (path : string) : Request :=
  {| method := "GET"; url := {| origin := site; pathname := path; search := "" |};
     headers := [("Range", "bytes=0-")]; body := None |}.

(** A world whose partition [cache] holds [response] for [request]. *)
Definition holding (cache : string) (request : Request) (response : Response) : World :=
  stored cache (fingerprint request) (headers request) response fresh.

(** Two writes made while offline, queued by the fetch listener. *)
Definition mood_write : Request := request_to "POST" "/api/mood".
Definition progress_write : Request := request_to "POST" "/api/session-progress".

Definition after_two_writes : World :=
  snd (onFetch offline site progress_write (snd (onFetch offline site mood_write fresh))).

(** A write that carries the mood entry as its body. *)
Definition mood_entry_write : Request :=
  {| method := "POST";
     url := {| origin := site; pathname := "/api/mood"; search := "" |};
     headers := [("Content-Type", "application/json")];
     body := Some "{}" |}.

(** A network on which the mood endpoint is unreachable. *)
Definition flaky : nat -> NetRequest -> option Response :=
  fun _ nr => if String.eqb (n_url nr) (site +:+ "/api/mood") then None else Some page.

(** Partitions of an older version next to the current static one. *)
Definition upgrading : World :=
  set_next_cache_id 3
    (set_caches
       (<["mindchat-static-v0" := {| p_id := 0; p_entries := [] |}]>
          (<["mindchat-dynamic-v0" := {| p_id := 1; p_entries := [] |}]>
             (<[STATIC_CACHE :=
                  {| p_id := 2;
                     p_entries := [ {| e_url := site +:+ "/"; e_headers := [];
                                       e_response := page |} ] |}]> ∅))) fresh).

Definition day : Z := 24 * 60 * 60 * 1000.

Definition with_moods (moods : list MoodRecord) : World :=
  {| caches := ∅; next_cache_id := 0; pending_requests := []; next_key := 1;
     mood_data := moods; fetched := []; revalidating := []; notifications := [];
     sync_tags := []; skip_waiting := false; claimed := false; clock := 1700000000000 |}.

(** Three low moods dated within the 72 hours before the tick. *)
Definition low_hours : list MoodRecord :=
  [ {| date := Some 1699950000000; value := 1 |};
    {| date := Some 1699900000000; value := 2 |};
    {| date := Some 1699750000000; value := 2 |} ].

(** Three low moods dated by calendar day, as [new Date('2023-11-13')]
    and the two days before yield them; the tick comes on 2023-11-14 at
    22:13:20 UTC. *)
Definition low_days : list MoodRecord :=
  [ {| date := Some 1699833600000; value := 1 |};
    {| date := Some 1699747200000; value := 2 |};
    {| date := Some 1699660800000; value := 2 |} ].

Definition clear_cache : MessageData :=
  {| m_type := "CLEAR_CACHE"; m_url := {| origin := ""; pathname := ""; search := "" |};
     m_tag := "" |}.

End Sample.

(** * The rest of the worker *)

(** ** Footprints *)

(** A computation that leaves the observation [f] of the world as it was. *)
Definition untouched {X A : Type} (f : World -> X) (m : M A) : Prop :=
  forall w, f (snd (m w)) = f w.

(** A computation that never throws. *)
Definition never_throws {A : Type} (m : M A) : Prop :=
  forall w, exists a, fst (m w) = Ok a.

(** ** What a GET is answered with *)

(** What [cache.match('/')] finds in the static partition. *)
Definition shell (self_origin : string) (w : World) : option Response :=
  query (self_origin +:+ "/") [] (entries_of (caches w) STATIC_CACHE).

(** The response of the fallback generator for [request], given what the
    cache storage holds. *)
Definition fallback_response (self_origin : string) (request : Request) (w : World)
  : Response :=
  if accepts request "text/html" then default offlineTextResponse (shell self_origin w)
  else if startsWith (pathname (url request)) "/api/" then offlineApiResponse
  else if accepts request "image/" then placeholderImageResponse
  else unavailableResponse.

(** What a strategy gets out of the network for [request]: the response
    of its fetch, unless the fetch rejects or the cache does not store the
    response. *)
Definition usable (request : Request) (network : option Response) : option Response :=
  match network with
  | Some fresh => if cacheable request fresh then Some fresh else None
  | None => None
  end.

(** The order in which a strategy consults the cache and the network. *)
Definition strategy_answer (s : Strategy) (cached usable_network : option Response)
  : option Response :=
  match s with
  | NetworkFirst => match usable_network with Some fresh => Some fresh | None => cached end
  | CacheFirst | StaleWhileRevalidate =>
      match cached with Some c => Some c | None => usable_network end
  end.

(** The response [handleGetRequest] hands back: the strategy's answer, or
    the fallback when neither the cache nor the network gives one. *)
Definition answer (net : nat -> NetRequest -> option Response) (self_origin : string)
    (request : Request) (w : World) : Response :=
  let target := classify (pathname (url request)) in
  default (fallback_response self_origin request w)
    (strategy_answer (fst target)
       (found w (snd target) request)
       (usable request (net (length (fetched w)) (wire request)))).

(** ** What a replay puts on the wire for a queued write *)

(** The request the replay builds from the record of [request]. *)
Definition replayed (request : Request) : NetRequest :=
  {| n_url := href (url request); n_method := method request;
     n_headers := with_text_body (headers_entries (headers request));
     n_body := Some "" |}.

(** ** The control channel *)

(** The request [cache.add(url)] puts on the wire. *)
Definition get_request (u : URL) : NetRequest :=
  {| n_url := href u; n_method := "GET"; n_headers := []; n_body := None |}.

(** The commands the message listener knows. *)
Definition known_commands : list string :=
  ["SKIP_WAITING"; "CACHE_AUDIO"; "CLEAR_CACHE"; "SYNC_NOW"].

(** ** Install event, background sync, periodic sync, notification click *)

Definition set_mood_data (l : list MoodRecord) (w : World) : World :=
  {| caches := caches w; next_cache_id := next_cache_id w;
     pending_requests := pending_requests w;
     next_key := next_key w; mood_data := l; fetched := fetched w;
     revalidating := revalidating w; notifications := notifications w;
     sync_tags := sync_tags w; skip_waiting := skip_waiting w;
     claimed := claimed w; clock := clock w |}.

(** A record of the [session_progress] store; only its key is named by the
    worker. *)
Record SessionProgress := mkSessionProgress {
  sessionId : string;
  sp_payload : string
}.

(** The world together with the third object store of [MindChatDB]. *)
Record Db := mkDb {
  world : World;
  session_progress : list SessionProgress
}.

(** A window client, as [clients.matchAll] lists it. *)
Record Client := mkClient {
  client_url : string;
  can_focus : bool          (* 'focus' in client *)
}.

(** What the notification click handler ends up doing. *)
Inductive ClickAction :=
| FocusClient (index : nat)
| OpenWindow (u : string)
| NoAction.

Section Lifecycle.

Variable net : nat -> NetRequest -> option Response.
Variable self_origin : string.

(** [JSON.stringify] of the records of a store. *)
Variable stringify_moods : list MoodRecord -> string.
Variable stringify_progress : list SessionProgress -> string.

(** [new Date(ms).toISOString().split('T')[0]] *)
Variable isoDate : Z -> string.

(** [localStorage.getItem], or [None] where the global scope of the worker
    has no [localStorage]. *)
Variable localStorage : option (string -> option string).

(** A path given to the worker's own [fetch] or cache, resolved against its
    origin. *)
Definition self_url (path : string) : URL :=
  {| origin := self_origin; pathname := path; search := "" |}.

(** [cache.addAll(paths)]: every fetch is started, then each is awaited;
    the responses are stored only when all resolved with a success. *)
Fixpoint fetch_start_all (nrs : list NetRequest) : M (list nat) :=
  match nrs with
  | [] => ret []
  | nr :: rest =>
      let* ticket := fetch_start nr in
      let* tickets := fetch_start_all rest in
      ret (ticket :: tickets)
  end.

Fixpoint fetch_await_all (tickets : list nat) (nrs : list NetRequest) : M (list Response) :=
  match tickets, nrs with
  | ticket :: tickets', nr :: rest =>
      let* response := fetch_await net ticket nr in
      if ok response then
        let* responses := fetch_await_all tickets' rest in
        ret (response :: responses)
      else throw NotOk
  | _, _ => ret []
  end.

Fixpoint cache_put_all (cache : Handle) (keys : list string) (responses : list Response)
  : M unit :=
  match keys, responses with
  | key :: keys', response :: responses' =>
      cache_store cache key [] response ;;; cache_put_all cache keys' responses'
  | _, _ => ret tt
  end.

Definition cache_addAll (cache : Handle) (paths : list string) : M unit :=
  let nrs := map (fun path => get_request (self_url path)) paths in
  let* tickets := fetch_start_all nrs in
  let* responses := fetch_await_all tickets nrs in
  cache_put_all cache (map n_url nrs) responses.

(** [Promise.all([p1, p2])]: both run to their end; the result is a
    rejection as soon as one rejects. *)
Definition promise_all2 (m1 m2 : M unit) : M unit :=
  fun w =>
    let (r1, w1) := m1 w in
    let (r2, w2) := m2 w1 in
    (match r1 with Ok _ => r2 | Throw e => Throw e end, w2).

(** Install event - cache critical assets *)
Definition install : M unit :=
  promise_all2
    (let* cache := caches_open STATIC_CACHE in cache_addAll cache STATIC_ASSETS)
    (let* cache := caches_open AUDIO_CACHE in
     cache_add net cache (self_url "/audio/breathing-basics-64k.mp3")) ;;;
  modify (set_skip_waiting true).

(** Sync mood data *)
Definition syncMoodData : M unit :=
  try_catch
    (let* moodData := gets mood_data in
     if (0 <? length moodData)%nat then
       let* response :=
         fetch net {| n_url := href (self_url "/api/sync-mood"); n_method := "POST";
                      n_headers := [("Content-Type", "application/json")];
                      n_body := Some (stringify_moods moodData) |} in
       if ok response then modify (set_mood_data []) else ret tt
     else ret tt)
    (fun _ => ret tt).

(** An async function of the worker, run on the database. *)
Definition lift {A} (m : M A) (db : Db) : Result A * Db :=
  let (r, w') := m (world db) in
  (r, {| world := w'; session_progress := session_progress db |}).

(** Sync session progress *)
Definition syncSessionProgress (db : Db) : Result unit * Db :=
  let progressData := session_progress db in
  if (0 <? length progressData)%nat then
    match fetch net {| n_url := href (self_url "/api/sync-progress"); n_method := "POST";
                       n_headers := [("Content-Type", "application/json")];
                       n_body := Some (stringify_progress progressData) |} (world db) with
    | (Ok response, w') =>
        if ok response then (Ok tt, {| world := w'; session_progress := [] |})
        else (Ok tt, {| world := w'; session_progress := progressData |})
    | (Throw _, w') => (Ok tt, {| world := w'; session_progress := progressData |})
    end
  else (Ok tt, db).

(** Background sync event handler *)
Definition onSync (t : string) (db : Db) : Result unit * Db :=
  if String.eqb t "sync-pending-requests" then lift (syncPendingRequests net) db
  else if String.eqb t "sync-mood-data" then lift syncMoodData db
  else if String.eqb t "sync-session-progress" then syncSessionProgress db
  else (Ok tt, db).

Definition reminderNotification : Notification :=
  {| title := "MindChat Reminder"; tag := "mood-reminder";
     requireInteraction := false;
     actions := [("mood-checkin", "Check In")];
     data_url := "/?section=home" |}.

(** Send mood reminder.  Without [localStorage] the lookup throws, which
    the function catches. *)
Definition sendMoodReminder : M unit :=
  let* now := date_now in
  let today := isoDate now in
  match localStorage with
  | None => ret tt
  | Some getItem =>
      match getItem ("mood_" +:+ today) with
      | Some moodToday =>
          if String.eqb moodToday "" then showNotification reminderNotification
          else ret tt
      | None => showNotification reminderNotification
      end
  end.

(** Periodic background sync for critical data *)
Definition onPeriodicSync (t : string) : M unit :=
  if String.eqb t "crisis-check" then checkCrisisSupport
  else if String.eqb t "mood-reminder" then sendMoodReminder
  else ret tt.

(** The [for (const client of clientList)] loop: the index of the first
    client it would focus. *)
Fixpoint first_to_focus (urlToOpen : string) (clientList : list Client) (index : nat)
  : option nat :=
  match clientList with
  | [] => None
  | client :: rest =>
      if String.eqb (client_url client) urlToOpen && can_focus client then Some index
      else first_to_focus urlToOpen rest (S index)
  end.

(** [event.notification.data?.url || '/']; an absent url is the empty
    [data_url]. *)
Definition urlToOpen (n : Notification) : string :=
  if String.eqb (data_url n) "" then "/" else data_url n.

(** Notification click handler; [canOpenWindow] is [clients.openWindow]
    being there. *)
Definition onNotificationClick (n : Notification) (clientList : list Client)
    (canOpenWindow : bool) : ClickAction :=
  match first_to_focus (urlToOpen n) clientList 0 with
  | Some index => FocusClient index
  | None => if canOpenWindow then OpenWindow (urlToOpen n) else NoAction
  end.

End Lifecycle.

(** ** Observations on the install step *)

(** The requests [cache.addAll(STATIC_ASSETS)] and the audio pre-cache put
    on the wire. *)
Definition static_requests (self_origin : string) : list NetRequest :=
  map (fun path => get_request (self_url self_origin path)) STATIC_ASSETS.

Definition essential_audio (self_origin : string) : URL :=
  self_url self_origin "/audio/breathing-basics-64k.mp3".

(** The responses [cache.addAll] collects for [nrs] when the first fetch
    has ticket [n]: all of them, or none when one fetch rejects or resolves
    with a status that is not a success. *)
Fixpoint responses_of (net : nat -> NetRequest -> option Response) (n : nat)
    (nrs : list NetRequest) : option (list Response) :=
  match nrs with
  | [] => Some []
  | nr :: rest =>
      match net n nr with
      | Some response =>
          if ok response then
            match responses_of net (S n) rest with
            | Some responses => Some (response :: responses)
            | None => None
            end
          else None
      | None => None
      end
  end.

(** The pairs of a partition after [responses] have been stored under
    [keys], each for a request without headers. *)
Fixpoint put_all (keys : list string) (responses : list Response) (es : list Entry)
  : list Entry :=
  match keys, responses with
  | key :: keys', response :: responses' =>
      put_all keys' responses' (put_entry key [] response es)
  | _, _ => es
  end.

(** The world after [caches.open(cache)] and the writes of [cache.addAll]. *)
Definition stored_all (cache : string) (keys : list string) (responses : list Response)
    (w : World) : World :=
  set_caches
    (<[cache := {| p_id := h_id (handle_of cache w);
                   p_entries := put_all keys responses (entries_of (caches w) cache) |}]>
       (caches (opened cache w)))
    (opened cache w).

(** ** Observations on the batch syncs *)

(** The batch request of the mood sync. *)
Definition mood_batch (self_origin : string) (stringify_moods : list MoodRecord -> string)
    (w : World) : NetRequest :=
  {| n_url := href (self_url self_origin "/api/sync-mood"); n_method := "POST";
     n_headers := [("Content-Type", "application/json")];
     n_body := Some (stringify_moods (mood_data w)) |}.

(** The batch request of the session progress sync. *)
Definition progress_batch (self_origin : string)
    (stringify_progress : list SessionProgress -> string) (db : Db) : NetRequest :=
  {| n_url := href (self_url self_origin "/api/sync-progress"); n_method := "POST";
     n_headers := [("Content-Type", "application/json")];
     n_body := Some (stringify_progress (session_progress db)) |}.

(** Whether a fetch got a success response. *)
Definition succeeded (outcome : option Response) : bool :=
  match outcome with
  | Some response => ok response
  | None => false
  end.

(** The tags the sync listener knows. *)
Definition known_sync_tags : list string :=
  ["sync-pending-requests"; "sync-mood-data"; "sync-session-progress"].

(** ** More sample data *)

Module Sample2.

(** A write whose body stream is spent once it has been handed to fetch. *)
Definition used_write : Request :=
  {| method := "POST";
     url := {| origin := Sample.site; pathname := "/api/mood"; search := "" |};
     headers := [("Content-Type", "application/json")]; body := Some "{}" |}.

(** A network that is down for the first fetch and up afterwards. *)
Definition back_online : nat -> NetRequest -> option Response :=
  fun n _ => if Nat.eqb n 0 then None else Some Sample.page.

Definition command (kind : string) (u : URL) (t : string) : MessageData :=
  {| m_type := kind; m_url := u; m_tag := t |}.

Definition audio_url : URL :=
  {| origin := Sample.site; pathname := "/audio/sleep-preparation-64k.mp3"; search := "" |}.

(** A network on which the manifest is missing. *)
Definition no_manifest : nat -> NetRequest -> option Response :=
  fun _ nr =>
    if String.eqb (n_url nr) (Sample.site +:+ "/manifest.json") then None
    else Some Sample.page.

(** A network on which the audio files are missing (404). *)
Definition not_found : Response :=
  {| status := 404; r_headers := []; r_body := BText "Not Found" |}.

Definition no_audio : nat -> NetRequest -> option Response :=
  fun _ nr =>
    if includes (n_url nr) "/audio/" then Some not_found else Some Sample.page.

(** A server that negotiates on the Accept header. *)
Definition negotiated : Response :=
  {| status := 200; r_headers := [("Content-Type", "text/html"); ("Vary", "Accept")];
     r_body := BText "shell" |}.

Definition negotiating : nat -> NetRequest -> option Response := fun _ _ => Some negotiated.

(** A response the cache does not store: it varies on everything. *)
Definition unstorable : Response :=
  {| status := 200; r_headers := [("Content-Type", "text/html"); ("Vary", "*")];
     r_body := BText "shell" |}.

Definition varying : nat -> NetRequest -> option Response := fun _ _ => Some unstorable.

(** The request of a page for a document. *)
Definition page_request (path : string) : Request :=
  {| method := "GET"; url := {| origin := Sample.site; pathname := path; search := "" |};
     headers := [("Accept", "text/html")]; body := None |}.

(** A page navigation to a path that was never cached. *)
Definition navigation : Request :=
  {| method := "GET";
     url := {| origin := Sample.site; pathname := "/journey"; search := "" |};
     headers := [("accept", "text/html,application/xhtml+xml")]; body := None |}.

(** Three low moods in the three days before the tick. *)
Definition low_week : World :=
  Sample.with_moods
    [ {| date := Some (1700000000000 - 1 * Sample.day); value := 1 |};
      {| date := Some (1700000000000 - 2 * Sample.day); value := 2 |};
      {| date := Some (1700000000000 - 3 * Sample.day); value := 2 |} ].

(** A stand-in for [JSON.stringify]. *)
Definition count_moods (moods : list MoodRecord) : string :=
  String.concat "," (map (fun _ => "mood") moods).

Definition count_progress (records : list SessionProgress) : string :=
  String.concat "," (map sessionId records).

(** Two finished sessions waiting to be sent, next to three low moods. *)
Definition two_sessions : Db :=
  {| world := low_week;
     session_progress := [ {| sessionId := "breathing-basics"; sp_payload := "done" |};
                           {| sessionId := "sleep-preparation"; sp_payload := "done" |} ] |}.

(** A stand-in for the ISO date of an instant: its day number. *)
Definition iso_day (ms : Z) : string :=
  if (ms <? Sample.day) then "1970-01-01" else "later".

(** Window clients listed under the very strings the worker uses. *)
Definition windows : list Client :=
  [ {| client_url := "/"; can_focus := true |};
    {| client_url := "/?section=crisis"; can_focus := true |};
    {| client_url := "/?section=crisis"; can_focus := true |} ].

(** Window clients as a browser lists them, by absolute URL. *)
Definition open_app : list Client :=
  [ {| client_url := Sample.site +:+ "/"; can_focus := true |};
    {| client_url := Sample.site +:+ "/?section=crisis"; can_focus := true |} ].

End Sample2.

(** * Properties *)

(** ** String predicates *)

Lemma append_empty (s : string) : "" +:+ s = s.
Proof. reflexivity. Qed.

Lemma append_String (c : ascii) (p s : string) : String c p +:+ s = String c (p +:+ s).
Proof. reflexivity. Qed.

Ltac str_simpl := rewrite ?append_empty, ?append_String in *.

Lemma startsWith_iff (s p : string) :
  startsWith s p = true <-> exists t, s = p +:+ t.
Proof.
  unfold startsWith. revert s. induction p as [|c p IH]; intros s.
  - split; [intros _; now exists s | now destruct s].
  - destruct s as [|d s]; cbn [String.prefix].
    + split; [discriminate | intros [t Ht]; discriminate].
    + destruct (Ascii.ascii_dec c d) as [->|Hne].
      * rewrite IH. split; intros [t Ht]; exists t; str_simpl; [now rewrite Ht | now inversion Ht].
      * split; [discriminate | intros [t Ht]; str_simpl; inversion Ht; congruence].
Qed.

Lemma endsWith_iff (s suf : string) :
  endsWith s suf = true <-> exists p, s = p +:+ suf.
Proof.
  induction s as [|c s IH]; cbn [endsWith].
  - destruct (String.eqb_spec "" suf) as [<-|Hne].
    + split; [intros _; now exists "" | reflexivity].
    + split; [discriminate | intros [p Hp]].
      destruct p; str_simpl; [congruence | discriminate].
  - destruct (String.eqb_spec (String c s) suf) as [<-|Hne].
    + split; [intros _; now exists "" | reflexivity].
    + rewrite IH. split.
      * intros [p ->]. now exists (String c p).
      * intros [p Hp]. destruct p as [|d p]; str_simpl; [congruence|].
        inversion Hp; subst. now exists p.
Qed.

Lemma includes_iff (s sub : string) :
  includes s sub = true <-> exists p t, s = p +:+ sub +:+ t.
Proof.
  induction s as [|c s IH]; cbn [includes].
  - destruct (String.prefix sub "") eqn:Hp.
    + split; [intros _ | reflexivity].
      apply (startsWith_iff "" sub) in Hp as [t Ht]. now exists "", t.
    + split; [discriminate | intros (p & t & Heq)].
      destruct p; str_simpl; [|discriminate].
      assert (startsWith "" sub = true) as H by (apply startsWith_iff; eauto).
      unfold startsWith in H. congruence.
  - destruct (String.prefix sub (String c s)) eqn:Hp.
    + split; [intros _ | reflexivity].
      apply (startsWith_iff (String c s) sub) in Hp as [t Ht]. now exists "", t.
    + rewrite IH. split.
      * intros (p & t & ->). now exists (String c p), t.
      * intros (p & t & Heq). destruct p as [|d p]; str_simpl.
        -- assert (startsWith (String c s) sub = true) as H by (apply startsWith_iff; eauto).
           unfold startsWith in H. congruence.
        -- inversion Heq; subst. now exists p, t.
Qed.

(** ** Matching and storing pairs *)

Lemma same_value_refl (a : option string) : same_value a a = true.
Proof. destruct a; [apply String.eqb_refl | reflexivity]. Qed.

(** A request matches the pair stored for it. *)
Lemma matches_own (key : string) (hs : list (string * string)) (r : Response) :
  matches key hs {| e_url := key; e_headers := hs; e_response := r |} = true.
Proof.
  unfold matches. cbn [e_url e_headers e_response]. rewrite String.eqb_refl. cbn [andb].
  apply forallb_forall. intros field _. apply same_value_refl.
Qed.

Lemma matches_url (key : string) (hs : list (string * string)) (e : Entry) :
  matches key hs e = true -> e_url e = key.
Proof.
  unfold matches. intros H. apply andb_prop in H as [H _]. now apply String.eqb_eq.
Qed.

Lemma find_after_filter {A} (P : A -> bool) (l : list A) (a : A) :
  P a = true -> List.find P (List.filter (fun x => negb (P x)) l ++ [a]) = Some a.
Proof.
  intros Ha. induction l as [|x l IH]; cbn [List.filter app List.find].
  - now rewrite Ha.
  - destruct (P x) eqn:Hx; cbn [negb]; [exact IH|].
    cbn [app List.find]. now rewrite Hx.
Qed.

(** Right after a put, the request finds the response put. *)
Lemma query_put_entry (key : string) (hs : list (string * string)) (r : Response)
    (es : list Entry) :
  query key hs (put_entry key hs r es) = Some r.
Proof.
  unfold query, put_entry.
  rewrite (find_after_filter (matches key hs)) by apply matches_own. reflexivity.
Qed.

(** A put leaves what requests for another URL find. *)
Lemma query_put_entry_ne (key : string) (hs : list (string * string)) (r : Response)
    (es : list Entry) (k : string) (hs' : list (string * string)) :
  k <> key -> query k hs' (put_entry key hs r es) = query k hs' es.
Proof.
  intros Hne. unfold query, put_entry. f_equal.
  induction es as [|e es IH]; cbn [List.filter app List.find].
  - destruct (matches k hs' _) eqn:E; [|reflexivity].
    apply matches_url in E. cbn in E. congruence.
  - destruct (matches key hs e) eqn:Hm; cbn [negb].
    + destruct (matches k hs' e) eqn:Hk; [|exact IH].
      apply matches_url in Hm, Hk. congruence.
    + cbn [app List.find]. now destruct (matches k hs' e).
Qed.

Lemma latest_app (key : string) (es : list Entry) (e : Entry) :
  latest key (es ++ [e])
  = if String.eqb (e_url e) key then Some (e_response e) else latest key es.
Proof.
  induction es as [|x es IH]; cbn [app latest].
  - now destruct (String.eqb (e_url e) key).
  - rewrite IH. now destruct (String.eqb (e_url e) key).
Qed.

Lemma latest_put_entry (key : string) (hs : list (string * string)) (r : Response)
    (es : list Entry) :
  latest key (put_entry key hs r es) = Some r.
Proof.
  unfold put_entry. rewrite latest_app. cbn [e_url e_response]. now rewrite String.eqb_refl.
Qed.

Lemma latest_put_entry_ne (key : string) (hs : list (string * string)) (r : Response)
    (es : list Entry) (k : string) :
  k <> key -> latest k (put_entry key hs r es) = latest k es.
Proof.
  intros Hne. unfold put_entry. rewrite latest_app. cbn [e_url].
  destruct (String.eqb_spec key k) as [E|_]; [congruence|].
  induction es as [|e es IH]; cbn [List.filter latest]; [reflexivity|].
  destruct (matches key hs e) eqn:Hm; cbn [negb latest]; rewrite IH; [|reflexivity].
  apply matches_url in Hm.
  destruct (String.eqb_spec (e_url e) k) as [E|_]; [congruence|].
  now destruct (latest k es).
Qed.

(** Where no pair is stored under a URL, no request for it finds one. *)
Lemma latest_none_query (key : string) (hs : list (string * string)) (es : list Entry) :
  latest key es = None -> query key hs es = None.
Proof.
  unfold query. induction es as [|e es IH]; cbn [latest List.find]; [reflexivity|].
  destruct (latest key es); [discriminate|].
  destruct (String.eqb_spec (e_url e) key) as [E|Hne]; [discriminate|]. intros _.
  destruct (matches key hs e) eqn:Hm; [|now apply IH].
  apply matches_url in Hm. congruence.
Qed.

(** ** Cache storage *)

Lemma entries_of_opened (cache : string) (w : World) (c : string) :
  entries_of (caches (opened cache w)) c = entries_of (caches w) c.
Proof.
  unfold opened. destruct (caches w !! cache) eqn:E; [reflexivity|].
  unfold entries_of. cbn [caches set_caches set_next_cache_id].
  destruct (decide (cache = c)) as [->|Hne].
  - now rewrite lookup_insert_eq, E.
  - now rewrite lookup_insert_ne.
Qed.

Lemma entries_of_stored (cache key : string) (hs : list (string * string)) (r : Response)
    (w : World) (c : string) :
  entries_of (caches (stored cache key hs r w)) c
  = if String.eqb c cache then put_entry key hs r (entries_of (caches w) cache)
    else entries_of (caches w) c.
Proof.
  unfold stored. cbn [caches set_caches]. unfold entries_of at 1.
  destruct (String.eqb_spec c cache) as [->|Hne].
  - now rewrite lookup_insert_eq.
  - rewrite lookup_insert_ne by congruence.
    fold (entries_of (caches (opened cache w)) c). apply entries_of_opened.
Qed.

Lemma snapshot_opened (cache : string) (w : World) (c k : string) :
  snapshot (opened cache w) c k = snapshot w c k.
Proof. unfold snapshot. now rewrite entries_of_opened. Qed.

Lemma found_opened (cache : string) (w : World) (c : string) (request : Request) :
  found (opened cache w) c request = found w c request.
Proof. unfold found. now rewrite entries_of_opened. Qed.

Lemma found_get (w : World) (cache : string) (request : Request) :
  method request = "GET" ->
  found w cache request
  = query (href (url request)) (headers request) (entries_of (caches w) cache).
Proof. intros H. unfold found. now rewrite H. Qed.

(** Only a GET finds a response. *)
Lemma found_is_get (w : World) (cache : string) (request : Request) (r : Response) :
  found w cache request = Some r -> method request = "GET".
Proof.
  unfold found. destruct (String.eqb_spec (method request) "GET"); [trivial | discriminate].
Qed.

Lemma cacheable_get (request : Request) (response : Response) :
  method request = "GET" -> cacheable request response = negb (refused response).
Proof. intros H. unfold cacheable. now rewrite H. Qed.

Lemma cacheable_accepted (request : Request) (response : Response) :
  method request = "GET" -> refused response = false -> cacheable request response = true.
Proof. intros H Hacc. now rewrite (cacheable_get _ _ H), Hacc. Qed.

Lemma cacheable_refused (request : Request) (response : Response) :
  refused response = true -> cacheable request response = false.
Proof. intros H. unfold cacheable. rewrite H. apply andb_false_r. Qed.

Lemma cacheable_is_get (request : Request) (response : Response) :
  cacheable request response = true -> method request = "GET".
Proof.
  unfold cacheable. intros H. apply andb_prop in H as [H _]. now apply String.eqb_eq.
Qed.

Lemma snapshot_stored_eq (cache key : string) (hs : list (string * string)) (r : Response)
    (w : World) :
  snapshot (stored cache key hs r w) cache key = Some r.
Proof.
  unfold snapshot. rewrite entries_of_stored, String.eqb_refl. apply latest_put_entry.
Qed.

Lemma snapshot_stored_ne (cache key : string) (hs : list (string * string)) (r : Response)
    (w : World) (c k : string) :
  (c, k) <> (cache, key) -> snapshot (stored cache key hs r w) c k = snapshot w c k.
Proof.
  intros Hne. unfold snapshot. rewrite entries_of_stored.
  destruct (String.eqb_spec c cache) as [->|Hc]; [|reflexivity].
  apply latest_put_entry_ne. congruence.
Qed.

Lemma found_stored (cache : string) (request : Request) (r : Response) (w : World) :
  method request = "GET" ->
  found (stored cache (fingerprint request) (headers request) r w) cache request = Some r.
Proof.
  intros H. rewrite (found_get _ _ _ H). unfold fingerprint.
  rewrite entries_of_stored, String.eqb_refl. apply query_put_entry.
Qed.

Lemma opened_set_fetched (cache : string) (l : list NetRequest) (w : World) :
  opened cache (set_fetched l w) = set_fetched l (opened cache w).
Proof.
  unfold opened. cbn [caches set_fetched]. now destruct (caches w !! cache).
Qed.

Lemma fetched_opened (cache : string) (w : World) : fetched (opened cache w) = fetched w.
Proof. unfold opened. now destruct (caches w !! cache). Qed.

Lemma fetched_stored (cache key : string) (hs : list (string * string)) (r : Response)
    (w : World) :
  fetched (stored cache key hs r w) = fetched w.
Proof. unfold stored. cbn [fetched set_caches]. apply fetched_opened. Qed.

Lemma revalidating_opened (cache : string) (w : World) :
  revalidating (opened cache w) = revalidating w.
Proof. unfold opened. now destruct (caches w !! cache). Qed.

Lemma revalidating_stored (cache key : string) (hs : list (string * string)) (r : Response)
    (w : World) :
  revalidating (stored cache key hs r w) = revalidating w.
Proof. unfold stored. cbn [revalidating set_caches]. apply revalidating_opened. Qed.

(** A request that finds a response finds it in a partition that exists. *)
Lemma found_partition (w : World) (cache : string) (request : Request) (r : Response) :
  found w cache request = Some r ->
  exists p, caches w !! cache = Some p
            /\ query (href (url request)) (headers request) (p_entries p) = Some r.
Proof.
  intros H. rewrite (found_get _ _ _ (found_is_get _ _ _ _ H)) in H. revert H.
  unfold entries_of. destruct (caches w !! cache) as [p|]; [eauto | discriminate].
Qed.

Lemma opened_hit (w : World) (cache : string) (request : Request) (r : Response) :
  found w cache request = Some r -> opened cache w = w.
Proof.
  intros H. apply found_partition in H as (p & Hp & _). unfold opened. now rewrite Hp.
Qed.

(** A partition that exists is never removed by opening or storing. *)
Lemma opened_keeps (cache : string) (w : World) (c : string) :
  is_Some (caches w !! c) -> is_Some (caches (opened cache w) !! c).
Proof.
  unfold opened. destruct (caches w !! cache) eqn:E; [done|]. intros H.
  cbn [caches set_caches set_next_cache_id].
  destruct (decide (cache = c)) as [->|Hne]; [rewrite lookup_insert_eq; eauto|].
  now rewrite lookup_insert_ne.
Qed.

(** ** The platform services on a handle just opened *)

Lemma caches_open_eq (name : string) (w : World) :
  caches_open name w = (Ok (handle_of name w), opened name w).
Proof.
  unfold caches_open, handle_of, opened. now destruct (caches w !! name).
Qed.

(** The handle of [caches.open] is bound to the partition of that name, as
    long as the cache storage is not changed. *)
Lemma live_handle (name : string) (w w' : World) :
  caches w' = caches (opened name w) ->
  live (handle_of name w) w' = Some (entries_of (caches w) name).
Proof.
  intros H. unfold live. rewrite H. unfold handle_of, opened, entries_of. cbn [h_name h_id].
  destruct (caches w !! name) as [p|] eqn:E.
  - now rewrite E, Nat.eqb_refl.
  - cbn [caches set_caches set_next_cache_id]. rewrite lookup_insert_eq.
    cbn [p_id p_entries]. now rewrite Nat.eqb_refl.
Qed.

Lemma cache_match_eq (name : string) (w w' : World) (m key : string)
    (hs : list (string * string)) :
  caches w' = caches (opened name w) ->
  cache_match (handle_of name w) m key hs w'
  = (Ok (if String.eqb m "GET" then query key hs (entries_of (caches w) name) else None),
     w').
Proof.
  intros H. unfold cache_match, gets. now rewrite (live_handle name w w' H).
Qed.

(** The lookup of a strategy for its request. *)
Lemma cache_match_request (name : string) (w : World) (request : Request) :
  cache_match (handle_of name w) (method request) (href (url request)) (headers request)
    (opened name w)
  = (Ok (found w name request), opened name w).
Proof. now rewrite (cache_match_eq name w (opened name w) _ _ _ eq_refl). Qed.

Lemma cache_store_eq (name : string) (w : World) (key : string)
    (hs : list (string * string)) (r : Response) :
  cache_store (handle_of name w) key hs r (opened name w) = (Ok tt, stored name key hs r w).
Proof.
  unfold cache_store, modify. now rewrite (live_handle name w (opened name w) eq_refl).
Qed.

Lemma cache_put_accepted (name : string) (w : World) (request : Request) (r : Response) :
  cacheable request r = true ->
  cache_put (handle_of name w) (method request) (fingerprint request) (headers request) r
    (opened name w)
  = (Ok tt, stored name (fingerprint request) (headers request) r w).
Proof.
  intros H. unfold cache_put, cacheable in *. apply andb_prop in H as [-> H].
  apply negb_true_iff in H. rewrite H. apply cache_store_eq.
Qed.

Lemma cache_put_refused (cache : Handle) (request : Request) (r : Response) (w : World) :
  cacheable request r = false ->
  cache_put cache (method request) (fingerprint request) (headers request) r w
  = (Throw PutRejected, w).
Proof.
  intros H. unfold cache_put, cacheable in *.
  destruct (String.eqb (method request) "GET"); cbn [negb orb andb] in *; [|reflexivity].
  apply negb_false_iff in H. now rewrite H.
Qed.

Lemma fetch_resolved net (nr : NetRequest) (w : World) (response : Response) :
  net (length (fetched w)) nr = Some response ->
  fetch net nr w = (Ok response, set_fetched (fetched w ++ [nr]) w).
Proof. intros H. unfold fetch, bind, fetch_start, fetch_await. simpl. now rewrite H. Qed.

Lemma fetch_rejected net (nr : NetRequest) (w : World) :
  net (length (fetched w)) nr = None ->
  fetch net nr w = (Throw NetworkFailure, set_fetched (fetched w ++ [nr]) w).
Proof. intros H. unfold fetch, bind, fetch_start, fetch_await. simpl. now rewrite H. Qed.


Lemma opened_idemp (cache : string) (w : World) : opened cache (opened cache w) = opened cache w.
Proof.
  unfold opened at 1. destruct (caches (opened cache w) !! cache) eqn:E; [reflexivity|].
  exfalso. revert E. unfold opened. destruct (caches w !! cache) eqn:E'.
  - now rewrite E'.
  - cbn [caches set_caches set_next_cache_id]. now rewrite lookup_insert_eq.
Qed.

Lemma handle_of_opened (cache : string) (w : World) :
  handle_of cache (opened cache w) = handle_of cache w.
Proof.
  unfold handle_of, opened. destruct (caches w !! cache) eqn:E.
  - now rewrite E.
  - cbn [caches set_caches set_next_cache_id]. now rewrite lookup_insert_eq.
Qed.

(** A put accepted after the fetch that followed the opening. *)
Lemma put_after_fetch (cache : string) (w : World) (l : list NetRequest)
    (request : Request) (r : Response) :
  cacheable request r = true ->
  cache_put (handle_of cache w) (method request) (fingerprint request) (headers request) r
    (set_fetched l (opened cache w))
  = (Ok tt, stored cache (fingerprint request) (headers request) r (set_fetched l w)).
Proof.
  intros H. rewrite <- opened_set_fetched.
  exact (cache_put_accepted cache (set_fetched l w) request r H).
Qed.

Lemma stored_existing (cache key : string) (hs : list (string * string)) (r : Response)
    (w : World) (p : Partition) :
  caches w !! cache = Some p ->
  stored cache key hs r w
  = set_caches
      (<[cache := {| p_id := p_id p; p_entries := put_entry key hs r (p_entries p) |}]>
         (caches w)) w.
Proof.
  intros H. unfold stored, opened, handle_of, entries_of. now rewrite H.
Qed.

(** ** The strategies, case by case *)

Section Strategies.

Variable net : nat -> NetRequest -> option Response.
Variables (request : Request) (cacheName : string).

Let sent (w : World) : World := set_fetched (fetched w ++ [wire request]) w.

Lemma cacheFirst_hit (w : World) (cached : Response) :
  found w cacheName request = Some cached ->
  cacheFirstStrategy net request cacheName w = (Ok cached, w).
Proof.
  intros H. unfold cacheFirstStrategy, bind. rewrite caches_open_eq.
  rewrite cache_match_request, H.
  now rewrite (opened_hit w cacheName request cached H).
Qed.

Lemma cacheFirst_miss_accepted (w : World) (response : Response) :
  found w cacheName request = None ->
  net (length (fetched w)) (wire request) = Some response ->
  cacheable request response = true ->
  cacheFirstStrategy net request cacheName w
  = (Ok response, stored cacheName (fingerprint request) (headers request) response (sent w)).
Proof.
  intros H Hnet Hacc. unfold cacheFirstStrategy, bind. rewrite caches_open_eq.
  rewrite cache_match_request, H.
  rewrite (fetch_resolved net _ _ response) by (now rewrite fetched_opened).
  rewrite fetched_opened. fold (fingerprint request).
  now rewrite put_after_fetch by exact Hacc.
Qed.

Lemma cacheFirst_miss_refused (w : World) (response : Response) :
  found w cacheName request = None ->
  net (length (fetched w)) (wire request) = Some response ->
  cacheable request response = false ->
  cacheFirstStrategy net request cacheName w
  = (Throw PutRejected, opened cacheName (sent w)).
Proof.
  intros H Hnet Href. unfold cacheFirstStrategy, bind. rewrite caches_open_eq.
  rewrite cache_match_request, H.
  rewrite (fetch_resolved net _ _ response) by (now rewrite fetched_opened).
  fold (fingerprint request). rewrite cache_put_refused by exact Href.
  unfold sent. now rewrite fetched_opened, opened_set_fetched.
Qed.

Lemma cacheFirst_miss_rejected (w : World) :
  found w cacheName request = None ->
  net (length (fetched w)) (wire request) = None ->
  cacheFirstStrategy net request cacheName w
  = (Throw NetworkFailure, opened cacheName (sent w)).
Proof.
  intros H Hnet. unfold cacheFirstStrategy, bind. rewrite caches_open_eq.
  rewrite cache_match_request, H.
  rewrite (fetch_rejected net) by (now rewrite fetched_opened).
  unfold sent. now rewrite fetched_opened, opened_set_fetched.
Qed.

Lemma networkFirst_accepted (w : World) (response : Response) :
  net (length (fetched w)) (wire request) = Some response ->
  cacheable request response = true ->
  networkFirstStrategy net request cacheName w
  = (Ok response, stored cacheName (fingerprint request) (headers request) response (sent w)).
Proof.
  intros Hnet Hacc. unfold networkFirstStrategy, try_catch, bind.
  rewrite (fetch_resolved net _ _ response Hnet), caches_open_eq.
  fold (fingerprint request). unfold sent.
  now rewrite (cache_put_accepted cacheName _ request response Hacc).
Qed.

(** The catch block of network-first, entered after the fetch. *)
Lemma networkFirst_catch (w : World) (error : Error) :
  (let* cache := caches_open cacheName in
   let* cachedResponse :=
     cache_match cache (method request) (href (url request)) (headers request) in
   match cachedResponse with
   | Some cached => ret cached
   | None => throw error
   end) (opened cacheName (sent w))
  = match found w cacheName request with
    | Some cached => (Ok cached, sent w)
    | None => (Throw error, opened cacheName (sent w))
    end.
Proof.
  unfold bind, sent. rewrite caches_open_eq, opened_idemp, handle_of_opened.
  rewrite cache_match_request.
  change (found (set_fetched _ w) cacheName request) with (found w cacheName request).
  destruct (found w cacheName request) as [cached|] eqn:H; [|reflexivity].
  now rewrite (opened_hit (set_fetched (fetched w ++ [wire request]) w) cacheName request
                 cached H).
Qed.

Lemma networkFirst_refused (w : World) (response : Response) :
  net (length (fetched w)) (wire request) = Some response ->
  cacheable request response = false ->
  networkFirstStrategy net request cacheName w
  = match found w cacheName request with
    | Some cached => (Ok cached, sent w)
    | None => (Throw PutRejected, opened cacheName (sent w))
    end.
Proof.
  intros Hnet Href. unfold networkFirstStrategy, try_catch. unfold bind at 1.
  rewrite (fetch_resolved net _ _ response Hnet). unfold bind at 1.
  rewrite caches_open_eq. unfold bind at 1.
  fold (fingerprint request). rewrite cache_put_refused by exact Href.
  apply networkFirst_catch.
Qed.

Lemma networkFirst_rejected (w : World) :
  net (length (fetched w)) (wire request) = None ->
  networkFirstStrategy net request cacheName w
  = match found w cacheName request with
    | Some cached => (Ok cached, sent w)
    | None => (Throw NetworkFailure, opened cacheName (sent w))
    end.
Proof.
  intros Hnet. unfold networkFirstStrategy, try_catch. unfold bind at 1.
  rewrite (fetch_rejected net _ _ Hnet).
  unfold bind, sent. rewrite caches_open_eq.
  rewrite cache_match_request.
  change (found (set_fetched _ w) cacheName request) with (found w cacheName request).
  destruct (found w cacheName request) as [cached|] eqn:H; [|reflexivity].
  now rewrite (opened_hit (set_fetched (fetched w ++ [wire request]) w) cacheName request
                 cached H).
Qed.

Lemma swr_cached (w : World) (cached : Response) :
  found w cacheName request = Some cached ->
  staleWhileRevalidateStrategy net request cacheName w
  = (Ok cached,
     set_revalidating
       (revalidating w ++
          [ {| rv_request := request; rv_cache := handle_of cacheName w;
               rv_ticket := length (fetched w) |} ])
       (sent w)).
Proof.
  intros H. unfold staleWhileRevalidateStrategy, bind. rewrite caches_open_eq.
  rewrite cache_match_request, H.
  now rewrite (opened_hit w cacheName request cached H).
Qed.

Lemma swr_uncached_accepted (w : World) (response : Response) :
  found w cacheName request = None ->
  net (length (fetched w)) (wire request) = Some response ->
  cacheable request response = true ->
  staleWhileRevalidateStrategy net request cacheName w
  = (Ok response, stored cacheName (fingerprint request) (headers request) response (sent w)).
Proof.
  intros H Hnet Hacc. unfold staleWhileRevalidateStrategy, bind. rewrite caches_open_eq.
  rewrite cache_match_request, H.
  unfold fetch_start, try_catch, bind, fetch_await.
  rewrite fetched_opened, Hnet. unfold ret at 1. fold (fingerprint request).
  rewrite put_after_fetch by exact Hacc. reflexivity.
Qed.

Lemma swr_uncached_refused (w : World) (response : Response) :
  found w cacheName request = None ->
  net (length (fetched w)) (wire request) = Some response ->
  cacheable request response = false ->
  staleWhileRevalidateStrategy net request cacheName w
  = (Throw NoCacheNoNetwork, opened cacheName (sent w)).
Proof.
  intros H Hnet Href. unfold staleWhileRevalidateStrategy, bind. rewrite caches_open_eq.
  rewrite cache_match_request, H.
  unfold fetch_start, try_catch, bind, fetch_await.
  rewrite fetched_opened, Hnet. unfold ret at 1. fold (fingerprint request).
  rewrite cache_put_refused by exact Href.
  unfold sent. now rewrite opened_set_fetched.
Qed.

Lemma swr_uncached_rejected (w : World) :
  found w cacheName request = None ->
  net (length (fetched w)) (wire request) = None ->
  staleWhileRevalidateStrategy net request cacheName w
  = (Throw NoCacheNoNetwork, opened cacheName (sent w)).
Proof.
  intros H Hnet. unfold staleWhileRevalidateStrategy, bind. rewrite caches_open_eq.
  rewrite cache_match_request, H.
  unfold fetch_start, try_catch, bind, fetch_await.
  rewrite fetched_opened, Hnet.
  unfold sent. now rewrite opened_set_fetched.
Qed.

End Strategies.

(** ** A revalidation settles *)

Lemma settle_accepted net (rv : Revalidation) (w : World) (response : Response)
    (es : list Entry) :
  net (rv_ticket rv) (wire (rv_request rv)) = Some response ->
  cacheable (rv_request rv) response = true ->
  live (rv_cache rv) w = Some es ->
  settle net rv w
  = (Ok tt,
     set_caches
       (<[h_name (rv_cache rv) :=
            {| p_id := h_id (rv_cache rv);
               p_entries := put_entry (fingerprint (rv_request rv))
                              (headers (rv_request rv)) response es |}]> (caches w)) w).
Proof.
  intros Hnet Hacc Hlive. unfold settle, try_catch, bind, fetch_await. rewrite Hnet.
  unfold ret at 1. unfold cache_put. unfold cacheable in Hacc.
  apply andb_prop in Hacc as [-> Hacc]. apply negb_true_iff in Hacc. rewrite Hacc.
  unfold cache_store, modify. cbn [negb orb]. now rewrite Hlive.
Qed.

Lemma settle_orphan net (rv : Revalidation) (w : World) :
  live (rv_cache rv) w = None -> settle net rv w = (Ok tt, w).
Proof.
  intros Hlive. unfold settle, try_catch, bind, fetch_await.
  destruct (net _ _) as [response|]; [|reflexivity].
  unfold ret at 1. unfold cache_put. destruct (_ || _); [reflexivity|].
  unfold cache_store, modify. now rewrite Hlive.
Qed.

Lemma settle_refused net (rv : Revalidation) (w : World) (response : Response) :
  net (rv_ticket rv) (wire (rv_request rv)) = Some response ->
  cacheable (rv_request rv) response = false ->
  settle net rv w = (Ok tt, w).
Proof.
  intros Hnet Href. unfold settle, try_catch, bind, fetch_await. rewrite Hnet.
  unfold ret at 1. fold (fingerprint (rv_request rv)). now rewrite cache_put_refused.
Qed.

Lemma settle_rejected net (rv : Revalidation) (w : World) :
  net (rv_ticket rv) (wire (rv_request rv)) = None ->
  settle net rv w = (Ok tt, w).
Proof.
  intros Hnet. unfold settle, try_catch, bind, fetch_await. now rewrite Hnet.
Qed.

(** The revalidation of a call settles right after the call. *)
Lemma settle_after_call net (request : Request) (cacheName : string) (w w' : World)
    (cached response : Response) :
  found w cacheName request = Some cached ->
  caches w' = caches w ->
  net (length (fetched w)) (wire request) = Some response ->
  cacheable request response = true ->
  settle net {| rv_request := request; rv_cache := handle_of cacheName w;
                rv_ticket := length (fetched w) |} w'
  = (Ok tt, stored cacheName (fingerprint request) (headers request) response w').
Proof.
  intros H Hc Hnet Hacc.
  destruct (found_partition w cacheName request cached H) as (p & Hp & _).
  assert (live (handle_of cacheName w) w' = Some (p_entries p)) as Hlive.
  { unfold live, handle_of. cbn [h_name h_id]. rewrite Hc, Hp. now rewrite Nat.eqb_refl. }
  rewrite (settle_accepted net
             {| rv_request := request; rv_cache := handle_of cacheName w;
                rv_ticket := length (fetched w) |} w' response (p_entries p) Hnet Hacc Hlive).
  cbn [rv_cache rv_request h_name h_id handle_of].
  rewrite (stored_existing cacheName _ _ response w' p) by (now rewrite Hc).
  unfold handle_of. cbn [h_id]. now rewrite Hp.
Qed.


(** ** The classifier (section 4.2) *)

(** C1: for every GET request the fetch listener hands the request to
    exactly one strategy, picked by precedence on the path: a static-asset
    path is served cache-first from the static partition; otherwise an
    audio path cache-first from the audio partition; otherwise an API path
    network-first against the dynamic partition; otherwise
    stale-while-revalidate against the dynamic partition.  In particular an
    API path that is neither a static asset nor an audio path is handled
    network-first. *)
Theorem classifier_precedence net self_origin (request : Request) (w : World) :
  method request = "GET" ->
  let path := pathname (url request) in
  onFetch net self_origin request w =
    (let (r, w') :=
       try_catch (run_strategy net (fst (classify path)) request (snd (classify path)))
                 (fun _ => getFallbackResponse self_origin request) w
     in (Some r, w'))
  /\ (is_static_asset path = true -> classify path = (CacheFirst, STATIC_CACHE))
  /\ (is_static_asset path = false -> in_audio_namespace path = true ->
      classify path = (CacheFirst, AUDIO_CACHE))
  /\ (is_static_asset path = false -> in_audio_namespace path = false ->
      in_api_namespace path = true -> classify path = (NetworkFirst, DYNAMIC_CACHE))
  /\ (is_static_asset path = false -> in_audio_namespace path = false ->
      in_api_namespace path = false -> classify path = (StaleWhileRevalidate, DYNAMIC_CACHE)).
Proof.
  intros Hget path. split.
  - unfold onFetch. rewrite Hget. cbn [String.eqb Ascii.eqb Bool.eqb].
    change (if true then ?a else ?b) with a. cbv beta iota.
    unfold handleGetRequest, classify, is_static_asset, in_audio_namespace,
      in_api_namespace, try_catch. fold path.
    destruct (existsb _ STATIC_ASSETS); [reflexivity|].
    destruct (includes path "/audio/"); [reflexivity|].
    destruct (startsWith path "/api/"); reflexivity.
  - unfold classify. repeat split; intros; repeat match goal with H : _ = _ |- _ => rewrite H end;
      reflexivity.
Qed.

Lemma classifier_precedence_witness :
  classify "/api/mood" = (NetworkFirst, DYNAMIC_CACHE)
  /\ classify "/audio/breathing-basics-64k.mp3" = (CacheFirst, AUDIO_CACHE)
  /\ classify "/index.html" = (CacheFirst, STATIC_CACHE)
  /\ classify "/dashboard" = (StaleWhileRevalidate, DYNAMIC_CACHE).
Proof.
  split; [|split; [|split]].
  - apply (classifier_precedence Sample.online Sample.site
             (Sample.request_to "GET" "/api/mood") Sample.fresh eq_refl); reflexivity.
  - apply (classifier_precedence Sample.online Sample.site
             (Sample.request_to "GET" "/audio/breathing-basics-64k.mp3") Sample.fresh eq_refl);
      reflexivity.
  - apply (classifier_precedence Sample.online Sample.site
             (Sample.request_to "GET" "/index.html") Sample.fresh eq_refl); reflexivity.
  - apply (classifier_precedence Sample.online Sample.site
             (Sample.request_to "GET" "/dashboard") Sample.fresh eq_refl); reflexivity.
Defined.

(** ** What the cache refuses *)

Lemma refused_iff (response : Response) :
  refused response = true <-> status response = 206 \/ In "*" (vary_fields response).
Proof.
  unfold refused. rewrite orb_true_iff, Z.eqb_eq, existsb_exists. split.
  - intros [H|(f & Hin & Hf)]; [now left | right]. apply String.eqb_eq in Hf. now subst.
  - intros [H|H]; [now left | right]. exists "*". split; [exact H | reflexivity].
Qed.

(** ** Cache-first *)

Lemma cacheFirst_hit_forever (request : Request) (cacheName : string) (w : World)
    (cached : Response) :
  found w cacheName request = Some cached ->
  forall net (n : nat),
    calls n (cacheFirstStrategy net request cacheName) w = (replicate n (Ok cached), w).
Proof.
  intros H net n. induction n as [|n IH]; simpl; [reflexivity|].
  now rewrite (cacheFirst_hit net request cacheName w cached H), IH.
Qed.

(** C2, as the worker implements it: cache-first, by what [cache.match]
    finds for the request (a response stored under its URL whose Vary
    headers the request agrees on).  When it finds a response, that
    response is returned and the world, the list of fetches issued
    included, is left as it was.  When it finds none, exactly one fetch is
    issued, and a response the cache accepts is stored and returned: from
    then on every call returns it without a fetch, whatever the network
    does.  A response the cache refuses (a 206, or one that varies on
    everything) is not stored.  If the fetch rejects, the rejection is
    thrown and nothing is stored. *)
Theorem cache_first_invariant net (request : Request) (cacheName : string) (w : World) :
  method request = "GET" ->
  (forall cached, found w cacheName request = Some cached ->
     cacheFirstStrategy net request cacheName w = (Ok cached, w))
  /\ (found w cacheName request = None ->
      fetched (snd (cacheFirstStrategy net request cacheName w))
      = fetched w ++ [wire request])
  /\ (found w cacheName request = None ->
      forall response, net (length (fetched w)) (wire request) = Some response ->
      (refused response = false ->
       exists w',
         cacheFirstStrategy net request cacheName w = (Ok response, w')
         /\ found w' cacheName request = Some response
         /\ snapshot w' cacheName (fingerprint request) = Some response
         /\ forall net' (n : nat),
              calls n (cacheFirstStrategy net' request cacheName) w'
              = (replicate n (Ok response), w'))
      /\ (refused response = true ->
          found (snd (cacheFirstStrategy net request cacheName w)) cacheName request = None
          /\ forall c k,
               snapshot (snd (cacheFirstStrategy net request cacheName w)) c k
               = snapshot w c k))
  /\ (found w cacheName request = None ->
      net (length (fetched w)) (wire request) = None ->
      exists w',
        cacheFirstStrategy net request cacheName w = (Throw NetworkFailure, w')
        /\ forall c k, snapshot w' c k = snapshot w c k).
Proof.
  intros Hget. split; [|split; [|split]].
  - intros cached H. now apply cacheFirst_hit.
  - intros H. destruct (net (length (fetched w)) (wire request)) as [response|] eqn:Hnet.
    + destruct (cacheable request response) eqn:Hc.
      * rewrite (cacheFirst_miss_accepted net request cacheName w response H Hnet Hc).
        cbn [snd]. now rewrite fetched_stored.
      * rewrite (cacheFirst_miss_refused net request cacheName w response H Hnet Hc).
        cbn [snd]. now rewrite fetched_opened.
    + rewrite (cacheFirst_miss_rejected net request cacheName w H Hnet).
      cbn [snd]. now rewrite fetched_opened.
  - intros H response Hnet. split.
    + intros Hacc. eexists.
      split; [apply cacheFirst_miss_accepted; auto using cacheable_accepted|].
      split; [now apply found_stored|]. split; [apply snapshot_stored_eq|].
      intros net' n. now apply cacheFirst_hit_forever, found_stored.
    + intros Href.
      rewrite (cacheFirst_miss_refused net request cacheName w response H Hnet
                 (cacheable_refused request response Href)).
      cbn [snd]. split; [now rewrite found_opened|].
      intros c k. now rewrite snapshot_opened.
  - intros H Hnet. eexists. split; [now apply cacheFirst_miss_rejected|].
    intros c k. now rewrite snapshot_opened.
Qed.

(** A plain request answered with the page: one fetch, the page is stored
    and returned, and served from then on.  The request of a media element
    for an audio file, answered with a part of the file: one fetch, and the
    audio partition stays empty. *)
Lemma cache_first_invariant_witness :
  (exists w',
     cacheFirstStrategy Sample.online (Sample.request_to "GET" "/index.html") STATIC_CACHE
       Sample.fresh = (Ok Sample.page, w')
     /\ found w' STATIC_CACHE (Sample.request_to "GET" "/index.html") = Some Sample.page
     /\ snapshot w' STATIC_CACHE (fingerprint (Sample.request_to "GET" "/index.html"))
        = Some Sample.page
     /\ forall net' (n : nat),
          calls n (cacheFirstStrategy net' (Sample.request_to "GET" "/index.html")
                     STATIC_CACHE) w'
          = (replicate n (Ok Sample.page), w'))
  /\ fetched (snd (cacheFirstStrategy Sample.ranged
                     (Sample.range_request "/audio/breathing-basics-64k.mp3") AUDIO_CACHE
                     Sample.fresh))
     = [wire (Sample.range_request "/audio/breathing-basics-64k.mp3")]
  /\ forall c k,
       snapshot (snd (cacheFirstStrategy Sample.ranged
                        (Sample.range_request "/audio/breathing-basics-64k.mp3") AUDIO_CACHE
                        Sample.fresh)) c k
       = snapshot Sample.fresh c k.
Proof.
  split; [|split].
  - destruct (cache_first_invariant Sample.online (Sample.request_to "GET" "/index.html")
                STATIC_CACHE Sample.fresh eq_refl) as (_ & _ & Hmiss & _).
    destruct (Hmiss eq_refl Sample.page eq_refl) as [Haccepted _].
    exact (Haccepted eq_refl).
  - destruct (cache_first_invariant Sample.ranged
                (Sample.range_request "/audio/breathing-basics-64k.mp3") AUDIO_CACHE
                Sample.fresh eq_refl) as (_ & Hone & _).
    exact (Hone eq_refl).
  - destruct (cache_first_invariant Sample.ranged
                (Sample.range_request "/audio/breathing-basics-64k.mp3") AUDIO_CACHE
                Sample.fresh eq_refl) as (_ & _ & Hmiss & _).
    destruct (Hmiss eq_refl Sample.partial eq_refl) as [_ Hrefused].
    destruct (Hrefused eq_refl) as [_ Hsame]. exact Hsame.
Defined.

(** C2 as stated fails twice.  A media element asks for an audio file by
    range and the server answers with a part of it (206): nothing was
    stored for the request, the fetch resolves, and yet the response is
    neither stored nor returned.  And a snapshot stored for the
    fingerprint is not always the one returned: after a page asked for
    "/index.html" as a document and the answer, which varies on Accept, was
    stored, a request for the same URL with another Accept header issues a
    fetch of its own. *)
Lemma cache_first_invariant_counterexample :
  found Sample.fresh AUDIO_CACHE (Sample.range_request "/audio/breathing-basics-64k.mp3")
  = None
  /\ Sample.ranged (length (fetched Sample.fresh))
       (wire (Sample.range_request "/audio/breathing-basics-64k.mp3")) = Some Sample.partial
  /\ fst (cacheFirstStrategy Sample.ranged
            (Sample.range_request "/audio/breathing-basics-64k.mp3") AUDIO_CACHE Sample.fresh)
     = Throw PutRejected
  /\ snapshot (snd (cacheFirstStrategy Sample.ranged
                      (Sample.range_request "/audio/breathing-basics-64k.mp3") AUDIO_CACHE
                      Sample.fresh))
       AUDIO_CACHE (fingerprint (Sample.range_request "/audio/breathing-basics-64k.mp3"))
     = None
  /\ fingerprint (Sample2.page_request "/index.html")
     = fingerprint (Sample.request_to "GET" "/index.html")
  /\ snapshot (snd (cacheFirstStrategy Sample2.negotiating (Sample2.page_request "/index.html")
                      STATIC_CACHE Sample.fresh))
       STATIC_CACHE (fingerprint (Sample.request_to "GET" "/index.html"))
     = Some Sample2.negotiated
  /\ fetched (snd (cacheFirstStrategy Sample.online (Sample.request_to "GET" "/index.html")
                     STATIC_CACHE
                     (snd (cacheFirstStrategy Sample2.negotiating
                             (Sample2.page_request "/index.html") STATIC_CACHE Sample.fresh))))
     = [ wire (Sample2.page_request "/index.html");
         wire (Sample.request_to "GET" "/index.html") ].
Proof. repeat split; vm_compute; reflexivity. Qed.

(** ** Network-first *)

(** C3, as the worker implements it: network-first, at the outcomes of its
    fetch.  When the fetch resolves with a response the cache accepts, the
    response is stored for the request (no snapshot of another URL or
    partition changes) and returned.  A response the cache refuses (a 206,
    or one that varies on everything) is not stored.  When the fetch
    rejects, the response [cache.match] finds for the request is returned
    and the cache storage is unchanged; when it finds none, the rejection
    is thrown to the caller. *)
Theorem network_first_behaviour net (request : Request) (cacheName : string) (w : World) :
  method request = "GET" ->
  (forall response, net (length (fetched w)) (wire request) = Some response ->
     (refused response = false ->
      exists w',
        networkFirstStrategy net request cacheName w = (Ok response, w')
        /\ found w' cacheName request = Some response
        /\ snapshot w' cacheName (fingerprint request) = Some response
        /\ forall c k, (c, k) <> (cacheName, fingerprint request) ->
                       snapshot w' c k = snapshot w c k)
     /\ (refused response = true ->
         forall c k,
           snapshot (snd (networkFirstStrategy net request cacheName w)) c k
           = snapshot w c k))
  /\ (net (length (fetched w)) (wire request) = None ->
      forall cached, found w cacheName request = Some cached ->
      exists w',
        networkFirstStrategy net request cacheName w = (Ok cached, w')
        /\ caches w' = caches w)
  /\ (net (length (fetched w)) (wire request) = None ->
      found w cacheName request = None ->
      exists w',
        networkFirstStrategy net request cacheName w = (Throw NetworkFailure, w')
        /\ forall c k, snapshot w' c k = snapshot w c k).
Proof.
  intros Hget. split; [|split].
  - intros response Hnet. split.
    + intros Hacc. eexists.
      split; [apply networkFirst_accepted; auto using cacheable_accepted|].
      split; [now apply found_stored|]. split; [apply snapshot_stored_eq|].
      intros c k Hne. now rewrite snapshot_stored_ne.
    + intros Href c k.
      rewrite (networkFirst_refused net request cacheName w response Hnet
                 (cacheable_refused request response Href)).
      destruct (found w cacheName request); cbn [snd]; [reflexivity|].
      now rewrite snapshot_opened.
  - intros Hnet cached H. rewrite (networkFirst_rejected net request cacheName w Hnet), H.
    eexists. split; reflexivity.
  - intros Hnet H. rewrite (networkFirst_rejected net request cacheName w Hnet), H.
    eexists. split; [reflexivity|]. intros c k. now rewrite snapshot_opened.
Qed.

(** An error status is stored over the page and returned; a part of the
    resource is not stored; offline, the stored page is returned or the
    failure thrown. *)
Lemma network_first_behaviour_witness :
  (exists w',
     networkFirstStrategy Sample.broken (Sample.request_to "GET" "/api/mood") DYNAMIC_CACHE
       (Sample.holding DYNAMIC_CACHE (Sample.request_to "GET" "/api/mood") Sample.page)
     = (Ok Sample.failure, w')
     /\ found w' DYNAMIC_CACHE (Sample.request_to "GET" "/api/mood") = Some Sample.failure
     /\ snapshot w' DYNAMIC_CACHE (fingerprint (Sample.request_to "GET" "/api/mood"))
        = Some Sample.failure
     /\ forall c k,
          (c, k) <> (DYNAMIC_CACHE, fingerprint (Sample.request_to "GET" "/api/mood")) ->
          snapshot w' c k
          = snapshot (Sample.holding DYNAMIC_CACHE (Sample.request_to "GET" "/api/mood")
                        Sample.page) c k)
  /\ (forall c k,
        snapshot (snd (networkFirstStrategy Sample.ranged
                         (Sample.range_request "/api/sessions") DYNAMIC_CACHE
                         (Sample.holding DYNAMIC_CACHE (Sample.range_request "/api/sessions")
                            Sample.page))) c k
        = snapshot (Sample.holding DYNAMIC_CACHE (Sample.range_request "/api/sessions")
                      Sample.page) c k)
  /\ (exists w',
        networkFirstStrategy Sample.offline (Sample.request_to "GET" "/api/mood") DYNAMIC_CACHE
          (Sample.holding DYNAMIC_CACHE (Sample.request_to "GET" "/api/mood") Sample.page)
        = (Ok Sample.page, w')
        /\ caches w'
           = caches (Sample.holding DYNAMIC_CACHE (Sample.request_to "GET" "/api/mood")
                       Sample.page))
  /\ (exists w',
        networkFirstStrategy Sample.offline (Sample.request_to "GET" "/api/mood") DYNAMIC_CACHE
          Sample.fresh = (Throw NetworkFailure, w')
        /\ forall c k, snapshot w' c k = snapshot Sample.fresh c k).
Proof.
  split; [|split; [|split]].
  - destruct (network_first_behaviour Sample.broken (Sample.request_to "GET" "/api/mood")
                DYNAMIC_CACHE
                (Sample.holding DYNAMIC_CACHE (Sample.request_to "GET" "/api/mood")
                   Sample.page) eq_refl) as (Hresolved & _).
    destruct (Hresolved Sample.failure eq_refl) as [Haccepted _].
    exact (Haccepted eq_refl).
  - destruct (network_first_behaviour Sample.ranged (Sample.range_request "/api/sessions")
                DYNAMIC_CACHE
                (Sample.holding DYNAMIC_CACHE (Sample.range_request "/api/sessions")
                   Sample.page) eq_refl) as (Hresolved & _).
    destruct (Hresolved Sample.partial eq_refl) as [_ Hrefused].
    exact (Hrefused eq_refl).
  - destruct (network_first_behaviour Sample.offline (Sample.request_to "GET" "/api/mood")
                DYNAMIC_CACHE
                (Sample.holding DYNAMIC_CACHE (Sample.request_to "GET" "/api/mood")
                   Sample.page) eq_refl) as (_ & Hcached & _).
    apply (Hcached eq_refl Sample.page). vm_compute. reflexivity.
  - destruct (network_first_behaviour Sample.offline (Sample.request_to "GET" "/api/mood")
                DYNAMIC_CACHE Sample.fresh eq_refl) as (_ & _ & Hnone).
    apply (Hnone eq_refl). vm_compute. reflexivity.
Defined.

(** C3 as stated fails twice.  A ranged GET under the API namespace is
    answered with a part (206) while the page is stored for the request:
    the fetch succeeds, and yet what is returned is the stored page, not
    the network's answer, and the entry is not overwritten.  And a prior
    snapshot of the fingerprint is not always what a failed fetch falls
    back to: with an answer that varies on Accept stored for a document
    request, a request for the same URL with another Accept header finds
    nothing and, offline, fails. *)
Lemma network_first_behaviour_counterexample :
  Sample.ranged
    (length (fetched (Sample.holding DYNAMIC_CACHE (Sample.range_request "/api/sessions")
                        Sample.page)))
    (wire (Sample.range_request "/api/sessions")) = Some Sample.partial
  /\ fst (networkFirstStrategy Sample.ranged (Sample.range_request "/api/sessions")
            DYNAMIC_CACHE
            (Sample.holding DYNAMIC_CACHE (Sample.range_request "/api/sessions") Sample.page))
     = Ok Sample.page
  /\ snapshot (snd (networkFirstStrategy Sample.ranged (Sample.range_request "/api/sessions")
                      DYNAMIC_CACHE
                      (Sample.holding DYNAMIC_CACHE (Sample.range_request "/api/sessions")
                         Sample.page)))
       DYNAMIC_CACHE (fingerprint (Sample.range_request "/api/sessions"))
     = Some Sample.page
  /\ fingerprint (Sample2.page_request "/api/sessions")
     = fingerprint (Sample.request_to "GET" "/api/sessions")
  /\ snapshot (snd (networkFirstStrategy Sample2.negotiating
                      (Sample2.page_request "/api/sessions") DYNAMIC_CACHE Sample.fresh))
       DYNAMIC_CACHE (fingerprint (Sample.request_to "GET" "/api/sessions"))
     = Some Sample2.negotiated
  /\ fst (networkFirstStrategy Sample.offline (Sample.request_to "GET" "/api/sessions")
            DYNAMIC_CACHE
            (snd (networkFirstStrategy Sample2.negotiating
                    (Sample2.page_request "/api/sessions") DYNAMIC_CACHE Sample.fresh)))
     = Throw NetworkFailure.
Proof. repeat split; vm_compute; reflexivity. Qed.

(** ** Stale-while-revalidate *)

(** C4, as the worker implements it: stale-while-revalidate, by what
    [cache.match] finds for the request.  When it finds a response, that
    response is returned whatever the network does: on return the fetch
    has been issued, its promise is still in flight and the cache storage
    is as it was.  When that promise settles with a response the cache
    accepts, the response is stored in the partition the call opened, if
    it is still there; a response the cache refuses (a 206, or one that
    varies on everything), a rejected fetch and a partition deleted in the
    meantime leave everything as it was.  So, with nothing else in flight,
    after the promise has settled the request finds the network response
    if the cache accepted it, and still the old response if not.  When
    [cache.match] finds nothing the fetch is awaited: a response the cache
    accepts is stored and returned, a response the cache refuses is not
    stored, and when the fetch rejects an error is thrown. *)
Theorem stale_while_revalidate_behaviour net (request : Request) (cacheName : string)
    (w : World) :
  method request = "GET" ->
  (forall cached, found w cacheName request = Some cached ->
     let rv := {| rv_request := request; rv_cache := handle_of cacheName w;
                  rv_ticket := length (fetched w) |} in
     exists w',
       staleWhileRevalidateStrategy net request cacheName w = (Ok cached, w')
       /\ caches w' = caches w
       /\ fetched w' = fetched w ++ [wire request]
       /\ revalidating w' = revalidating w ++ [rv]
       /\ (forall response later es,
             net (length (fetched w)) (wire request) = Some response ->
             refused response = false ->
             live (handle_of cacheName w) later = Some es ->
             settle net rv later
             = (Ok tt,
                set_caches
                  (<[cacheName :=
                       {| p_id := h_id (handle_of cacheName w);
                          p_entries := put_entry (fingerprint request) (headers request)
                                         response es |}]> (caches later)) later))
       /\ (forall response later,
             net (length (fetched w)) (wire request) = Some response ->
             refused response = true ->
             settle net rv later = (Ok tt, later))
       /\ (forall later,
             net (length (fetched w)) (wire request) = None ->
             settle net rv later = (Ok tt, later))
       /\ (forall later,
             live (handle_of cacheName w) later = None ->
             settle net rv later = (Ok tt, later))
       /\ (revalidating w = [] ->
           forall response, net (length (fetched w)) (wire request) = Some response ->
           found (snd (settle_next net w')) cacheName request
           = Some (if refused response then cached else response)))
  /\ (found w cacheName request = None ->
      forall response, net (length (fetched w)) (wire request) = Some response ->
      (refused response = false ->
       exists w',
         staleWhileRevalidateStrategy net request cacheName w = (Ok response, w')
         /\ found w' cacheName request = Some response
         /\ snapshot w' cacheName (fingerprint request) = Some response
         /\ revalidating w' = revalidating w)
      /\ (refused response = true ->
          found (snd (staleWhileRevalidateStrategy net request cacheName w)) cacheName request
          = None
          /\ forall c k,
               snapshot (snd (staleWhileRevalidateStrategy net request cacheName w)) c k
               = snapshot w c k))
  /\ (found w cacheName request = None ->
      net (length (fetched w)) (wire request) = None ->
      exists w',
        staleWhileRevalidateStrategy net request cacheName w = (Throw NoCacheNoNetwork, w')
        /\ forall c k, snapshot w' c k = snapshot w c k).
Proof.
  intros Hget. split; [|split].
  - intros cached H rv. eexists. split; [now apply swr_cached|].
    repeat (split; [reflexivity|]). split; [|split; [|split; [|split]]].
    + intros response later es Hnet Hacc Hlive.
      apply (settle_accepted net rv later response es); auto using cacheable_accepted.
    + intros response later Hnet Href.
      apply (settle_refused net rv later response); auto using cacheable_refused.
    + intros later Hnet. now apply settle_rejected.
    + intros later Hlive. now apply settle_orphan.
    + intros Hnone response Hnet. unfold settle_next.
      cbn [revalidating set_revalidating set_fetched]. rewrite Hnone. cbn [app].
      destruct (refused response) eqn:Href.
      * rewrite (settle_refused net rv _ response Hnet
                   (cacheable_refused request response Href)).
        exact H.
      * subst rv.
        rewrite (settle_after_call net request cacheName w _ cached response H);
          [now apply found_stored | reflexivity | exact Hnet
          | now apply cacheable_accepted].
  - intros H response Hnet. split.
    + intros Hacc. eexists.
      split; [apply swr_uncached_accepted; auto using cacheable_accepted|].
      split; [now apply found_stored|]. split; [apply snapshot_stored_eq|].
      now rewrite revalidating_stored.
    + intros Href.
      rewrite (swr_uncached_refused net request cacheName w response H Hnet
                 (cacheable_refused request response Href)).
      cbn [snd]. split; [now rewrite found_opened|].
      intros c k. now rewrite snapshot_opened.
  - intros H Hnet. eexists. split; [now apply swr_uncached_rejected|].
    intros c k. now rewrite snapshot_opened.
Qed.

(** With the page stored, an error status is returned only by the next
    call: this one returns the page, and the error replaces it when the
    promise settles; a part of the resource never replaces it.  With
    nothing stored the page is awaited, stored and returned, a part is not
    stored, and offline the call fails. *)
Lemma stale_while_revalidate_behaviour_witness :
  (exists w',
     staleWhileRevalidateStrategy Sample.broken (Sample.request_to "GET" "/dashboard")
       DYNAMIC_CACHE
       (Sample.holding DYNAMIC_CACHE (Sample.request_to "GET" "/dashboard") Sample.page)
     = (Ok Sample.page, w')
     /\ caches w'
        = caches (Sample.holding DYNAMIC_CACHE (Sample.request_to "GET" "/dashboard")
                    Sample.page)
     /\ found (snd (settle_next Sample.broken w')) DYNAMIC_CACHE
          (Sample.request_to "GET" "/dashboard") = Some Sample.failure)
  /\ (exists w',
        staleWhileRevalidateStrategy Sample.ranged (Sample.range_request "/media/intro.mp4")
          DYNAMIC_CACHE
          (Sample.holding DYNAMIC_CACHE (Sample.range_request "/media/intro.mp4") Sample.page)
        = (Ok Sample.page, w')
        /\ found (snd (settle_next Sample.ranged w')) DYNAMIC_CACHE
             (Sample.range_request "/media/intro.mp4") = Some Sample.page)
  /\ (exists w',
        staleWhileRevalidateStrategy Sample.online (Sample.request_to "GET" "/dashboard")
          DYNAMIC_CACHE Sample.fresh = (Ok Sample.page, w')
        /\ found w' DYNAMIC_CACHE (Sample.request_to "GET" "/dashboard") = Some Sample.page)
  /\ (forall c k,
        snapshot (snd (staleWhileRevalidateStrategy Sample.ranged
                         (Sample.range_request "/media/intro.mp4") DYNAMIC_CACHE Sample.fresh))
          c k
        = snapshot Sample.fresh c k)
  /\ (exists w',
        staleWhileRevalidateStrategy Sample.offline (Sample.request_to "GET" "/dashboard")
          DYNAMIC_CACHE Sample.fresh = (Throw NoCacheNoNetwork, w')).
Proof.
  split; [|split; [|split; [|split]]].
  - destruct (stale_while_revalidate_behaviour Sample.broken
                (Sample.request_to "GET" "/dashboard") DYNAMIC_CACHE
                (Sample.holding DYNAMIC_CACHE (Sample.request_to "GET" "/dashboard")
                   Sample.page) eq_refl) as (Hhit & _).
    destruct (Hhit Sample.page ltac:(vm_compute; reflexivity))
      as (w' & Hrun & Hc & _ & _ & _ & _ & _ & _ & Hnext).
    exists w'. split; [exact Hrun|]. split; [exact Hc|].
    exact (Hnext eq_refl Sample.failure eq_refl).
  - destruct (stale_while_revalidate_behaviour Sample.ranged
                (Sample.range_request "/media/intro.mp4") DYNAMIC_CACHE
                (Sample.holding DYNAMIC_CACHE (Sample.range_request "/media/intro.mp4")
                   Sample.page) eq_refl) as (Hhit & _).
    destruct (Hhit Sample.page ltac:(vm_compute; reflexivity))
      as (w' & Hrun & _ & _ & _ & _ & _ & _ & _ & Hnext).
    exists w'. split; [exact Hrun|]. exact (Hnext eq_refl Sample.partial eq_refl).
  - destruct (stale_while_revalidate_behaviour Sample.online
                (Sample.request_to "GET" "/dashboard") DYNAMIC_CACHE Sample.fresh eq_refl)
      as (_ & Hmiss & _).
    destruct (Hmiss eq_refl Sample.page eq_refl) as [Haccepted _].
    destruct (Haccepted eq_refl) as (w' & Hrun & Hfound & _).
    exists w'. split; assumption.
  - destruct (stale_while_revalidate_behaviour Sample.ranged
                (Sample.range_request "/media/intro.mp4") DYNAMIC_CACHE Sample.fresh eq_refl)
      as (_ & Hmiss & _).
    destruct (Hmiss eq_refl Sample.partial eq_refl) as [_ Hrefused].
    destruct (Hrefused eq_refl) as [_ Hsame]. exact Hsame.
  - destruct (stale_while_revalidate_behaviour Sample.offline
                (Sample.request_to "GET" "/dashboard") DYNAMIC_CACHE Sample.fresh eq_refl)
      as (_ & _ & Hnone).
    destruct (Hnone eq_refl eq_refl) as (w' & Hrun & _).
    exists w'. exact Hrun.
Defined.

(** C4 as stated fails three times.  A resource asked for by range and
    answered with a part (206): with nothing stored the fetch is awaited
    and resolves, and yet its response is not returned; with the page
    stored the fetch resolves with success, and yet the page is never
    overwritten.  A snapshot of the fingerprint is not always returned:
    with an answer that varies on Accept stored for a document request, a
    request for the same URL with another Accept header finds nothing and,
    offline, fails.  And a fetch that resolves after the partitions have
    been cleared overwrites nothing. *)
Lemma stale_while_revalidate_behaviour_counterexample :
  Sample.ranged (length (fetched Sample.fresh)) (wire (Sample.range_request "/media/intro.mp4"))
  = Some Sample.partial
  /\ fst (staleWhileRevalidateStrategy Sample.ranged (Sample.range_request "/media/intro.mp4")
            DYNAMIC_CACHE Sample.fresh)
     = Throw NoCacheNoNetwork
  /\ snapshot
       (snd (settle_next Sample.ranged
               (snd (staleWhileRevalidateStrategy Sample.ranged
                       (Sample.range_request "/media/intro.mp4") DYNAMIC_CACHE
                       (Sample.holding DYNAMIC_CACHE (Sample.range_request "/media/intro.mp4")
                          Sample.page)))))
       DYNAMIC_CACHE (fingerprint (Sample.range_request "/media/intro.mp4"))
     = Some Sample.page
  /\ fingerprint (Sample2.page_request "/dashboard")
     = fingerprint (Sample.request_to "GET" "/dashboard")
  /\ snapshot (snd (staleWhileRevalidateStrategy Sample2.negotiating
                      (Sample2.page_request "/dashboard") DYNAMIC_CACHE Sample.fresh))
       DYNAMIC_CACHE (fingerprint (Sample.request_to "GET" "/dashboard"))
     = Some Sample2.negotiated
  /\ fst (staleWhileRevalidateStrategy Sample.offline (Sample.request_to "GET" "/dashboard")
            DYNAMIC_CACHE
            (snd (staleWhileRevalidateStrategy Sample2.negotiating
                    (Sample2.page_request "/dashboard") DYNAMIC_CACHE Sample.fresh)))
     = Throw NoCacheNoNetwork
  /\ caches
       (snd (settle_next Sample.online
               (snd (clearAllCaches
                       (snd (staleWhileRevalidateStrategy Sample.online
                               (Sample.request_to "GET" "/dashboard") DYNAMIC_CACHE
                               (Sample.holding DYNAMIC_CACHE
                                  (Sample.request_to "GET" "/dashboard") Sample.failure)))))))
     = ∅.
Proof. repeat split; vm_compute; reflexivity. Qed.

(** ** Which responses are stored *)

(** C10, as the worker implements it: what the strategies store when
    their fetch resolves.  No strategy looks at the status: a response the
    cache accepts is stored for the request whatever its status, an error
    status included, by cache-first on a miss, by network-first (which
    then returns it, whatever was stored before), and by
    stale-while-revalidate, at once when nothing was found and when the
    promise in flight settles otherwise.  The cache refuses a response
    exactly when it is a 206 or varies on everything, and then no strategy
    changes any stored snapshot.  Nor does any when the fetch rejects. *)
Theorem stored_whatever_the_status net (request : Request) (cacheName : string) (w : World) :
  method request = "GET" ->
  let fp := fingerprint request in
  let rv := {| rv_request := request; rv_cache := handle_of cacheName w;
               rv_ticket := length (fetched w) |} in
  let cf := cacheFirstStrategy net request cacheName w in
  let nf := networkFirstStrategy net request cacheName w in
  let swr := staleWhileRevalidateStrategy net request cacheName w in
  (forall response, net (length (fetched w)) (wire request) = Some response ->
     refused response = false ->
     (found w cacheName request = None ->
      fst cf = Ok response /\ snapshot (snd cf) cacheName fp = Some response)
     /\ (fst nf = Ok response /\ snapshot (snd nf) cacheName fp = Some response)
     /\ (found w cacheName request = None ->
         fst swr = Ok response /\ snapshot (snd swr) cacheName fp = Some response)
     /\ (forall cached, found w cacheName request = Some cached ->
         revalidating (snd swr) = revalidating w ++ [rv]
         /\ snapshot (snd (settle net rv (snd swr))) cacheName fp = Some response))
  /\ (forall response,
        refused response = true
        <-> status response = 206 \/ In "*" (vary_fields response))
  /\ (forall response, net (length (fetched w)) (wire request) = Some response ->
        refused response = true ->
        forall c k,
          snapshot (snd cf) c k = snapshot w c k
          /\ snapshot (snd nf) c k = snapshot w c k
          /\ snapshot (snd swr) c k = snapshot w c k
          /\ snapshot (snd (settle net rv (snd swr))) c k = snapshot w c k)
  /\ (net (length (fetched w)) (wire request) = None ->
      forall c k,
        snapshot (snd cf) c k = snapshot w c k
        /\ snapshot (snd nf) c k = snapshot w c k
        /\ snapshot (snd swr) c k = snapshot w c k
        /\ snapshot (snd (settle net rv (snd swr))) c k = snapshot w c k).
Proof.
  intros Hget fp rv cf nf swr. subst fp cf nf swr.
  split; [|split; [|split]].
  - intros response Hnet Hacc'.
    pose proof (cacheable_accepted request response Hget Hacc') as Hacc.
    split; [|split; [|split]].
    + intros H. rewrite (cacheFirst_miss_accepted net request cacheName w response H Hnet Hacc).
      split; [reflexivity | apply snapshot_stored_eq].
    + rewrite (networkFirst_accepted net request cacheName w response Hnet Hacc).
      split; [reflexivity | apply snapshot_stored_eq].
    + intros H. rewrite (swr_uncached_accepted net request cacheName w response H Hnet Hacc).
      split; [reflexivity | apply snapshot_stored_eq].
    + intros cached H. rewrite (swr_cached net request cacheName w cached H).
      split; [reflexivity|]. cbn [snd]. subst rv.
      rewrite (settle_after_call net request cacheName w _ cached response H);
        [apply snapshot_stored_eq | reflexivity | exact Hnet | exact Hacc].
  - apply refused_iff.
  - intros response Hnet Href' c k.
    pose proof (cacheable_refused request response Href') as Href.
    rewrite (networkFirst_refused net request cacheName w response Hnet Href).
    destruct (found w cacheName request) as [cached|] eqn:H.
    + rewrite (cacheFirst_hit net request cacheName w cached H).
      rewrite (swr_cached net request cacheName w cached H). cbn [snd].
      rewrite (settle_refused net rv _ response Hnet Href).
      repeat split.
    + rewrite (cacheFirst_miss_refused net request cacheName w response H Hnet Href).
      rewrite (swr_uncached_refused net request cacheName w response H Hnet Href).
      cbn [snd]. rewrite (settle_refused net rv _ response Hnet Href).
      cbn [fst snd]. repeat split; rewrite ?snapshot_opened; reflexivity.
  - intros Hnet c k.
    rewrite (networkFirst_rejected net request cacheName w Hnet).
    destruct (found w cacheName request) as [cached|] eqn:H.
    + rewrite (cacheFirst_hit net request cacheName w cached H).
      rewrite (swr_cached net request cacheName w cached H). cbn [snd].
      rewrite (settle_rejected net rv _ Hnet). repeat split.
    + rewrite (cacheFirst_miss_rejected net request cacheName w H Hnet).
      rewrite (swr_uncached_rejected net request cacheName w H Hnet). cbn [snd].
      rewrite (settle_rejected net rv _ Hnet).
      cbn [fst snd]. repeat split; rewrite ?snapshot_opened; reflexivity.
Qed.

(** A 500 replaces the page stored for an API request and is returned; a
    206 leaves the stored page where it is. *)
Lemma stored_whatever_the_status_witness :
  (fst (networkFirstStrategy Sample.broken (Sample.request_to "GET" "/api/mood") DYNAMIC_CACHE
          (Sample.holding DYNAMIC_CACHE (Sample.request_to "GET" "/api/mood") Sample.page))
   = Ok Sample.failure
   /\ snapshot
        (snd (networkFirstStrategy Sample.broken (Sample.request_to "GET" "/api/mood")
                DYNAMIC_CACHE
                (Sample.holding DYNAMIC_CACHE (Sample.request_to "GET" "/api/mood")
                   Sample.page)))
        DYNAMIC_CACHE (fingerprint (Sample.request_to "GET" "/api/mood"))
      = Some Sample.failure)
  /\ snapshot
       (snd (networkFirstStrategy Sample.ranged (Sample.range_request "/api/sessions")
               DYNAMIC_CACHE
               (Sample.holding DYNAMIC_CACHE (Sample.range_request "/api/sessions")
                  Sample.page)))
       DYNAMIC_CACHE (fingerprint (Sample.range_request "/api/sessions"))
     = snapshot (Sample.holding DYNAMIC_CACHE (Sample.range_request "/api/sessions")
                   Sample.page)
         DYNAMIC_CACHE (fingerprint (Sample.range_request "/api/sessions")).
Proof.
  split.
  - pose proof (stored_whatever_the_status Sample.broken (Sample.request_to "GET" "/api/mood")
                  DYNAMIC_CACHE
                  (Sample.holding DYNAMIC_CACHE (Sample.request_to "GET" "/api/mood")
                     Sample.page)) as H.
    cbv zeta in H. specialize (H eq_refl). destruct H as [H _].
    destruct (H Sample.failure eq_refl eq_refl) as (_ & Hnf & _). exact Hnf.
  - pose proof (stored_whatever_the_status Sample.ranged
                  (Sample.range_request "/api/sessions") DYNAMIC_CACHE
                  (Sample.holding DYNAMIC_CACHE (Sample.range_request "/api/sessions")
                     Sample.page)) as H.
    cbv zeta in H. specialize (H eq_refl). destruct H as (_ & _ & H & _).
    destruct (H Sample.partial eq_refl eq_refl DYNAMIC_CACHE
                (fingerprint (Sample.range_request "/api/sessions"))) as (_ & Hnf & _).
    exact Hnf.
Defined.

(** C10 as stated fails at the status 206: the fetch of each strategy
    resolves with a part of the resource, and the response is written
    nowhere.  Cache-first on a miss and stale-while-revalidate leave the
    partition without a snapshot for the request, and network-first leaves
    the page stored before where it was.  Nor is a response written that
    varies on everything, whatever its status. *)
Lemma stored_whatever_the_status_counterexample :
  status Sample.partial = 206
  /\ Sample.ranged (length (fetched Sample.fresh))
       (wire (Sample.range_request "/audio/breathing-basics-64k.mp3")) = Some Sample.partial
  /\ snapshot (snd (cacheFirstStrategy Sample.ranged
                      (Sample.range_request "/audio/breathing-basics-64k.mp3") AUDIO_CACHE
                      Sample.fresh))
       AUDIO_CACHE (fingerprint (Sample.range_request "/audio/breathing-basics-64k.mp3"))
     = None
  /\ snapshot (snd (staleWhileRevalidateStrategy Sample.ranged
                      (Sample.range_request "/media/intro.mp4") DYNAMIC_CACHE Sample.fresh))
       DYNAMIC_CACHE (fingerprint (Sample.range_request "/media/intro.mp4"))
     = None
  /\ snapshot (snd (networkFirstStrategy Sample.ranged (Sample.range_request "/api/sessions")
                      DYNAMIC_CACHE
                      (Sample.holding DYNAMIC_CACHE (Sample.range_request "/api/sessions")
                         Sample.page)))
       DYNAMIC_CACHE (fingerprint (Sample.range_request "/api/sessions"))
     = Some Sample.page
  /\ snapshot (snd (cacheFirstStrategy Sample2.varying (Sample.request_to "GET" "/index.html")
                      STATIC_CACHE Sample.fresh))
       STATIC_CACHE (fingerprint (Sample.request_to "GET" "/index.html"))
     = None.
Proof. repeat split; vm_compute; reflexivity. Qed.

(** ** The write path (section 4.4) *)

Lemma handlePost_resolved net (request : Request) (w : World) (response : Response) :
  net (length (fetched w)) (wire request) = Some response ->
  handlePostRequest net request (url request) w
  = (Ok response, set_fetched (fetched w ++ [wire request]) w).
Proof.
  intros H. unfold handlePostRequest, try_catch. now rewrite (fetch_resolved _ _ _ _ H).
Qed.

Lemma handlePost_queued net (request : Request) (w : World) :
  net (length (fetched w)) (wire request) = None ->
  in_api_namespace (pathname (url request)) = true ->
  rereadable request = true ->
  handlePostRequest net request (url request) w
  = (Ok queuedResponse,
     set_pending_requests (pending_requests w ++ [outbox_entry request w])
       (S (next_key w)) (set_fetched (fetched w ++ [wire request]) w)).
Proof.
  intros H Hapi Hread. unfold handlePostRequest, try_catch.
  rewrite (fetch_rejected _ _ _ H). unfold in_api_namespace in Hapi. rewrite Hapi.
  unfold bind, storeForBackgroundSync, try_catch, request_text. rewrite Hread.
  reflexivity.
Qed.

Lemma handlePost_acknowledged net (request : Request) (w : World) :
  net (length (fetched w)) (wire request) = None ->
  in_api_namespace (pathname (url request)) = true ->
  fst (handlePostRequest net request (url request) w) = Ok queuedResponse.
Proof.
  intros H Hapi. unfold handlePostRequest, try_catch.
  rewrite (fetch_rejected _ _ _ H). unfold in_api_namespace in Hapi. rewrite Hapi.
  unfold bind, storeForBackgroundSync, try_catch, request_text.
  destruct (rereadable request); reflexivity.
Qed.

Lemma handlePost_unread net (request : Request) (w : World) :
  net (length (fetched w)) (wire request) = None ->
  in_api_namespace (pathname (url request)) = true ->
  rereadable request = false ->
  handlePostRequest net request (url request) w
  = (Ok queuedResponse, set_fetched (fetched w ++ [wire request]) w).
Proof.
  intros H Hapi Hread. unfold handlePostRequest, try_catch.
  rewrite (fetch_rejected _ _ _ H). unfold in_api_namespace in Hapi. rewrite Hapi.
  unfold bind, storeForBackgroundSync, try_catch, request_text. now rewrite Hread.
Qed.

Lemma handlePost_fetched net (request : Request) (w : World) :
  fetched (snd (handlePostRequest net request (url request) w))
  = fetched w ++ [wire request].
Proof.
  unfold handlePostRequest, try_catch.
  destruct (net (length (fetched w)) (wire request)) as [response|] eqn:H.
  - now rewrite (fetch_resolved _ _ _ _ H).
  - rewrite (fetch_rejected _ _ _ H).
    destruct (startsWith _ "/api/"); [|reflexivity].
    unfold bind, storeForBackgroundSync, try_catch, request_text.
    destruct (rereadable request); reflexivity.
Qed.

Lemma handlePost_propagated net (request : Request) (w : World) :
  net (length (fetched w)) (wire request) = None ->
  in_api_namespace (pathname (url request)) = false ->
  handlePostRequest net request (url request) w
  = (Throw NetworkFailure, set_fetched (fetched w ++ [wire request]) w).
Proof.
  intros H Hapi. unfold handlePostRequest, try_catch.
  rewrite (fetch_rejected _ _ _ H). unfold in_api_namespace in Hapi. now rewrite Hapi.
Qed.

Lemma onFetch_post net self_origin (request : Request) (w : World) :
  method request = "POST" ->
  onFetch net self_origin request w
  = (Some (fst (handlePostRequest net request (url request) w)),
     snd (handlePostRequest net request (url request) w)).
Proof.
  intros H. unfold onFetch. rewrite H. cbn [String.eqb Ascii.eqb Bool.eqb].
  change (if false then ?a else ?b) with b. cbv beta iota.
  now destruct (handlePostRequest net request (url request) w).
Qed.

(** C5, as the worker implements it: the write path is the POST path.  A
    POST is first attempted against the network, and a response is handed
    back as it came.  When the attempt fails on an API path the caller gets
    the synthetic acknowledgment with status 200; when it fails on another
    path the error is thrown.  A request whose method is neither GET nor
    POST is not responded to by the worker: nothing is acknowledged and
    nothing changes. *)
Theorem write_path net self_origin (request : Request) (w : World) :
  (method request = "POST" ->
     fetched (snd (onFetch net self_origin request w)) = fetched w ++ [wire request]
     /\ (forall response, net (length (fetched w)) (wire request) = Some response ->
           onFetch net self_origin request w
           = (Some (Ok response), set_fetched (fetched w ++ [wire request]) w))
     /\ (net (length (fetched w)) (wire request) = None ->
         in_api_namespace (pathname (url request)) = true ->
         fst (onFetch net self_origin request w) = Some (Ok queuedResponse)
         /\ status queuedResponse = 200
         /\ r_body queuedResponse
            = BJson (JObj [ ("success", JBool true); ("offline", JBool true);
                            ("message", JStr "Data queued for sync when online") ]))
     /\ (net (length (fetched w)) (wire request) = None ->
         in_api_namespace (pathname (url request)) = false ->
         onFetch net self_origin request w
         = (Some (Throw NetworkFailure), set_fetched (fetched w ++ [wire request]) w)))
  /\ (method request <> "GET" -> method request <> "POST" ->
      onFetch net self_origin request w = (None, w)).
Proof.
  split.
  - intros Hpost. rewrite (onFetch_post net self_origin request w Hpost).
    split; [apply handlePost_fetched|]. split; [|split].
    + intros response H. now rewrite (handlePost_resolved net request w response H).
    + intros H Hapi. cbn [fst snd].
      rewrite (handlePost_acknowledged net request w H Hapi).
      repeat split.
    + intros H Hapi. now rewrite (handlePost_propagated net request w H Hapi).
  - intros Hget Hpost. unfold onFetch.
    apply String.eqb_neq in Hget, Hpost. now rewrite Hget, Hpost.
Qed.

Lemma write_path_witness :
  fst (onFetch Sample.offline Sample.site Sample.mood_entry_write Sample.fresh)
  = Some (Ok queuedResponse)
  /\ onFetch Sample.online Sample.site Sample.mood_entry_write Sample.fresh
     = (Some (Ok Sample.page), set_fetched [wire Sample.mood_entry_write] Sample.fresh)
  /\ onFetch Sample.offline Sample.site (Sample.request_to "DELETE" "/api/mood") Sample.fresh
     = (None, Sample.fresh).
Proof.
  pose proof (write_path Sample.offline Sample.site Sample.mood_entry_write Sample.fresh)
    as [Hoff _].
  pose proof (write_path Sample.online Sample.site Sample.mood_entry_write Sample.fresh)
    as [Hon _].
  destruct (Hoff eq_refl) as (_ & _ & Hq & _).
  destruct (Hon eq_refl) as (_ & Hr & _).
  split; [apply (Hq eq_refl eq_refl)|]. split; [exact (Hr Sample.page eq_refl)|].
  apply (write_path Sample.offline Sample.site (Sample.request_to "DELETE" "/api/mood")
           Sample.fresh); discriminate.
Defined.

(** C5 as stated fails for a write that is not a POST: an offline PUT to
    an API path is neither queued nor acknowledged.  It also fails for the
    Outbox: an offline POST that carries the mood entry as its body is
    acknowledged, and nothing is queued. *)
Lemma write_path_counterexample :
  (method (Sample.request_to "PUT" "/api/mood") <> "GET"
   /\ in_api_namespace (pathname (url (Sample.request_to "PUT" "/api/mood"))) = true
   /\ Sample.offline (length (fetched Sample.fresh))
        (wire (Sample.request_to "PUT" "/api/mood")) = None
   /\ fst (onFetch Sample.offline Sample.site (Sample.request_to "PUT" "/api/mood")
             Sample.fresh)
      <> Some (Ok queuedResponse)
   /\ pending_requests
        (snd (onFetch Sample.offline Sample.site (Sample.request_to "PUT" "/api/mood")
                Sample.fresh))
      = [])
  /\ (method Sample.mood_entry_write <> "GET"
      /\ in_api_namespace (pathname (url Sample.mood_entry_write)) = true
      /\ Sample.offline (length (fetched Sample.fresh)) (wire Sample.mood_entry_write) = None
      /\ fst (onFetch Sample.offline Sample.site Sample.mood_entry_write Sample.fresh)
         = Some (Ok queuedResponse)
      /\ pending_requests
           (snd (onFetch Sample.offline Sample.site Sample.mood_entry_write Sample.fresh))
         = []).
Proof.
  split.
  - split; [discriminate|]. split; [reflexivity|]. split; [reflexivity|].
    split; [discriminate | reflexivity].
  - split; [discriminate|]. split; [reflexivity|]. split; [reflexivity|].
    split; reflexivity.
Qed.

(** ** Replaying the Outbox *)

Lemma remove_ids_nil (l : list RequestData) : remove_ids [] l = l.
Proof.
  unfold remove_ids. induction l as [|e l IH]; simpl in *; [reflexivity | now rewrite IH].
Qed.

Lemma remove_ids_cons (id : nat) (ids : list nat) (l : list RequestData) :
  remove_ids ids (List.filter (fun e => negb (Nat.eqb (rd_id e) id)) l)
  = remove_ids (id :: ids) l.
Proof.
  unfold remove_ids. induction l as [|e l IH]; simpl in *; [reflexivity|].
  destruct (Nat.eqb (rd_id e) id); simpl in *; [exact IH|].
  destruct (existsb (Nat.eqb (rd_id e)) ids); simpl in *; [exact IH | now rewrite IH].
Qed.

Lemma remove_ids_step (ids : list nat) (e : RequestData) (l : list RequestData) :
  remove_ids ids (e :: l)
  = if existsb (Nat.eqb (rd_id e)) ids then remove_ids ids l else e :: remove_ids ids l.
Proof. unfold remove_ids. simpl. now destruct (existsb (Nat.eqb (rd_id e)) ids). Qed.

Lemma replay_one_eq net (requestData : RequestData) (w : World) :
  replay_one net requestData w
  = (Ok tt,
     if replay_succeeds net (length (fetched w)) requestData
     then set_pending_requests
            (List.filter (fun e => negb (Nat.eqb (rd_id e) (rd_id requestData)))
               (pending_requests w))
            (next_key w) (set_fetched (fetched w ++ [wire_data requestData]) w)
     else set_fetched (fetched w ++ [wire_data requestData]) w).
Proof.
  unfold replay_one, try_catch, bind, replay_succeeds.
  destruct (net (length (fetched w)) (wire_data requestData)) as [response|] eqn:H.
  - rewrite (fetch_resolved _ _ _ _ H). destruct (ok response); reflexivity.
  - now rewrite (fetch_rejected _ _ _ H).
Qed.

Lemma replay_loop_eq net (requests : list RequestData) (w : World) :
  replay_loop net requests w
  = (Ok tt,
     set_pending_requests
       (remove_ids (synced_ids net (length (fetched w)) requests) (pending_requests w))
       (next_key w) (set_fetched (fetched w ++ map wire_data requests) w)).
Proof.
  revert w. induction requests as [|requestData rest IH]; intros w.
  - simpl. rewrite remove_ids_nil, app_nil_r. now destruct w.
  - cbn [replay_loop synced_ids map]. unfold bind. rewrite replay_one_eq.
    destruct (replay_succeeds net (length (fetched w)) requestData); rewrite IH.
    + cbn [fetched pending_requests next_key set_pending_requests set_fetched].
      rewrite length_app, Nat.add_1_r, remove_ids_cons, <- app_assoc. reflexivity.
    + cbn [fetched pending_requests next_key set_pending_requests set_fetched].
      rewrite length_app, Nat.add_1_r, <- app_assoc. reflexivity.
Qed.

Lemma synced_ids_sub net (n : nat) (l : list RequestData) (id : nat) :
  In id (synced_ids net n l) -> In id (map rd_id l).
Proof.
  revert n. induction l as [|e l IH]; intros n; simpl; [tauto|].
  destruct (replay_succeeds net n e); simpl; [intros [H|H]; eauto | eauto].
Qed.

Lemma existsb_eqb_In (id : nat) (ids : list nat) :
  existsb (Nat.eqb id) ids = true <-> In id ids.
Proof.
  rewrite existsb_exists. split.
  - intros (x & Hx & E). apply Nat.eqb_eq in E. now subst.
  - intros H. exists id. split; [exact H | apply Nat.eqb_refl].
Qed.

(** With unique keys, deleting by key removes exactly the entries whose own
    replay succeeded. *)
Lemma remove_synced_unsynced net (n : nat) (l : list RequestData) :
  NoDup (map rd_id l) ->
  remove_ids (synced_ids net n l) l = unsynced net n l.
Proof.
  revert n. induction l as [|e l IH]; intros n Hnd; [reflexivity|].
  cbn [map] in Hnd. apply NoDup_cons in Hnd as [Hnotin Hnd'].
  rewrite list_elem_of_In in Hnotin.
  cbn [synced_ids unsynced].
  assert (Hrest : forall ids,
             remove_ids (rd_id e :: ids) l = remove_ids ids l).
  { intros ids. unfold remove_ids. apply List.filter_ext_in. intros a Ha. simpl.
    destruct (Nat.eqb_spec (rd_id a) (rd_id e)) as [E|_]; [|reflexivity].
    exfalso. apply Hnotin. rewrite <- E. now apply List.in_map. }
  rewrite remove_ids_step. destruct (replay_succeeds net n e).
  - cbn [existsb]. rewrite Nat.eqb_refl. cbn [orb].
    rewrite Hrest. now apply IH.
  - destruct (existsb (Nat.eqb (rd_id e)) (synced_ids net (S n) l)) eqn:E.
    + exfalso. apply Hnotin. apply existsb_eqb_In in E. eapply synced_ids_sub; eauto.
    + f_equal. now apply IH.
Qed.

Lemma syncPendingRequests_eq net (w : World) :
  NoDup (map rd_id (pending_requests w)) ->
  syncPendingRequests net w
  = (Ok tt,
     set_pending_requests (unsynced net (length (fetched w)) (pending_requests w))
       (next_key w) (set_fetched (fetched w ++ map wire_data (pending_requests w)) w)).
Proof.
  intros Hnd. unfold syncPendingRequests, try_catch, bind, getAllFromStore, gets.
  rewrite replay_loop_eq. now rewrite remove_synced_unsynced.
Qed.

Lemma unsynced_In net (n : nat) (l : list RequestData) (e : RequestData) :
  In e (unsynced net n l) -> In e l.
Proof.
  revert n. induction l as [|a l IH]; intros n; simpl; [tauto|].
  destruct (replay_succeeds net n a); simpl; [eauto | intros [H|H]; eauto].
Qed.

Lemma unsynced_sublist net (n : nat) (l : list RequestData) :
  sublist (unsynced net n l) l.
Proof.
  revert n. induction l as [|a l IH]; intros n; simpl; [constructor|].
  destruct (replay_succeeds net n a); [apply sublist_cons | apply sublist_skip]; apply IH.
Qed.

Lemma unsynced_all_succeed net (n : nat) (l : list RequestData) :
  (forall i e, l !! i = Some e -> replay_succeeds net (n + i) e = true) ->
  unsynced net n l = [].
Proof.
  revert n. induction l as [|a l IH]; intros n H; [reflexivity|]. simpl.
  rewrite <- (Nat.add_0_r n) at 1. rewrite (H 0%nat a eq_refl).
  apply IH. intros i e Hi. rewrite Nat.add_succ_l, <- Nat.add_succ_r. now apply (H (S i)).
Qed.

(** An entry stays queued exactly when its own replay did not succeed. *)
Lemma unsynced_lookup net (n : nat) (l : list RequestData) (i : nat) (e : RequestData) :
  NoDup (map rd_id l) ->
  l !! i = Some e ->
  (In e (unsynced net n l) <-> replay_succeeds net (n + i) e = false).
Proof.
  revert n i. induction l as [|a l IH]; intros n i Hnd Hi; [discriminate|].
  cbn [map] in Hnd. apply NoDup_cons in Hnd as [Hnotin Hnd'].
  rewrite list_elem_of_In in Hnotin.
  destruct i as [|i]; cbn in Hi.
  - injection Hi as ->. rewrite Nat.add_0_r. cbn [unsynced].
    destruct (replay_succeeds net n e) eqn:E.
    + split; [|discriminate]. intros H. exfalso. apply Hnotin.
      apply List.in_map. eapply unsynced_In; eauto.
    + split; [reflexivity | intros _; now left].
  - assert (a <> e) as Hne.
    { intros ->. apply Hnotin. apply List.in_map.
      apply list_elem_of_In. eapply list_elem_of_lookup_2; eauto. }
    rewrite Nat.add_succ_r, <- Nat.add_succ_l. rewrite <- (IH (S n) i Hnd' Hi).
    cbn [unsynced]. destruct (replay_succeeds net n a); [reflexivity|].
    simpl. split; [intros [H|H]; [congruence | exact H] | now right].
Qed.

(** The write path keeps the store's invariant: keys are handed out in
    increasing order, so key order is enqueue order. *)
Lemma outbox_wf_handlePost net (request : Request) (w : World) :
  outbox_wf w -> outbox_wf (snd (handlePostRequest net request (url request) w)).
Proof.
  intros [Hnd Hlt].
  destruct (net (length (fetched w)) (wire request)) as [response|] eqn:H.
  { rewrite (handlePost_resolved net request w response H). now split. }
  destruct (in_api_namespace (pathname (url request))) eqn:Hapi.
  2: { rewrite (handlePost_propagated net request w H Hapi). now split. }
  destruct (rereadable request) eqn:Hread.
  - rewrite (handlePost_queued net request w H Hapi Hread).
    unfold outbox_wf. cbn [snd pending_requests next_key set_pending_requests].
    split.
    + rewrite map_app. cbn [map outbox_entry rd_id].
      apply NoDup_app. split; [exact Hnd|]. split; [|apply NoDup_singleton].
      intros id Hin Hin'. apply list_elem_of_In in Hin. apply List.in_map_iff in Hin.
      destruct Hin as (e & <- & He). apply list_elem_of_In in He.
      rewrite Forall_forall in Hlt. specialize (Hlt e He).
      apply list_elem_of_singleton in Hin'. lia.
    + apply Forall_app. split.
      * eapply Forall_impl; [exact Hlt|]. intros e He. simpl in *. lia.
      * apply Forall_singleton. simpl. lia.
  - unfold handlePostRequest, try_catch. rewrite (fetch_rejected _ _ _ H).
    unfold in_api_namespace in Hapi. rewrite Hapi.
    unfold bind, storeForBackgroundSync, try_catch, request_text. rewrite Hread.
    now split.
Qed.

(** C6, as the worker implements it: replay re-issues every Outbox entry
    once, in enqueue order, as the request built from the stored url,
    method, headers and body (for a queued write: the url and method of the
    original request, its headers as stored, an empty string body and the
    content type the platform adds for it), and goes on after a failure.  An entry is
    removed exactly when its own replay receives a 2xx response; any other
    outcome leaves it queued, in its place.  So when every replay succeeds
    the Outbox ends empty, and when the replay of entry [k] fails, entry
    [k] stays queued while every other entry, before or after it, is
    removed exactly if its own replay succeeded. *)
Theorem outbox_replay net (w : World) :
  outbox_wf w ->
  let n := length (fetched w) in
  let w' := snd (syncPendingRequests net w) in
  fst (syncPendingRequests net w) = Ok tt
  /\ fetched w' = fetched w ++ map wire_data (pending_requests w)
  /\ pending_requests w' = unsynced net n (pending_requests w)
  /\ sublist (pending_requests w') (pending_requests w)
  /\ (forall i e, pending_requests w !! i = Some e ->
        (In e (pending_requests w') <-> replay_succeeds net (n + i) e = false))
  /\ ((forall i e, pending_requests w !! i = Some e ->
         replay_succeeds net (n + i) e = true) ->
      pending_requests w' = [])
  /\ (forall request w0,
        wire_data (outbox_entry request w0) = replayed request
        /\ n_url (replayed request) = n_url (wire request)
        /\ n_method (replayed request) = n_method (wire request)).
Proof.
  intros [Hnd _] n w'. subst n w'. rewrite (syncPendingRequests_eq net w Hnd).
  cbn [fst snd fetched pending_requests set_pending_requests set_fetched].
  split; [reflexivity|]. split; [reflexivity|]. split; [reflexivity|].
  split; [apply unsynced_sublist|]. split; [|split].
  - intros i e Hi. now apply unsynced_lookup.
  - apply unsynced_all_succeed.
  - intros request w0. split; [reflexivity|]. split; reflexivity.
Qed.

Lemma outbox_wf_after_two_writes : outbox_wf Sample.after_two_writes.
Proof.
  unfold Sample.after_two_writes.
  rewrite !onFetch_post by reflexivity. cbn [snd].
  apply outbox_wf_handlePost, outbox_wf_handlePost.
  split; [apply NoDup_nil_2 | apply Forall_nil_2].
Qed.

Lemma outbox_replay_witness :
  pending_requests (snd (syncPendingRequests Sample.online Sample.after_two_writes)) = []
  /\ pending_requests (snd (syncPendingRequests Sample.flaky Sample.after_two_writes))
     = [ outbox_entry Sample.mood_write Sample.fresh ]
  /\ fetched (snd (syncPendingRequests Sample.online
                     (snd (syncPendingRequests Sample.online Sample.after_two_writes))))
     = fetched (snd (syncPendingRequests Sample.online Sample.after_two_writes)).
Proof.
  assert (outbox_wf Sample.after_two_writes) as Hwf.
  { split; (eapply bool_decide_unpack; vm_compute; reflexivity). }
  assert (outbox_wf (snd (syncPendingRequests Sample.online Sample.after_two_writes)))
    as Hwf'.
  { split; (eapply bool_decide_unpack; vm_compute; reflexivity). }
  split; [|split].
  - apply (outbox_replay Sample.online Sample.after_two_writes Hwf).
    intros i e Hi.
    destruct i as [|[|i]]; vm_compute in Hi;
      [injection Hi as <-; reflexivity | injection Hi as <-; reflexivity | discriminate].
  - destruct (outbox_replay Sample.flaky Sample.after_two_writes Hwf) as (_ & _ & Hq & _).
    rewrite Hq. reflexivity.
  - destruct (outbox_replay Sample.online
                (snd (syncPendingRequests Sample.online Sample.after_two_writes)) Hwf')
      as (_ & Hf & _).
    rewrite Hf. vm_compute. reflexivity.
Defined.

(** C6 as stated fails after the failing entry: the replay does not stop
    at it.  With the mood write queued first and the progress write second,
    a replay in which the first fails and the second succeeds removes the
    second.  And what a replay sends is not the original request: the
    request built from the record has a string body, for which the
    platform adds a content type. *)
Lemma outbox_replay_counterexample :
  pending_requests Sample.after_two_writes
  = [ outbox_entry Sample.mood_write Sample.fresh;
      outbox_entry Sample.progress_write
        (snd (onFetch Sample.offline Sample.site Sample.mood_write Sample.fresh)) ]
  /\ replay_succeeds Sample.flaky (length (fetched Sample.after_two_writes))
       (outbox_entry Sample.mood_write Sample.fresh) = false
  /\ ~ In (outbox_entry Sample.progress_write
             (snd (onFetch Sample.offline Sample.site Sample.mood_write Sample.fresh)))
          (pending_requests (snd (syncPendingRequests Sample.flaky Sample.after_two_writes)))
  /\ n_headers (wire_data (outbox_entry Sample.mood_write Sample.fresh))
     = [("accept", "application/json"); ("content-type", "text/plain;charset=UTF-8")]
  /\ n_headers (wire Sample.mood_write) = [("Accept", "application/json")].
Proof.
  split; [reflexivity|]. split; [reflexivity|]. split; [|split; reflexivity].
  vm_compute. intros [H|[]]. discriminate H.
Qed.

(** ** The support trigger (section 4.5) *)

Lemma checkCrisisSupport_eq (w : World) :
  checkCrisisSupport w
  = (Ok tt,
     if (3 <=? low_count w)%nat
     then set_notifications (notifications w ++ [crisisNotification]) w
     else w).
Proof.
  unfold checkCrisisSupport, try_catch, bind, date_now, gets, low_count, recent_low,
    three_days, showNotification, modify, ret.
  cbv beta iota zeta.
  destruct (Nat.leb 3 _); reflexivity.
Qed.

Lemma low_count_three (w : World) (r1 r2 r3 : MoodRecord) :
  mood_data w = [r1; r2; r3] ->
  recent_low (clock w) r3 = false -> (low_count w < 3)%nat.
Proof.
  intros Hm H3. unfold low_count. rewrite Hm. cbn [List.filter]. rewrite H3.
  destruct (recent_low (clock w) r1), (recent_low (clock w) r2); cbn [length]; lia.
Qed.

(** C8, as the worker implements it: on a tick the support check reads the
    stored mood records, keeps those dated no earlier than 72 hours (3 x 24
    hours) before the tick and valued at most 2, and shows the
    interaction-required support notification exactly when at least 3 are
    left; otherwise it changes nothing.  Three records dated within those 72
    hours with values 1, 2, 2 fire it; of three records, one dated earlier
    than that keeps it silent; records with values 4 and 5 never fire
    it. *)
Theorem support_trigger (w : World) :
  (low_count w = length (List.filter
                           (fun mood => match date mood with
                                        | Some ms => (clock w - 259200000 <=? ms)
                                                     && (value mood <=? 2)
                                        | None => false
                                        end) (mood_data w)))
  /\ ((3 <= low_count w)%nat ->
      checkCrisisSupport w
      = (Ok tt, set_notifications (notifications w ++ [crisisNotification]) w))
  /\ ((low_count w < 3)%nat -> checkCrisisSupport w = (Ok tt, w))
  /\ requireInteraction crisisNotification = true
  /\ (forall t1 t2 t3,
        clock w - 259200000 <= t1 -> clock w - 259200000 <= t2 ->
        clock w - 259200000 <= t3 ->
        mood_data w = [ {| date := Some t1; value := 1 |};
                        {| date := Some t2; value := 2 |};
                        {| date := Some t3; value := 2 |} ] ->
        notifications (snd (checkCrisisSupport w)) = notifications w ++ [crisisNotification])
  /\ (forall r1 r2 t3 v3,
        t3 < clock w - 259200000 ->
        mood_data w = [ r1; r2; {| date := Some t3; value := v3 |} ] ->
        checkCrisisSupport w = (Ok tt, w))
  /\ (forall d1 d2,
        mood_data w = [ {| date := d1; value := 4 |}; {| date := d2; value := 5 |} ] ->
        checkCrisisSupport w = (Ok tt, w)).
Proof.
  split; [|split; [|split; [|split; [|split; [|split]]]]].
  - unfold low_count. f_equal. apply List.filter_ext. intros mood.
    unfold recent_low, date_geq, three_days. now destruct (date mood).
  - intros H. rewrite checkCrisisSupport_eq.
    apply Nat.leb_le in H. now rewrite H.
  - intros H. rewrite checkCrisisSupport_eq.
    apply Nat.leb_gt in H. now rewrite H.
  - reflexivity.
  - intros t1 t2 t3 H1 H2 H3 Hm. rewrite checkCrisisSupport_eq.
    assert (low_count w = 3%nat) as ->; [|reflexivity].
    unfold low_count. rewrite Hm. unfold recent_low, date_geq, three_days.
    cbn [List.filter date value].
    change (3 * 24 * 60 * 60 * 1000) with 259200000.
    apply Z.leb_le in H1, H2, H3. now rewrite H1, H2, H3.
  - intros r1 r2 t3 v3 Hold Hm. rewrite checkCrisisSupport_eq.
    assert (low_count w < 3)%nat as Hlow.
    { apply (low_count_three w r1 r2 _ Hm).
      unfold recent_low, date_geq, three_days. cbn [date value].
      change (3 * 24 * 60 * 60 * 1000) with 259200000.
      apply Z.leb_gt in Hold. now rewrite Hold. }
    apply Nat.leb_gt in Hlow. now rewrite Hlow.
  - intros d1 d2 Hm. rewrite checkCrisisSupport_eq.
    assert (low_count w = 0%nat) as ->; [|reflexivity].
    unfold low_count. rewrite Hm. unfold recent_low. cbn [List.filter date value].
    change (4 <=? 2) with false. change (5 <=? 2) with false.
    now rewrite !andb_false_r.
Qed.

Lemma support_trigger_witness :
  notifications (snd (checkCrisisSupport (Sample.with_moods Sample.low_hours)))
  = [crisisNotification]
  /\ checkCrisisSupport (Sample.with_moods Sample.low_days)
     = (Ok tt, Sample.with_moods Sample.low_days)
  /\ checkCrisisSupport
       (Sample.with_moods
          [ {| date := Some (1700000000000 - 1 * Sample.day); value := 4 |};
            {| date := Some (1700000000000 - 2 * Sample.day); value := 5 |} ])
     = (Ok tt,
        Sample.with_moods
          [ {| date := Some (1700000000000 - 1 * Sample.day); value := 4 |};
            {| date := Some (1700000000000 - 2 * Sample.day); value := 5 |} ]).
Proof.
  split; [|split].
  - destruct (support_trigger (Sample.with_moods Sample.low_hours))
      as (_ & _ & _ & _ & H & _).
    apply (H 1699950000000 1699900000000 1699750000000); cbn [clock Sample.with_moods];
      [lia | lia | lia | reflexivity].
  - destruct (support_trigger (Sample.with_moods Sample.low_days))
      as (_ & _ & _ & _ & _ & H & _).
    apply (H {| date := Some 1699833600000; value := 1 |}
             {| date := Some 1699747200000; value := 2 |} 1699660800000 2);
      cbn [clock Sample.with_moods]; [lia | reflexivity].
  - destruct (support_trigger
                (Sample.with_moods
                   [ {| date := Some (1700000000000 - 1 * Sample.day); value := 4 |};
                     {| date := Some (1700000000000 - 2 * Sample.day); value := 5 |} ]))
      as (_ & _ & _ & _ & _ & _ & H).
    apply (H (Some (1700000000000 - 1 * Sample.day)) (Some (1700000000000 - 2 * Sample.day))).
    reflexivity.
Defined.

(** C8 as stated fails for records dated by calendar day.  The tick comes
    on the evening of a day; the three records are dated at the start of
    the first, second and third calendar day before it and have values 1,
    2 and 2.  The third is more than 72 hours old, so only two are counted
    and nothing is shown.  The same holds for a record one millisecond
    older than 72 hours. *)
Lemma support_trigger_counterexample :
  (map (fun mood => (calendar_day (clock (Sample.with_moods Sample.low_days))
                     - from_option calendar_day 0 (date mood), value mood))
       Sample.low_days
   = [(1, 1); (2, 2); (3, 2)]
   /\ low_count (Sample.with_moods Sample.low_days) = 2%nat
   /\ notifications (snd (checkCrisisSupport (Sample.with_moods Sample.low_days))) = [])
  /\ notifications
       (snd (checkCrisisSupport
               (Sample.with_moods
                  [ {| date := Some (1700000000000 - 1 * Sample.day); value := 1 |};
                    {| date := Some (1700000000000 - 2 * Sample.day); value := 2 |};
                    {| date := Some (1700000000000 - 3 * Sample.day - 1); value := 2 |} ])))
     = [].
Proof.
  split; [split; [|split]|]; reflexivity.
Qed.

(** ** Deleting partitions: activation and the clear-all command *)

Lemma for_each_sweep (doomed : string -> bool) (names : list string) (w : World) :
  for_each names (fun name => if doomed name then caches_delete name else ret tt) w
  = (Ok tt, set_caches (sweep doomed names (caches w)) w).
Proof.
  revert w. induction names as [|name names IH]; intros w.
  - simpl. now destruct w.
  - cbn [for_each]. unfold bind at 1. unfold sweep. cbn [fold_left].
    destruct (doomed name).
    + unfold caches_delete at 1, modify at 1. rewrite IH. reflexivity.
    + unfold ret at 1. rewrite IH. reflexivity.
Qed.

Lemma lookup_sweep (doomed : string -> bool) (names : list string)
    (cs : gmap string Partition) (c : string) :
  sweep doomed names cs !! c
  = if doomed c && bool_decide (c ∈ names) then None else cs !! c.
Proof.
  revert cs. induction names as [|name names IH]; intros cs.
  - unfold sweep. simpl. now rewrite andb_false_r.
  - unfold sweep in *. cbn [fold_left]. rewrite IH.
    destruct (doomed c) eqn:Hc; cbn [andb].
    + destruct (decide (c = name)) as [->|Hne].
      * rewrite Hc. rewrite (bool_decide_eq_true_2 (name ∈ name :: names)) by (apply elem_of_cons; now left).
        destruct (bool_decide (name ∈ names)); [reflexivity | apply lookup_delete_eq].
      * rewrite (bool_decide_ext (c ∈ name :: names) (c ∈ names)).
        2: { rewrite elem_of_cons. intuition congruence. }
        destruct (bool_decide (c ∈ names)); [reflexivity|].
        destruct (doomed name); [now rewrite lookup_delete_ne | reflexivity].
    + destruct (doomed name) eqn:Hn; [|reflexivity].
      rewrite lookup_delete_ne; [reflexivity | congruence].
Qed.

Lemma elem_of_keys (cs : gmap string Partition) (c : string) :
  c ∈ (map_to_list cs).*1 <-> is_Some (cs !! c).
Proof.
  rewrite list_elem_of_fmap. split.
  - intros ([k part] & -> & Hin). apply elem_of_map_to_list in Hin. eauto.
  - intros [part Hp]. exists (c, part). split; [reflexivity | now apply elem_of_map_to_list].
Qed.

(** Sweeping over all the names of the storage. *)
Lemma lookup_sweep_keys (doomed : string -> bool) (cs : gmap string Partition)
    (c : string) :
  sweep doomed (map_to_list cs).*1 cs !! c = if doomed c then None else cs !! c.
Proof.
  rewrite lookup_sweep. destruct (doomed c); [|reflexivity]. cbn [andb].
  destruct (bool_decide (c ∈ (map_to_list cs).*1)) eqn:E; [reflexivity|].
  apply bool_decide_eq_false in E. rewrite elem_of_keys in E.
  destruct (cs !! c) eqn:Hc; [exfalso; eauto | reflexivity].
Qed.

Lemma stale_expected (name : string) : stale name = false <-> name ∈ expected_caches.
Proof.
  unfold stale, neq, expected_caches. rewrite !elem_of_cons, elem_of_nil.
  destruct (String.eqb_spec name STATIC_CACHE); [intuition congruence|].
  destruct (String.eqb_spec name DYNAMIC_CACHE); [intuition congruence|].
  destruct (String.eqb_spec name AUDIO_CACHE); [intuition congruence|].
  cbn. intuition congruence.
Qed.

Lemma activate_eq (w : World) :
  activate w
  = (Ok tt, set_claimed true (set_caches (sweep stale (map_to_list (caches w)).*1 (caches w)) w)).
Proof.
  unfold activate, bind, caches_keys, gets.
  change (fun cacheName : string =>
            if neq cacheName STATIC_CACHE && neq cacheName DYNAMIC_CACHE
               && neq cacheName AUDIO_CACHE
            then caches_delete cacheName else ret tt)
    with (fun name : string => if stale name then caches_delete name else ret tt).
  now rewrite for_each_sweep.
Qed.

Lemma clearAllCaches_eq (w : World) : clearAllCaches w = (Ok tt, set_caches ∅ w).
Proof.
  unfold clearAllCaches, try_catch, bind, caches_keys, gets.
  change caches_delete
    with (fun name : string => if (fun _ => true) name then caches_delete name else ret tt).
  rewrite for_each_sweep. do 2 f_equal. apply map_empty. intros c.
  now rewrite lookup_sweep_keys.
Qed.

(** ** Nothing but activation and the clear-all command removes a partition *)

Lemma keeps_ret {A} (a : A) : keeps_partitions (ret a).
Proof. intros w name H. exact H. Qed.

Lemma keeps_throw {A} (e : Error) : keeps_partitions (@throw A e).
Proof. intros w name H. exact H. Qed.

Lemma keeps_gets {A} (f : World -> A) : keeps_partitions (gets f).
Proof. intros w name H. exact H. Qed.

Lemma keeps_modify (f : World -> World) :
  (forall w, caches (f w) = caches w) -> keeps_partitions (modify f).
Proof. intros Hf w name H. unfold modify. cbn [snd]. now rewrite Hf. Qed.

Lemma keeps_bind {A B} (m : M A) (k : A -> M B) :
  keeps_partitions m -> (forall a, keeps_partitions (k a)) -> keeps_partitions (bind m k).
Proof.
  intros Hm Hk w name H. unfold bind. specialize (Hm w name H).
  destruct (m w) as [[a|e] w1]; cbn [snd] in *; [now apply Hk | exact Hm].
Qed.

Lemma keeps_try_catch {A} (m : M A) (h : Error -> M A) :
  keeps_partitions m -> (forall e, keeps_partitions (h e)) -> keeps_partitions (try_catch m h).
Proof.
  intros Hm Hh w name H. unfold try_catch. specialize (Hm w name H).
  destruct (m w) as [[a|e] w1]; cbn [snd] in *; [exact Hm | now apply Hh].
Qed.

Lemma keeps_caches_open (cache : string) : keeps_partitions (caches_open cache).
Proof. intros w name H. rewrite caches_open_eq. now apply opened_keeps. Qed.

Lemma keeps_cache_store (cache : Handle) (key : string) (hs : list (string * string))
    (r : Response) :
  keeps_partitions (cache_store cache key hs r).
Proof.
  intros w name H. unfold cache_store, modify. cbn [snd].
  destruct (live cache w); [|exact H]. cbn [caches set_caches].
  destruct (decide (h_name cache = name)) as [->|Hne]; [rewrite lookup_insert_eq; eauto|].
  now rewrite lookup_insert_ne.
Qed.

Lemma keeps_cache_put (cache : Handle) (m key : string) (hs : list (string * string))
    (r : Response) :
  keeps_partitions (cache_put cache m key hs r).
Proof.
  unfold cache_put. destruct (_ || _); [apply keeps_throw | apply keeps_cache_store].
Qed.

Lemma keeps_fetch_start (nr : NetRequest) : keeps_partitions (fetch_start nr).
Proof. intros w name H. exact H. Qed.

Lemma keeps_fetch_await net (n : nat) (nr : NetRequest) :
  keeps_partitions (fetch_await net n nr).
Proof. unfold fetch_await. destruct (net n nr); [apply keeps_ret | apply keeps_throw]. Qed.

Ltac keeps_step :=
  first
    [ apply keeps_bind | apply keeps_try_catch | apply keeps_ret | apply keeps_throw
    | apply keeps_gets | apply keeps_caches_open | apply keeps_cache_put
    | apply keeps_cache_store | apply keeps_fetch_start | apply keeps_fetch_await
    | apply keeps_modify; intros; reflexivity
    | match goal with
      | |- keeps_partitions (match ?x with _ => _ end) => destruct x
      | |- forall _, _ => intro
      end ].

Ltac keeps := repeat keeps_step.

Lemma keeps_cacheFirst net request cacheName :
  keeps_partitions (cacheFirstStrategy net request cacheName).
Proof. unfold cacheFirstStrategy, cache_match, fetch. keeps. Qed.

Lemma keeps_networkFirst net request cacheName :
  keeps_partitions (networkFirstStrategy net request cacheName).
Proof. unfold networkFirstStrategy, cache_match, fetch. keeps. Qed.

Lemma keeps_swr net request cacheName :
  keeps_partitions (staleWhileRevalidateStrategy net request cacheName).
Proof. unfold staleWhileRevalidateStrategy, cache_match. keeps. Qed.

Lemma keeps_settle net rv : keeps_partitions (settle net rv).
Proof. unfold settle. keeps. Qed.

Lemma keeps_fallback self_origin request :
  keeps_partitions (getFallbackResponse self_origin request).
Proof. unfold getFallbackResponse, cache_match. keeps. Qed.

Lemma keeps_handleGet net self_origin request u :
  keeps_partitions (handleGetRequest net self_origin request u).
Proof.
  unfold handleGetRequest. apply keeps_try_catch; [|intros; apply keeps_fallback].
  keeps; auto using keeps_cacheFirst, keeps_networkFirst, keeps_swr.
Qed.

Lemma keeps_handlePost net request u : keeps_partitions (handlePostRequest net request u).
Proof.
  unfold handlePostRequest, fetch, storeForBackgroundSync, request_text, date_now, store_add.
  keeps.
Qed.

Lemma keeps_replay_loop net requests : keeps_partitions (replay_loop net requests).
Proof.
  induction requests as [|requestData rest IH]; cbn [replay_loop]; [apply keeps_ret|].
  apply keeps_bind; [|intros; exact IH].
  unfold replay_one, fetch, store_delete. keeps.
Qed.

Lemma keeps_sync net : keeps_partitions (syncPendingRequests net).
Proof.
  unfold syncPendingRequests, getAllFromStore. keeps. apply keeps_replay_loop.
Qed.

Lemma keeps_crisis : keeps_partitions checkCrisisSupport.
Proof. unfold checkCrisisSupport, date_now, showNotification. keeps. Qed.

Lemma keeps_onFetch net self_origin (request : Request) (w : World) (name : string) :
  is_Some (caches w !! name) ->
  is_Some (caches (snd (onFetch net self_origin request w)) !! name).
Proof.
  intros H. unfold onFetch.
  destruct (String.eqb (method request) "GET").
  - pose proof (keeps_handleGet net self_origin request (url request) w name H) as K.
    now destruct (handleGetRequest net self_origin request (url request) w).
  - destruct (String.eqb (method request) "POST"); [|exact H].
    pose proof (keeps_handlePost net request (url request) w name H) as K.
    now destruct (handlePostRequest net request (url request) w).
Qed.

(** C7: on activation every partition whose name is not one of the three
    current ones is deleted and every partition that is one of them is kept
    with its contents.  Handling a fetch, settling a revalidation,
    replaying the Outbox and the support check never remove a partition.
    With the partitions of an older version next to the current static
    one, only the current static partition is left, so nothing outside the
    current static and dynamic partitions remains. *)
Theorem activation_gc (w : World) :
  fst (activate w) = Ok tt
  /\ (forall name, name ∉ expected_caches -> caches (snd (activate w)) !! name = None)
  /\ (forall name, name ∈ expected_caches ->
        caches (snd (activate w)) !! name = caches w !! name)
  /\ (forall net self_origin request name,
        is_Some (caches w !! name) ->
        is_Some (caches (snd (onFetch net self_origin request w)) !! name))
  /\ (forall net rv name,
        is_Some (caches w !! name) -> is_Some (caches (snd (settle net rv w)) !! name))
  /\ (forall net name,
        is_Some (caches w !! name) ->
        is_Some (caches (snd (syncPendingRequests net w)) !! name))
  /\ (forall name,
        is_Some (caches w !! name) -> is_Some (caches (snd (checkCrisisSupport w)) !! name))
  /\ (caches (snd (activate Sample.upgrading)) !! "mindchat-static-v0" = None
      /\ caches (snd (activate Sample.upgrading)) !! "mindchat-dynamic-v0" = None
      /\ caches (snd (activate Sample.upgrading)) !! STATIC_CACHE
         = caches Sample.upgrading !! STATIC_CACHE
      /\ forall name, is_Some (caches (snd (activate Sample.upgrading)) !! name) ->
                      name = STATIC_CACHE \/ name = DYNAMIC_CACHE).
Proof.
  assert (Hgone : forall w name, name ∉ expected_caches ->
                                 caches (snd (activate w)) !! name = None).
  { intros w0 name Hn. rewrite activate_eq. cbn [snd caches set_claimed set_caches].
    rewrite lookup_sweep_keys. destruct (stale name) eqn:E; [reflexivity|].
    exfalso. apply Hn. now apply stale_expected. }
  assert (Hkept : forall w name, name ∈ expected_caches ->
                                 caches (snd (activate w)) !! name = caches w !! name).
  { intros w0 name Hn. rewrite activate_eq. cbn [snd caches set_claimed set_caches].
    rewrite lookup_sweep_keys. apply stale_expected in Hn. now rewrite Hn. }
  split; [now rewrite activate_eq|]. split; [apply Hgone|]. split; [apply Hkept|].
  split; [intros; now apply keeps_onFetch|].
  split; [intros; now apply keeps_settle|].
  split; [intros; now apply keeps_sync|].
  split; [intros; now apply keeps_crisis|].
  split; [apply Hgone; unfold expected_caches; rewrite !elem_of_cons, elem_of_nil;
          intuition discriminate|].
  split; [apply Hgone; unfold expected_caches; rewrite !elem_of_cons, elem_of_nil;
          intuition discriminate|].
  split; [apply Hkept; unfold expected_caches; rewrite !elem_of_cons; now left|].
  intros name [part Hp].
  destruct (decide (name ∈ expected_caches)) as [Hin|Hout].
  - rewrite (Hkept _ _ Hin) in Hp.
    unfold expected_caches in Hin. rewrite !elem_of_cons, elem_of_nil in Hin.
    destruct Hin as [->|[->|[->|[]]]]; [now left | now right | vm_compute in Hp; discriminate].
  - rewrite (Hgone _ _ Hout) in Hp. discriminate.
Qed.

Lemma activation_gc_witness :
  caches (snd (activate Sample.upgrading)) !! "mindchat-static-v0" = None
  /\ caches (snd (activate Sample.upgrading)) !! STATIC_CACHE
     = caches Sample.upgrading !! STATIC_CACHE.
Proof.
  destruct (activation_gc Sample.upgrading) as (_ & Hgone & Hkept & _).
  split.
  - apply Hgone. unfold expected_caches. rewrite !elem_of_cons, elem_of_nil.
    intuition discriminate.
  - apply Hkept. unfold expected_caches. rewrite !elem_of_cons. now left.
Defined.

(** ** The clear-all command (section 4.6) *)

(** C9, as the worker implements it: when the CLEAR_CACHE command
    completes every cache partition is gone; the Outbox, the key
    generator and the mood records are as they were. *)
Theorem clear_cache_command net (data : MessageData) (w : World) :
  m_type data = "CLEAR_CACHE" ->
  onMessage net (Some data) w = (Ok tt, set_caches ∅ w)
  /\ caches (snd (onMessage net (Some data) w)) = ∅
  /\ pending_requests (snd (onMessage net (Some data) w)) = pending_requests w
  /\ next_key (snd (onMessage net (Some data) w)) = next_key w
  /\ mood_data (snd (onMessage net (Some data) w)) = mood_data w.
Proof.
  intros H.
  assert (onMessage net (Some data) w = (Ok tt, set_caches ∅ w)) as E.
  { unfold onMessage. rewrite H. cbn [String.eqb Ascii.eqb Bool.eqb].
    change (if false then ?a else ?b) with b. cbv beta iota.
    apply clearAllCaches_eq. }
  rewrite E. repeat split.
Qed.

Lemma clear_cache_command_witness :
  caches (snd (onMessage Sample.online (Some Sample.clear_cache) Sample.upgrading)) = ∅
  /\ pending_requests (snd (onMessage Sample.online (Some Sample.clear_cache) Sample.after_two_writes))
     = pending_requests Sample.after_two_writes.
Proof.
  split.
  - apply (clear_cache_command Sample.online Sample.clear_cache Sample.upgrading eq_refl).
  - apply (clear_cache_command Sample.online Sample.clear_cache Sample.after_two_writes eq_refl).
Defined.

(** C9 as stated fails for the Outbox: two writes queued while offline are
    still queued after the CLEAR_CACHE command. *)
Lemma clear_cache_command_counterexample :
  m_type Sample.clear_cache = "CLEAR_CACHE"
  /\ length (pending_requests Sample.after_two_writes) = 2%nat
  /\ pending_requests (snd (onMessage Sample.online (Some Sample.clear_cache) Sample.after_two_writes)) <> [].
Proof.
  split; [reflexivity|]. split; [reflexivity|].
  vm_compute. discriminate.
Qed.

(** * Further properties of the worker *)

(** ** Footprints of the platform services *)

Lemma untouched_ret {X A} (f : World -> X) (a : A) : untouched f (ret a).
Proof. intros w. reflexivity. Qed.

Lemma untouched_throw {X A} (f : World -> X) (e : Error) : untouched f (@throw A e).
Proof. intros w. reflexivity. Qed.

Lemma untouched_gets {X A} (f : World -> X) (g : World -> A) : untouched f (gets g).
Proof. intros w. reflexivity. Qed.

Lemma untouched_modify {X} (f : World -> X) (g : World -> World) :
  (forall w, f (g w) = f w) -> untouched f (modify g).
Proof. intros H w. apply H. Qed.

Lemma untouched_bind {X A B} (f : World -> X) (m : M A) (k : A -> M B) :
  untouched f m -> (forall a, untouched f (k a)) -> untouched f (bind m k).
Proof.
  intros Hm Hk w. unfold bind. specialize (Hm w).
  destruct (m w) as [[a|e] w1]; cbn [snd] in *; [now rewrite Hk | exact Hm].
Qed.

Lemma untouched_try_catch {X A} (f : World -> X) (m : M A) (h : Error -> M A) :
  untouched f m -> (forall e, untouched f (h e)) -> untouched f (try_catch m h).
Proof.
  intros Hm Hh w. unfold try_catch. specialize (Hm w).
  destruct (m w) as [[a|e] w1]; cbn [snd] in *; [exact Hm | now rewrite Hh].
Qed.

Lemma untouched_caches_open {X} (f : World -> X) (name : string) :
  (forall c w, f (set_caches c w) = f w) ->
  (forall n w, f (set_next_cache_id n w) = f w) ->
  untouched f (caches_open name).
Proof.
  intros Hc Hn w. unfold caches_open. destruct (caches w !! name); [reflexivity|].
  cbn [snd]. now rewrite Hn, Hc.
Qed.

Lemma untouched_cache_store {X} (f : World -> X) (cache : Handle) (key : string)
    (hs : list (string * string)) (r : Response) :
  (forall c w, f (set_caches c w) = f w) -> untouched f (cache_store cache key hs r).
Proof.
  intros Hc w. unfold cache_store, modify. cbn [snd].
  destruct (live cache w); [apply Hc | reflexivity].
Qed.

Lemma untouched_cache_put {X} (f : World -> X) (cache : Handle) (m key : string)
    (hs : list (string * string)) (r : Response) :
  (forall c w, f (set_caches c w) = f w) -> untouched f (cache_put cache m key hs r).
Proof.
  intros Hc. unfold cache_put.
  destruct (_ || _); [apply untouched_throw | now apply untouched_cache_store].
Qed.

Lemma untouched_fetch_await {X} (f : World -> X) net (n : nat) (nr : NetRequest) :
  untouched f (fetch_await net n nr).
Proof.
  unfold fetch_await. destruct (net n nr); [apply untouched_ret | apply untouched_throw].
Qed.

Lemma untouched_fetch_start {X} (f : World -> X) (nr : NetRequest) :
  (forall l w, f (set_fetched l w) = f w) -> untouched f (fetch_start nr).
Proof. intros H w. apply H. Qed.

(** One step of a footprint proof: split the computation, or close a leaf
    whose side condition holds by computation. *)
Ltac untouched_step :=
  first
    [ apply untouched_bind | apply untouched_try_catch | apply untouched_ret
    | apply untouched_throw | apply untouched_gets | apply untouched_fetch_await
    | apply untouched_caches_open; intros; reflexivity
    | apply untouched_cache_put; intros; reflexivity
    | apply untouched_cache_store; intros; reflexivity
    | apply untouched_fetch_start; intros; reflexivity
    | apply untouched_modify; intros; reflexivity
    | match goal with
      | |- untouched _ (match ?x with _ => _ end) => destruct x
      | |- forall _, _ => intro
      end ].

Ltac untouched_auto := repeat untouched_step.

Ltac unfold_services :=
  unfold cache_match, fetch, request_text, date_now, store_add,
    getAllFromStore, store_delete, showNotification, caches_keys, caches_delete.

Lemma never_throws_try_catch {A} (m : M A) (h : Error -> M A) :
  (forall e, never_throws (h e)) -> never_throws (try_catch m h).
Proof.
  intros Hh w. unfold try_catch.
  destruct (m w) as [[a|e] w1]; cbn [fst]; [eauto | apply Hh].
Qed.

(** ** Handling a GET: the answer and the footprint *)

Lemma handleGet_classified net self_origin (request : Request) (w : World) :
  handleGetRequest net self_origin request (url request) w
  = try_catch
      (run_strategy net (fst (classify (pathname (url request)))) request
         (snd (classify (pathname (url request)))))
      (fun _ => getFallbackResponse self_origin request) w.
Proof.
  unfold handleGetRequest, classify, is_static_asset, in_audio_namespace, in_api_namespace.
  destruct (existsb _ STATIC_ASSETS); [reflexivity|].
  destruct (includes _ "/audio/"); [reflexivity|].
  destruct (startsWith _ "/api/"); reflexivity.
Qed.

(** A strategy either answers, from the cache or the network in its own
    order, or throws; it changes no snapshot but the one of its request, and
    no pair at all when it throws. *)
Lemma run_strategy_outcome net (s : Strategy) (request : Request) (cacheName : string)
    (w : World) :
  let outcome := run_strategy net s request cacheName w in
  (forall c k, (c, k) <> (cacheName, fingerprint request) ->
               snapshot (snd outcome) c k = snapshot w c k)
  /\ match strategy_answer s (found w cacheName request)
             (usable request (net (length (fetched w)) (wire request))) with
     | Some r => fst outcome = Ok r
     | None => (exists e, fst outcome = Throw e)
               /\ forall c, entries_of (caches (snd outcome)) c = entries_of (caches w) c
     end.
Proof.
  cbv zeta.
  destruct (found w cacheName request) as [cached|] eqn:Hs;
    destruct (net (length (fetched w)) (wire request)) as [fresh|] eqn:Hn;
    [destruct (cacheable request fresh) eqn:Hr | | destruct (cacheable request fresh) eqn:Hr | ];
    destruct s; cbn [run_strategy strategy_answer usable]; rewrite ?Hr;
    first
      [ rewrite (cacheFirst_hit net request cacheName w cached Hs)
      | rewrite (cacheFirst_miss_accepted net request cacheName w fresh Hs Hn Hr)
      | rewrite (cacheFirst_miss_refused net request cacheName w fresh Hs Hn Hr)
      | rewrite (cacheFirst_miss_rejected net request cacheName w Hs Hn)
      | rewrite (networkFirst_accepted net request cacheName w fresh Hn Hr)
      | rewrite (networkFirst_refused net request cacheName w fresh Hn Hr), Hs
      | rewrite (networkFirst_rejected net request cacheName w Hn), Hs
      | rewrite (swr_cached net request cacheName w cached Hs)
      | rewrite (swr_uncached_accepted net request cacheName w fresh Hs Hn Hr)
      | rewrite (swr_uncached_refused net request cacheName w fresh Hs Hn Hr)
      | rewrite (swr_uncached_rejected net request cacheName w Hs Hn) ];
    cbn [fst snd];
    repeat split; eauto;
    try (intros c k Hne; now rewrite snapshot_stored_ne);
    try (intros c k Hne; now rewrite snapshot_opened);
    try (intros c; now rewrite entries_of_opened).
Qed.

Lemma getFallbackResponse_eq self_origin (request : Request) (w : World) :
  fst (getFallbackResponse self_origin request w)
  = Ok (fallback_response self_origin request w)
  /\ forall c, entries_of (caches (snd (getFallbackResponse self_origin request w))) c
               = entries_of (caches w) c.
Proof.
  unfold getFallbackResponse, fallback_response.
  destruct (accepts request "text/html").
  - unfold bind. rewrite caches_open_eq.
    rewrite (cache_match_eq STATIC_CACHE w (opened STATIC_CACHE w) _ _ _ eq_refl).
    unfold ret. cbn [fst snd]. split; [reflexivity|].
    intros c. apply entries_of_opened.
  - destruct (startsWith _ "/api/"); [split; reflexivity|].
    destruct (accepts request "image/"); split; reflexivity.
Qed.

Lemma fallback_response_ext self_origin (request : Request) (w w' : World) :
  (forall c, entries_of (caches w') c = entries_of (caches w) c) ->
  fallback_response self_origin request w' = fallback_response self_origin request w.
Proof. intros H. unfold fallback_response, shell. now rewrite H. Qed.

Lemma handleGet_answer net self_origin (request : Request) (w : World) :
  fst (handleGetRequest net self_origin request (url request) w)
  = Ok (answer net self_origin request w).
Proof.
  rewrite handleGet_classified. unfold try_catch, answer.
  pose proof (run_strategy_outcome net (fst (classify (pathname (url request)))) request
                (snd (classify (pathname (url request)))) w) as [_ Hans].
  cbv zeta in Hans.
  destruct (run_strategy net _ request _ w) as [[r|e] w1]; cbn [fst snd] in *;
    destruct (strategy_answer _ _ _) as [r'|]; cbn [default from_option]; unfold id.
  - congruence.
  - destruct Hans as [[e He] _]. discriminate.
  - discriminate.
  - destruct Hans as [_ Hsame].
    destruct (getFallbackResponse_eq self_origin request w1) as [-> _].
    now rewrite (fallback_response_ext self_origin request w w1 Hsame).
Qed.

(** X1: a GET is always answered, never with an error: with the strategy's
    answer (cache before network for cache-first and
    stale-while-revalidate, network before cache for network-first, where
    a network response the cache refuses to store counts for nothing) and,
    when neither gives one, with the fallback response chosen for the
    request. *)
Theorem get_always_answered net self_origin (request : Request) (w : World) :
  fst (handleGetRequest net self_origin request (url request) w)
  = Ok (answer net self_origin request w)
  /\ (forall fresh,
        found w (snd (classify (pathname (url request)))) request = None ->
        net (length (fetched w)) (wire request) = Some fresh ->
        refused fresh = true ->
        answer net self_origin request w = fallback_response self_origin request w).
Proof.
  split; [apply handleGet_answer|].
  intros fresh Hmiss Hnet Href. unfold answer. rewrite Hmiss, Hnet.
  cbn [usable]. rewrite (cacheable_refused request fresh Href).
  now destruct (fst (classify (pathname (url request)))).
Qed.

(** The request of a media element for an audio file, answered with a
    part of it, gets the 503 of the fallback. *)
Lemma get_always_answered_witness :
  fst (handleGetRequest Sample.ranged Sample.site
         (Sample.range_request "/audio/breathing-basics-64k.mp3")
         (url (Sample.range_request "/audio/breathing-basics-64k.mp3")) Sample.fresh)
  = Ok unavailableResponse.
Proof.
  destruct (get_always_answered Sample.ranged Sample.site
              (Sample.range_request "/audio/breathing-basics-64k.mp3") Sample.fresh)
    as [Hanswer Hlost].
  rewrite Hanswer. now rewrite (Hlost Sample.partial eq_refl eq_refl eq_refl).
Defined.

(** X2: handling a GET changes no stored snapshot other than the one of
    the request itself, in the partition of its strategy. *)
Theorem get_changes_own_snapshot_only net self_origin (request : Request) (w : World)
    (c k : string) :
  (c, k) <> (snd (classify (pathname (url request))), fingerprint request) ->
  snapshot (snd (handleGetRequest net self_origin request (url request) w)) c k
  = snapshot w c k.
Proof.
  intros Hne. rewrite handleGet_classified. unfold try_catch.
  pose proof (run_strategy_outcome net (fst (classify (pathname (url request)))) request
                (snd (classify (pathname (url request)))) w) as [Hframe _].
  cbv zeta in Hframe. specialize (Hframe c k Hne).
  destruct (run_strategy net _ request _ w) as [[r|e] w1]; cbn [fst snd] in *;
    [exact Hframe|].
  destruct (getFallbackResponse_eq self_origin request w1) as [_ Hsame].
  unfold snapshot in *. now rewrite Hsame.
Qed.

Lemma get_changes_own_snapshot_only_witness :
  snapshot (snd (handleGetRequest Sample.broken Sample.site
                   (Sample.request_to "GET" "/api/mood")
                   (url (Sample.request_to "GET" "/api/mood"))
                   (Sample.holding STATIC_CACHE (Sample.request_to "GET" "/index.html")
                      Sample.page)))
    STATIC_CACHE (fingerprint (Sample.request_to "GET" "/index.html"))
  = Some Sample.page.
Proof.
  rewrite (get_changes_own_snapshot_only Sample.broken Sample.site
             (Sample.request_to "GET" "/api/mood")
             (Sample.holding STATIC_CACHE (Sample.request_to "GET" "/index.html") Sample.page)
             STATIC_CACHE (fingerprint (Sample.request_to "GET" "/index.html"))).
  - reflexivity.
  - vm_compute. discriminate.
Defined.

(** ** Partitions and Outbox are kept apart *)

Lemma untouched_for_each {X} (f : World -> X) (names : list string) (g : string -> M unit) :
  (forall name, untouched f (g name)) -> untouched f (for_each names g).
Proof.
  intros Hg. induction names as [|name names IH]; cbn [for_each].
  - apply untouched_ret.
  - apply untouched_bind; [apply Hg | intros _; exact IH].
Qed.

Lemma untouched_replay_loop {X} (f : World -> X) net (requests : list RequestData) :
  (forall l w, f (set_fetched l w) = f w) ->
  (forall l k w, f (set_pending_requests l k w) = f w) ->
  untouched f (replay_loop net requests).
Proof.
  intros Hf Hp. induction requests as [|requestData rest IH]; cbn [replay_loop].
  - apply untouched_ret.
  - apply untouched_bind; [|intros _; exact IH].
    unfold replay_one, fetch, store_delete.
    repeat first
      [ apply untouched_bind | apply untouched_try_catch | apply untouched_ret
      | apply untouched_fetch_await
      | apply untouched_fetch_start; exact Hf
      | apply untouched_modify; intros; apply Hp
      | match goal with
        | |- untouched _ (match ?x with _ => _ end) => destruct x
        | |- forall _, _ => intro
        end ].
Qed.

Ltac unfold_handlers :=
  unfold handleGetRequest, handlePostRequest, getFallbackResponse, storeForBackgroundSync,
    cacheFirstStrategy, networkFirstStrategy, staleWhileRevalidateStrategy, settle,
    syncPendingRequests, checkCrisisSupport, cacheAudioFile, cache_add, clearAllCaches,
    triggerSync, activate;
  unfold_services.

Lemma handleGet_footprint net self_origin (request : Request) (u : URL) (w : World) :
  pending_requests (snd (handleGetRequest net self_origin request u w)) = pending_requests w
  /\ next_key (snd (handleGetRequest net self_origin request u w)) = next_key w
  /\ mood_data (snd (handleGetRequest net self_origin request u w)) = mood_data w
  /\ notifications (snd (handleGetRequest net self_origin request u w)) = notifications w.
Proof.
  assert (forall X (f : World -> X),
             (forall c w, f (set_caches c w) = f w) ->
             (forall n w, f (set_next_cache_id n w) = f w) ->
             (forall l w, f (set_fetched l w) = f w) ->
             (forall l w, f (set_revalidating l w) = f w) ->
             untouched f (handleGetRequest net self_origin request u)) as H.
  { intros X f Hc Hn Hf Hr. unfold_handlers.
    repeat first
      [ apply untouched_bind | apply untouched_try_catch | apply untouched_ret
      | apply untouched_throw | apply untouched_gets | apply untouched_fetch_await
      | apply untouched_caches_open; [exact Hc | exact Hn]
      | apply untouched_cache_put; exact Hc
      | apply untouched_fetch_start; exact Hf
      | apply untouched_modify; intros; first [apply Hc | apply Hr]
      | match goal with
        | |- untouched _ (match ?x with _ => _ end) => destruct x
        | |- forall _, _ => intro
        end ]. }
  repeat split; apply H; reflexivity.
Qed.

(** X3: handling a GET never touches the Outbox, its key generator, the
    mood records or the notifications shown. *)
Theorem get_leaves_outbox_alone net self_origin (request : Request) (u : URL) (w : World) :
  pending_requests (snd (handleGetRequest net self_origin request u w)) = pending_requests w
  /\ next_key (snd (handleGetRequest net self_origin request u w)) = next_key w
  /\ mood_data (snd (handleGetRequest net self_origin request u w)) = mood_data w
  /\ notifications (snd (handleGetRequest net self_origin request u w)) = notifications w.
Proof. apply handleGet_footprint. Qed.

(** X4: the write path never touches the cache storage, and a POST to an
    API path never fails in the caller's eyes: the only error a POST can
    end in is the rejection of its own fetch, on a path outside the API
    namespace. *)
Theorem post_footprint net (request : Request) (w : World) :
  caches (snd (handlePostRequest net request (url request) w)) = caches w
  /\ (in_api_namespace (pathname (url request)) = true ->
      exists response, fst (handlePostRequest net request (url request) w) = Ok response)
  /\ (forall e, fst (handlePostRequest net request (url request) w) = Throw e ->
        e = NetworkFailure
        /\ net (length (fetched w)) (wire request) = None
        /\ in_api_namespace (pathname (url request)) = false).
Proof.
  split; [|split].
  - assert (untouched caches (handlePostRequest net request (url request))) as H
      by (unfold_handlers; untouched_auto).
    apply H.
  - intros Hapi.
    destruct (net (length (fetched w)) (wire request)) as [response|] eqn:Hn.
    + rewrite (handlePost_resolved net request w response Hn). eauto.
    + rewrite (handlePost_acknowledged net request w Hn Hapi). eauto.
  - intros e He.
    destruct (net (length (fetched w)) (wire request)) as [response|] eqn:Hn.
    + rewrite (handlePost_resolved net request w response Hn) in He. discriminate.
    + destruct (in_api_namespace (pathname (url request))) eqn:Hapi.
      * rewrite (handlePost_acknowledged net request w Hn Hapi) in He. discriminate.
      * rewrite (handlePost_propagated net request w Hn Hapi) in He.
        cbn [fst] in He. injection He as <-. repeat split.
Qed.

Lemma post_footprint_witness :
  exists response,
    fst (handlePostRequest Sample.offline Sample.mood_write (url Sample.mood_write)
           Sample.fresh) = Ok response.
Proof.
  apply (post_footprint Sample.offline Sample.mood_write Sample.fresh). reflexivity.
Defined.

(** X5: when the body of a failed API write cannot be read any more, the
    failure to queue it is swallowed: the caller still gets the
    acknowledgment that the data is queued, and the Outbox is as it was. *)
Theorem unreadable_write_acknowledged_not_queued net (request : Request) (w : World) :
  net (length (fetched w)) (wire request) = None ->
  in_api_namespace (pathname (url request)) = true ->
  rereadable request = false ->
  handlePostRequest net request (url request) w
  = (Ok queuedResponse, set_fetched (fetched w ++ [wire request]) w).
Proof.
  intros Hn Hapi Hread. unfold handlePostRequest, try_catch.
  rewrite (fetch_rejected _ _ _ Hn). unfold in_api_namespace in Hapi. rewrite Hapi.
  unfold bind, storeForBackgroundSync, try_catch, request_text. now rewrite Hread.
Qed.

Lemma unreadable_write_acknowledged_not_queued_witness :
  handlePostRequest Sample.offline Sample2.used_write (url Sample2.used_write) Sample.fresh
  = (Ok queuedResponse, set_fetched [wire Sample2.used_write] Sample.fresh).
Proof.
  apply (unreadable_write_acknowledged_not_queued Sample.offline Sample2.used_write
           Sample.fresh); reflexivity.
Defined.

(** ** The Outbox: keys, replay without success, and the round trip *)

Lemma outbox_wf_same (w w' : World) :
  pending_requests w' = pending_requests w -> next_key w' = next_key w ->
  outbox_wf w -> outbox_wf w'.
Proof. unfold outbox_wf. intros -> ->. trivial. Qed.

Lemma unsynced_NoDup net (n : nat) (l : list RequestData) :
  NoDup (map rd_id l) -> NoDup (map rd_id (unsynced net n l)).
Proof.
  revert n. induction l as [|e l IH]; intros n Hnd; [exact Hnd|].
  cbn [map] in Hnd. apply NoDup_cons in Hnd as [Hnotin Hnd'].
  cbn [unsynced]. destruct (replay_succeeds net n e); [now apply IH|].
  cbn [map]. apply NoDup_cons. split; [|now apply IH].
  intros Hin. apply Hnotin. apply list_elem_of_In in Hin. apply list_elem_of_In.
  apply List.in_map_iff in Hin as (e' & Hid & He'). rewrite <- Hid.
  apply List.in_map. eapply unsynced_In; eauto.
Qed.

Lemma untouched_onMessage {X} (f : World -> X) net (data : option MessageData) :
  (forall c w, f (set_caches c w) = f w) ->
  (forall n w, f (set_next_cache_id n w) = f w) ->
  (forall l w, f (set_fetched l w) = f w) ->
  (forall l w, f (set_sync_tags l w) = f w) ->
  (forall b w, f (set_skip_waiting b w) = f w) ->
  untouched f (onMessage net data).
Proof.
  intros Hc Hn Hf Ht Hs. unfold onMessage. destruct data as [d|]; [|apply untouched_ret].
  repeat match goal with
         | |- untouched _ (if ?b then _ else _) => destruct b
         end.
  - apply untouched_ret.
  - apply untouched_modify. intros. apply Hs.
  - unfold cacheAudioFile, cache_add, fetch.
    repeat first
      [ apply untouched_bind | apply untouched_try_catch | apply untouched_ret
      | apply untouched_throw | apply untouched_fetch_await
      | apply untouched_caches_open; [exact Hc | exact Hn]
      | apply untouched_cache_store; exact Hc
      | apply untouched_fetch_start; exact Hf
      | apply untouched_modify; intros; apply Hc
      | match goal with
        | |- untouched _ (match ?x with _ => _ end) => destruct x
        | |- forall _, _ => intro
        end ].
  - unfold clearAllCaches, caches_keys.
    apply untouched_try_catch; [|intros; apply untouched_ret].
    apply untouched_bind; [apply untouched_gets|]. intros names.
    apply untouched_for_each. intros name. apply untouched_modify. intros. apply Hc.
  - unfold triggerSync. apply untouched_try_catch; [|intros; apply untouched_ret].
    apply untouched_modify. intros. apply Ht.
  - apply untouched_ret.
Qed.

(** X6: every handler keeps the Outbox well formed: queued entries have
    distinct keys, all below the key generator, and the generator never
    goes back, so a key freed by a replay is never handed out again. *)
Theorem outbox_keys_invariant net self_origin (w : World) :
  outbox_wf w ->
  (forall request,
     outbox_wf (snd (onFetch net self_origin request w))
     /\ (next_key w <= next_key (snd (onFetch net self_origin request w)))%nat)
  /\ (outbox_wf (snd (syncPendingRequests net w))
      /\ next_key (snd (syncPendingRequests net w)) = next_key w)
  /\ (forall data,
        pending_requests (snd (onMessage net data w)) = pending_requests w
        /\ next_key (snd (onMessage net data w)) = next_key w)
  /\ (pending_requests (snd (activate w)) = pending_requests w
      /\ next_key (snd (activate w)) = next_key w)
  /\ (pending_requests (snd (checkCrisisSupport w)) = pending_requests w
      /\ next_key (snd (checkCrisisSupport w)) = next_key w).
Proof.
  intros Hwf. split; [|split; [|split; [|split]]].
  - intros request. unfold onFetch.
    destruct (String.eqb (method request) "GET").
    + pose proof (handleGet_footprint net self_origin request (url request) w)
        as (Hp & Hk & _).
      destruct (handleGetRequest net self_origin request (url request) w) as [r w'].
      cbn [snd] in *. split; [now apply (outbox_wf_same w) | now rewrite Hk].
    + destruct (String.eqb (method request) "POST"); [|split; [exact Hwf | cbn [snd]; lia]].
      pose proof (outbox_wf_handlePost net request w Hwf) as Hwf'.
      assert (next_key w <= next_key (snd (handlePostRequest net request (url request) w)))%nat.
      { unfold handlePostRequest, try_catch.
        destruct (net (length (fetched w)) (wire request)) as [response|] eqn:Hn.
        - rewrite (fetch_resolved _ _ _ _ Hn). cbn. lia.
        - rewrite (fetch_rejected _ _ _ Hn).
          destruct (startsWith _ "/api/"); [|cbn; lia].
          unfold bind, storeForBackgroundSync, try_catch, request_text.
          destruct (rereadable request); cbn; lia. }
      destruct (handlePostRequest net request (url request) w) as [r w'].
      cbn [snd] in *. split; assumption.
  - destruct Hwf as [Hnd Hlt]. rewrite (syncPendingRequests_eq net w Hnd).
    cbn [snd next_key set_pending_requests set_fetched]. split; [|reflexivity].
    split; cbn [pending_requests next_key].
    + now apply unsynced_NoDup.
    + rewrite Forall_forall in *. intros e He. apply Hlt.
      apply list_elem_of_In. apply list_elem_of_In in He.
      exact (unsynced_In net _ _ e He).
  - intros data. split; apply (untouched_onMessage _ net data); reflexivity.
  - rewrite activate_eq. split; reflexivity.
  - rewrite checkCrisisSupport_eq. destruct (3 <=? low_count w)%nat; split; reflexivity.
Qed.

Lemma outbox_keys_invariant_witness :
  outbox_wf (snd (onFetch Sample.offline Sample.site Sample.mood_write Sample.fresh)).
Proof.
  apply (outbox_keys_invariant Sample.offline Sample.site Sample.fresh).
  split; eapply bool_decide_unpack; vm_compute; reflexivity.
Defined.

Lemma synced_ids_none net (n : nat) (l : list RequestData) :
  (forall i e, l !! i = Some e -> replay_succeeds net (n + i) e = false) ->
  synced_ids net n l = [].
Proof.
  revert n. induction l as [|a l IH]; intros n H; [reflexivity|]. cbn [synced_ids].
  rewrite <- (Nat.add_0_r n) at 1. rewrite (H 0%nat a eq_refl).
  apply IH. intros i e Hi. rewrite Nat.add_succ_l, <- Nat.add_succ_r. now apply (H (S i)).
Qed.

(** X7: a replay in which no entry gets a success response (the network
    is down, or every answer is a non-2xx status) still re-issues every
    entry once, in order, and leaves the Outbox exactly as it was. *)
Theorem replay_without_success_keeps_outbox net (w : World) :
  (forall i e, pending_requests w !! i = Some e ->
               replay_succeeds net (length (fetched w) + i) e = false) ->
  syncPendingRequests net w
  = (Ok tt, set_fetched (fetched w ++ map wire_data (pending_requests w)) w).
Proof.
  intros H. unfold syncPendingRequests, try_catch, bind, getAllFromStore, gets.
  rewrite replay_loop_eq, (synced_ids_none net _ _ H), remove_ids_nil.
  now destruct w.
Qed.

Lemma replay_without_success_keeps_outbox_witness :
  pending_requests (snd (syncPendingRequests Sample.broken Sample.after_two_writes))
  = pending_requests Sample.after_two_writes.
Proof.
  rewrite (replay_without_success_keeps_outbox Sample.broken Sample.after_two_writes).
  - reflexivity.
  - intros i e Hi.
    destruct i as [|[|i]]; vm_compute in Hi;
      [injection Hi as <-; reflexivity | injection Hi as <-; reflexivity | discriminate].
Defined.


(** ** What the Outbox keeps of the headers *)

Lemma lower_ascii_idemp (c : ascii) : lower_ascii (lower_ascii c) = lower_ascii c.
Proof. destruct c as [[] [] [] [] [] [] [] []]; reflexivity. Qed.

Lemma lower_idemp (s : string) : lower (lower s) = lower s.
Proof.
  induction s as [|c s IH]; cbn [lower]; [reflexivity|].
  now rewrite lower_ascii_idemp, IH.
Qed.

Lemma In_insert_name (x name : string) (names : list string) :
  In x (insert_name name names) <-> x = name \/ In x names.
Proof.
  induction names as [|n rest IH]; cbn [insert_name In]; [intuition|].
  destruct (String.eqb_spec name n) as [->|Hne]; [cbn [In]; intuition|].
  destruct (String.ltb name n); cbn [In]; [intuition|].
  rewrite IH. intuition.
Qed.

Lemma In_header_names (x : string) (hs : list (string * string)) :
  In x (header_names hs) <-> exists kv, In kv hs /\ x = lower (fst kv).
Proof.
  unfold header_names. induction hs as [|kv hs IH]; cbn [map fold_right In].
  - split; [intros [] | intros (kv & [] & _)].
  - rewrite In_insert_name, IH. split.
    + intros [->|(kv' & Hin & ->)]; eauto.
    + intros (kv' & [<-|Hin] & ->); eauto.
Qed.

Lemma headers_get_none (hs : list (string * string)) (name : string) :
  headers_get hs name = None
  <-> forall kv, In kv hs -> lower (fst kv) <> lower name.
Proof.
  unfold headers_get. split.
  - intros H kv Hin Heq.
    assert (In kv (List.filter (fun kv => String.eqb (lower (fst kv)) (lower name)) hs)) as Hf.
    { apply List.filter_In. split; [exact Hin | now apply String.eqb_eq]. }
    destruct (List.filter _ hs); [destruct Hf | discriminate].
  - intros H.
    destruct (List.filter (fun kv => String.eqb (lower (fst kv)) (lower name)) hs)
      as [|kv more] eqn:E; [reflexivity|].
    assert (In kv (kv :: more)) as Hin by now left.
    rewrite <- E in Hin. apply List.filter_In in Hin as [Hin Heq].
    apply String.eqb_eq in Heq. now destruct (H kv Hin).
Qed.

(** The record names a header exactly when the request carries it. *)
Lemma headers_entries_none (hs : list (string * string)) (name : string) :
  headers_get (headers_entries hs) name = None <-> headers_get hs name = None.
Proof.
  rewrite !headers_get_none. unfold headers_entries. split.
  - intros H kv Hin Heq.
    apply (H (lower (fst kv), default "" (headers_get hs (lower (fst kv))))).
    + apply List.in_map_iff. exists (lower (fst kv)). split; [reflexivity|].
      apply In_header_names. eauto.
    + cbn [fst]. now rewrite lower_idemp.
  - intros H kv Hin Heq. apply List.in_map_iff in Hin as (n & <- & Hn).
    apply In_header_names in Hn as (kv' & Hin' & ->). cbn [fst] in Heq.
    rewrite lower_idemp in Heq. exact (H kv' Hin' Heq).
Qed.

Lemma handlePost_bodyless net (request : Request) (w : World) :
  net (length (fetched w)) (wire request) = None ->
  in_api_namespace (pathname (url request)) = true ->
  body request = None ->
  handlePostRequest net request (url request) w
  = (Ok queuedResponse,
     set_pending_requests (pending_requests w ++ [outbox_entry request w])
       (S (next_key w)) (set_fetched (fetched w ++ [wire request]) w)).
Proof.
  intros H Hapi Hbody. apply handlePost_queued; auto.
  unfold rereadable. now rewrite Hbody.
Qed.

(** X8: round trip of a write made offline without a body.  A POST to an
    API path that carries no body and whose fetch rejects is queued, with
    the names of its headers lower-cased and sorted and an empty body.  The
    next replay sends a request to the same URL with the same method; it
    has the empty string as its body and, where the original named no
    content type, the content type of a text body on top of the stored
    headers.  When that replay gets a success response the Outbox is empty
    again, and a further replay issues no fetch. *)
Theorem offline_write_round_trip net self_origin (request : Request) (w : World)
    (response : Response) :
  method request = "POST" ->
  in_api_namespace (pathname (url request)) = true ->
  body request = None ->
  pending_requests w = [] ->
  net (length (fetched w)) (wire request) = None ->
  net (S (length (fetched w))) (replayed request) = Some response ->
  ok response = true ->
  let w1 := snd (onFetch net self_origin request w) in
  let w2 := snd (syncPendingRequests net w1) in
  fst (onFetch net self_origin request w) = Some (Ok queuedResponse)
  /\ pending_requests w1 = [outbox_entry request w]
  /\ rd_headers (outbox_entry request w) = headers_entries (headers request)
  /\ rd_body (outbox_entry request w) = ""
  /\ wire_data (outbox_entry request w) = replayed request
  /\ n_url (replayed request) = n_url (wire request)
  /\ n_method (replayed request) = n_method (wire request)
  /\ n_body (replayed request) = Some ""
  /\ (headers_get (headers request) "content-type" = None ->
      n_headers (replayed request)
      = headers_entries (headers request) ++ [("content-type", "text/plain;charset=UTF-8")])
  /\ pending_requests w2 = []
  /\ fetched w2 = fetched w ++ [wire request; replayed request]
  /\ syncPendingRequests net w2 = (Ok tt, w2).
Proof.
  intros Hpost Hapi Hbody Hempty Hn Hn' Hok w1 w2. subst w1 w2.
  rewrite (onFetch_post net self_origin request w Hpost).
  rewrite (handlePost_bodyless net request w Hn Hapi Hbody). cbn [fst snd].
  rewrite Hempty. cbn [app].
  unfold syncPendingRequests, try_catch, bind, getAllFromStore, gets.
  rewrite replay_loop_eq.
  cbn [fst snd pending_requests fetched next_key set_pending_requests set_fetched
         synced_ids map].
  assert (replay_succeeds net (length (fetched w ++ [wire request]))
            (outbox_entry request w) = true) as Hs.
  { unfold replay_succeeds. rewrite length_app, Nat.add_1_r.
    change (wire_data (outbox_entry request w)) with (replayed request).
    now rewrite Hn'. }
  rewrite Hs. unfold remove_ids. cbn [List.filter existsb rd_id outbox_entry].
  rewrite Nat.eqb_refl. cbn [orb negb].
  change (wire_data (outbox_entry request w)) with (replayed request).
  rewrite <- app_assoc. cbn [app].
  repeat (split; [reflexivity|]). split; [|repeat split].
  intros Hct. unfold replayed, with_text_body. cbn [n_headers].
  now rewrite (proj2 (headers_entries_none (headers request) "content-type") Hct).
Qed.

Lemma offline_write_round_trip_witness :
  pending_requests
    (snd (syncPendingRequests Sample2.back_online
            (snd (onFetch Sample2.back_online Sample.site Sample.mood_write Sample.fresh))))
  = []
  /\ fetched
       (snd (syncPendingRequests Sample2.back_online
               (snd (onFetch Sample2.back_online Sample.site Sample.mood_write
                       Sample.fresh))))
     = [wire Sample.mood_write; replayed Sample.mood_write]
  /\ n_headers (wire Sample.mood_write) = [("Accept", "application/json")]
  /\ n_headers (replayed Sample.mood_write)
     = [("accept", "application/json"); ("content-type", "text/plain;charset=UTF-8")].
Proof.
  destruct (offline_write_round_trip Sample2.back_online Sample.site Sample.mood_write
              Sample.fresh Sample.page eq_refl eq_refl eq_refl eq_refl eq_refl eq_refl
              eq_refl) as (_ & _ & _ & _ & _ & _ & _ & _ & Hh & Hq & Hf & _).
  split; [exact Hq|]. split; [exact Hf|]. split; [reflexivity|].
  rewrite (Hh eq_refl). reflexivity.
Defined.

(** ** Stale-while-revalidate, one call later *)

(** X9: stale once, fresh next, if the cache takes the fresh response.
    With nothing else in flight, a stale-while-revalidate call for which
    [cache.match] finds a response returns it; once its revalidation has
    settled with a response, the next call for the same request returns
    that response when the cache accepted it, and the old one again when
    the cache refused it (a 206, or a response that varies on everything),
    whatever the network does then. *)
Theorem stale_then_fresh net (request : Request) (cacheName : string) (w : World)
    (cached fresh : Response) :
  found w cacheName request = Some cached ->
  revalidating w = [] ->
  net (length (fetched w)) (wire request) = Some fresh ->
  let w1 := snd (staleWhileRevalidateStrategy net request cacheName w) in
  let w2 := snd (settle_next net w1) in
  fst (staleWhileRevalidateStrategy net request cacheName w) = Ok cached
  /\ revalidating w2 = []
  /\ forall net', fst (staleWhileRevalidateStrategy net' request cacheName w2)
                  = Ok (if refused fresh then cached else fresh).
Proof.
  intros Hs Hnone Hn w1 w2. subst w1 w2.
  rewrite (swr_cached net request cacheName w cached Hs). cbn [fst snd].
  unfold settle_next. cbn [revalidating set_revalidating set_fetched].
  rewrite Hnone. cbn [app].
  pose proof (found_is_get _ _ _ _ Hs) as Hget.
  destruct (refused fresh) eqn:Href.
  - rewrite (settle_refused net _ _ fresh);
      [|exact Hn | exact (cacheable_refused request fresh Href)].
    cbn [fst snd].
    split; [reflexivity|]. split; [reflexivity|]. intros net'.
    erewrite swr_cached; [reflexivity | exact Hs].
  - rewrite (settle_after_call net request cacheName w _ cached fresh Hs);
      [| reflexivity | exact Hn | exact (cacheable_accepted request fresh Hget Href)].
    cbn [fst snd]. split; [reflexivity|].
    split; [now rewrite revalidating_stored|]. intros net'.
    erewrite swr_cached; [reflexivity | now apply found_stored].
Qed.

Lemma stale_then_fresh_witness :
  fst (staleWhileRevalidateStrategy Sample.offline (Sample.request_to "GET" "/dashboard")
         DYNAMIC_CACHE
         (snd (settle_next Sample.broken
                 (snd (staleWhileRevalidateStrategy Sample.broken
                         (Sample.request_to "GET" "/dashboard") DYNAMIC_CACHE
                         (Sample.holding DYNAMIC_CACHE
                            (Sample.request_to "GET" "/dashboard") Sample.page))))))
  = Ok Sample.failure
  /\ fst (staleWhileRevalidateStrategy Sample.offline
            (Sample.range_request "/media/intro.mp4") DYNAMIC_CACHE
            (snd (settle_next Sample.ranged
                    (snd (staleWhileRevalidateStrategy Sample.ranged
                            (Sample.range_request "/media/intro.mp4") DYNAMIC_CACHE
                            (Sample.holding DYNAMIC_CACHE
                               (Sample.range_request "/media/intro.mp4") Sample.page))))))
     = Ok Sample.page.
Proof.
  split.
  - destruct (stale_then_fresh Sample.broken (Sample.request_to "GET" "/dashboard")
                DYNAMIC_CACHE
                (Sample.holding DYNAMIC_CACHE (Sample.request_to "GET" "/dashboard")
                   Sample.page)
                Sample.page Sample.failure ltac:(vm_compute; reflexivity) eq_refl eq_refl)
      as (_ & _ & Hnext).
    exact (Hnext Sample.offline).
  - destruct (stale_then_fresh Sample.ranged (Sample.range_request "/media/intro.mp4")
                DYNAMIC_CACHE
                (Sample.holding DYNAMIC_CACHE (Sample.range_request "/media/intro.mp4")
                   Sample.page)
                Sample.page Sample.partial ltac:(vm_compute; reflexivity) eq_refl eq_refl)
      as (_ & _ & Hnext).
    exact (Hnext Sample.offline).
Defined.


(** ** The control channel *)

(** A write through a handle just opened, after a fetch. *)
Lemma store_after_fetch (cache : string) (w : World) (l : list NetRequest) (key : string)
    (hs : list (string * string)) (r : Response) :
  cache_store (handle_of cache w) key hs r (set_fetched l (opened cache w))
  = (Ok tt, stored cache key hs r (set_fetched l w)).
Proof.
  rewrite <- opened_set_fetched.
  exact (cache_store_eq cache (set_fetched l w) key hs r).
Qed.

(** [caches.open(cache).then(cache => cache.add(url))] *)
Lemma add_eq net (cache : string) (u : URL) (w : World) :
  bind (caches_open cache) (fun c => cache_add net c u) w
  = match net (length (fetched w)) (get_request u) with
    | Some response =>
        if ok response
        then (Ok tt,
              stored cache (href u) [] response (set_fetched (fetched w ++ [get_request u]) w))
        else (Throw NotOk, opened cache (set_fetched (fetched w ++ [get_request u]) w))
    | None => (Throw NetworkFailure,
               opened cache (set_fetched (fetched w ++ [get_request u]) w))
    end.
Proof.
  unfold bind at 1. rewrite caches_open_eq.
  unfold cache_add, bind. fold (get_request u).
  destruct (net (length (fetched w)) (get_request u)) as [response|] eqn:Hn.
  - rewrite (fetch_resolved net (get_request u) _ response)
      by (now rewrite fetched_opened).
    rewrite fetched_opened.
    destruct (ok response); [apply store_after_fetch | now rewrite opened_set_fetched].
  - rewrite (fetch_rejected net (get_request u) _) by (now rewrite fetched_opened).
    now rewrite fetched_opened, opened_set_fetched.
Qed.

Lemma cacheAudioFile_eq net (u : URL) (w : World) :
  cacheAudioFile net u w
  = (Ok tt,
     match net (length (fetched w)) (get_request u) with
     | Some response =>
         if ok response
         then stored AUDIO_CACHE (href u) [] response
                (set_fetched (fetched w ++ [get_request u]) w)
         else opened AUDIO_CACHE (set_fetched (fetched w ++ [get_request u]) w)
     | None => opened AUDIO_CACHE (set_fetched (fetched w ++ [get_request u]) w)
     end).
Proof.
  unfold cacheAudioFile, try_catch.
  change (let* cache := caches_open AUDIO_CACHE in cache_add net cache u)
    with (bind (caches_open AUDIO_CACHE) (fun c => cache_add net c u)).
  rewrite add_eq.
  destruct (net (length (fetched w)) (get_request u)) as [response|];
    [destruct (ok response)|]; reflexivity.
Qed.

(** X10: caching an audio file on demand never throws and, unlike the
    strategies, stores the response only when it is a success (2xx): a
    response with another status, or a rejected fetch, leaves every
    snapshot as it was. *)
Theorem audio_cached_only_when_ok net (u : URL) (w : World) :
  fst (cacheAudioFile net u w) = Ok tt
  /\ (forall response,
        net (length (fetched w)) (get_request u) = Some response ->
        ok response = true ->
        snapshot (snd (cacheAudioFile net u w)) AUDIO_CACHE (href u) = Some response)
  /\ (forall response,
        net (length (fetched w)) (get_request u) = Some response ->
        ok response = false ->
        forall c k, snapshot (snd (cacheAudioFile net u w)) c k = snapshot w c k)
  /\ (net (length (fetched w)) (get_request u) = None ->
      forall c k, snapshot (snd (cacheAudioFile net u w)) c k = snapshot w c k).
Proof.
  rewrite cacheAudioFile_eq. cbn [fst snd]. split; [reflexivity|].
  split; [|split].
  - intros response -> ->. apply snapshot_stored_eq.
  - intros response -> -> c k. now rewrite snapshot_opened.
  - intros -> c k. now rewrite snapshot_opened.
Qed.

Lemma audio_cached_only_when_ok_witness :
  snapshot (snd (cacheAudioFile Sample.online Sample2.audio_url Sample.fresh))
    AUDIO_CACHE (href Sample2.audio_url) = Some Sample.page
  /\ snapshot (snd (cacheAudioFile Sample.broken Sample2.audio_url Sample.fresh))
       AUDIO_CACHE (href Sample2.audio_url) = None.
Proof.
  destruct (audio_cached_only_when_ok Sample.online Sample2.audio_url Sample.fresh)
    as (_ & Hok & _).
  destruct (audio_cached_only_when_ok Sample.broken Sample2.audio_url Sample.fresh)
    as (_ & _ & Hbad & _).
  split.
  - apply (Hok Sample.page); reflexivity.
  - rewrite (Hbad Sample.failure); reflexivity.
Defined.

(** X11: the control channel never throws; a message without data, without
    a type or of an unknown type changes nothing; SKIP_WAITING only raises
    the skip-waiting flag and SYNC_NOW only registers its tag. *)
Theorem control_channel_commands net (w : World) :
  (forall data, fst (onMessage net data w) = Ok tt)
  /\ onMessage net None w = (Ok tt, w)
  /\ (forall d, ~ In (m_type d) known_commands -> onMessage net (Some d) w = (Ok tt, w))
  /\ (forall d, m_type d = "SKIP_WAITING" ->
                onMessage net (Some d) w = (Ok tt, set_skip_waiting true w))
  /\ (forall d, m_type d = "SYNC_NOW" ->
                onMessage net (Some d) w
                = (Ok tt, set_sync_tags (sync_tags w ++ [m_tag d]) w)).
Proof.
  split; [|split; [|split; [|split]]].
  - intros data. unfold onMessage. destruct data as [d|]; [|reflexivity].
    repeat match goal with
           | |- context [if ?b then _ else _] => destruct b
           end; try reflexivity.
    + now rewrite cacheAudioFile_eq.
    + now rewrite clearAllCaches_eq.
  - reflexivity.
  - intros d Hnot. unfold onMessage, known_commands in *. cbn [In] in Hnot.
    destruct (String.eqb_spec (m_type d) ""); [reflexivity|].
    destruct (String.eqb_spec (m_type d) "SKIP_WAITING"); [exfalso; intuition congruence|].
    destruct (String.eqb_spec (m_type d) "CACHE_AUDIO"); [exfalso; intuition congruence|].
    destruct (String.eqb_spec (m_type d) "CLEAR_CACHE"); [exfalso; intuition congruence|].
    destruct (String.eqb_spec (m_type d) "SYNC_NOW"); [exfalso; intuition congruence|].
    reflexivity.
  - intros d Ht. unfold onMessage. rewrite Ht. reflexivity.
  - intros d Ht. unfold onMessage. rewrite Ht. reflexivity.
Qed.

Lemma control_channel_commands_witness :
  onMessage Sample.online (Some (Sample2.command "PURGE" Sample2.audio_url "now"))
    Sample.fresh
  = (Ok tt, Sample.fresh)
  /\ sync_tags
       (snd (onMessage Sample.online
               (Some (Sample2.command "SYNC_NOW" Sample2.audio_url "sync-mood-data"))
               Sample.fresh))
     = ["sync-mood-data"].
Proof.
  destruct (control_channel_commands Sample.online Sample.fresh)
    as (_ & _ & Hunknown & _ & Hsync).
  split.
  - apply Hunknown. cbn. intuition discriminate.
  - now rewrite Hsync.
Defined.

(** ** Activation, twice *)

(** X12: activating is idempotent: a second activation deletes nothing
    more and leaves the world of the first; after it the worker has claimed
    its clients. *)
Theorem activation_idempotent (w : World) :
  snd (activate (snd (activate w))) = snd (activate w)
  /\ claimed (snd (activate w)) = true.
Proof.
  rewrite !activate_eq. cbn [snd caches set_claimed set_caches]. split; [|reflexivity].
  assert (sweep stale
            (map_to_list (sweep stale (map_to_list (caches w)).*1 (caches w))).*1
            (sweep stale (map_to_list (caches w)).*1 (caches w))
          = sweep stale (map_to_list (caches w)).*1 (caches w)) as ->.
  { apply map_eq. intros c. rewrite !lookup_sweep_keys. now destruct (stale c). }
  reflexivity.
Qed.

(** ** The classifier, by the shape of the path *)

Lemma is_static_asset_iff (path : string) :
  is_static_asset path = true
  <-> exists prefix asset, In asset STATIC_ASSETS /\ path = prefix +:+ asset.
Proof.
  unfold is_static_asset. rewrite existsb_exists. split.
  - intros (asset & Hin & He). apply endsWith_iff in He as [prefix ->]. eauto.
  - intros (prefix & asset & Hin & ->). exists asset. split; [exact Hin|].
    apply endsWith_iff. eauto.
Qed.

(** X13: what the classifier keys on.  A path goes to the static partition
    exactly when it ends with one of the listed assets, so every path that
    ends with a slash does, directories of the API and audio namespaces
    included; a path served from the audio partition contains [/audio/]
    somewhere, and only a path that starts with [/api/] is handled
    network-first. *)
Theorem classified_by_shape (path : string) :
  (classify path = (CacheFirst, STATIC_CACHE)
   <-> exists prefix asset, In asset STATIC_ASSETS /\ path = prefix +:+ asset)
  /\ (forall dir, classify (dir +:+ "/") = (CacheFirst, STATIC_CACHE))
  /\ (classify path = (CacheFirst, AUDIO_CACHE) ->
      exists before after, path = before +:+ "/audio/" +:+ after)
  /\ (classify path = (NetworkFirst, DYNAMIC_CACHE) ->
      exists rest, path = "/api/" +:+ rest).
Proof.
  assert (Hstatic : forall p, classify p = (CacheFirst, STATIC_CACHE)
                              <-> is_static_asset p = true).
  { intros p. unfold classify. destruct (is_static_asset p); [tauto|].
    destruct (in_audio_namespace p); [split; discriminate|].
    destruct (in_api_namespace p); split; discriminate. }
  split; [|split; [|split]].
  - rewrite Hstatic. apply is_static_asset_iff.
  - intros dir. apply Hstatic, is_static_asset_iff. exists dir, "/".
    split; [now left | reflexivity].
  - unfold classify. destruct (is_static_asset path); [discriminate|].
    destruct (in_audio_namespace path) eqn:Ha.
    + intros _. now apply includes_iff.
    + destruct (in_api_namespace path); discriminate.
  - unfold classify. destruct (is_static_asset path); [discriminate|].
    destruct (in_audio_namespace path); [discriminate|].
    destruct (in_api_namespace path) eqn:Ha; [|discriminate].
    intros _. now apply startsWith_iff.
Qed.

Lemma classified_by_shape_witness :
  exists rest, "/api/mood" = "/api/" +:+ rest.
Proof.
  apply (classified_by_shape "/api/mood"). reflexivity.
Defined.

(** ** The install step *)

Lemma fetch_start_all_eq (nrs : list NetRequest) (w : World) :
  fetch_start_all nrs w
  = (Ok (seq (length (fetched w)) (length nrs)), set_fetched (fetched w ++ nrs) w).
Proof.
  revert w. induction nrs as [|nr rest IH]; intros w.
  - cbn. rewrite app_nil_r. now destruct w.
  - cbn [fetch_start_all]. unfold bind at 1. unfold fetch_start at 1.
    unfold bind. rewrite IH. unfold ret.
    cbn [fetched set_fetched length seq].
    rewrite length_app, Nat.add_1_r, <- app_assoc. reflexivity.
Qed.

Lemma fetch_await_all_world net (tickets : list nat) (nrs : list NetRequest) (w : World) :
  snd (fetch_await_all net tickets nrs w) = w.
Proof.
  revert nrs. induction tickets as [|t ts IH]; intros [|nr rest]; try reflexivity.
  cbn [fetch_await_all]. unfold bind, fetch_await.
  destruct (net t nr) as [response|]; [|reflexivity].
  unfold ret, throw. cbv beta iota.
  destruct (ok response); [|reflexivity].
  specialize (IH rest).
  destruct (fetch_await_all net ts rest w) as [[rs|e] w1]; cbn [snd] in *; now subst.
Qed.

Lemma fetch_await_all_result net (n : nat) (nrs : list NetRequest) (w : World) :
  match responses_of net n nrs with
  | Some responses => fst (fetch_await_all net (seq n (length nrs)) nrs w) = Ok responses
  | None => exists e, fst (fetch_await_all net (seq n (length nrs)) nrs w) = Throw e
  end.
Proof.
  revert n. induction nrs as [|nr rest IH]; intros n; [reflexivity|].
  cbn [responses_of length seq fetch_await_all]. unfold bind, fetch_await.
  destruct (net n nr) as [response|]; [|eexists; reflexivity].
  unfold ret, throw. cbv beta iota.
  destruct (ok response); [|eexists; reflexivity].
  specialize (IH (S n)).
  destruct (fetch_await_all net (seq (S n) (length rest)) rest w) as [[rs|e] w1];
    destruct (responses_of net (S n) rest) as [rs'|]; cbn [fst snd] in *.
  - injection IH as ->. reflexivity.
  - destruct IH as [e He]. discriminate.
  - discriminate.
  - eexists; reflexivity.
Qed.

Lemma responses_of_length net (n : nat) (nrs : list NetRequest) (rs : list Response) :
  responses_of net n nrs = Some rs -> length rs = length nrs.
Proof.
  revert n rs. induction nrs as [|nr rest IH]; intros n rs; cbn [responses_of].
  - now intros [= <-].
  - destruct (net n nr) as [response|]; [|discriminate].
    destruct (ok response); [|discriminate].
    destruct (responses_of net (S n) rest) as [rs'|] eqn:E; [|discriminate].
    intros [= <-]. cbn. f_equal. eauto.
Qed.

(** The responses collected are, entry by entry, what the fetches resolved
    with. *)
Lemma responses_of_lookup net (n : nat) (nrs : list NetRequest) (rs : list Response)
    (i : nat) (nr : NetRequest) :
  responses_of net n nrs = Some rs -> nrs !! i = Some nr ->
  exists r, rs !! i = Some r /\ net (n + i)%nat nr = Some r /\ ok r = true.
Proof.
  revert n rs i. induction nrs as [|a rest IH]; intros n rs i; [discriminate|].
  cbn [responses_of].
  destruct (net n a) as [response|] eqn:Hn; [|discriminate].
  destruct (ok response) eqn:Hok; [|discriminate].
  destruct (responses_of net (S n) rest) as [rs'|] eqn:E; [|discriminate].
  intros [= <-] Hi. destruct i as [|i]; cbn in Hi.
  - injection Hi as <-. exists response. rewrite Nat.add_0_r. auto.
  - destruct (IH (S n) rs' i E Hi) as (r & Hr & Hnet & Hokr).
    exists r. rewrite Nat.add_succ_r. auto.
Qed.

(** One failing fetch, rejected or answered with another status, leaves
    nothing collected. *)
Lemma responses_of_none net (n : nat) (nrs : list NetRequest) (i : nat) (nr : NetRequest) :
  nrs !! i = Some nr ->
  (forall r, net (n + i)%nat nr = Some r -> ok r = false) ->
  responses_of net n nrs = None.
Proof.
  intros Hi Hbad. destruct (responses_of net n nrs) as [rs|] eqn:E; [|reflexivity].
  destruct (responses_of_lookup net n nrs rs i nr E Hi) as (r & _ & Hn & Hok).
  rewrite (Hbad r Hn) in Hok. discriminate.
Qed.

Lemma responses_of_all net (n : nat) (nrs : list NetRequest) :
  (forall i nr, nrs !! i = Some nr -> exists r, net (n + i)%nat nr = Some r /\ ok r = true) ->
  exists rs, responses_of net n nrs = Some rs.
Proof.
  revert n. induction nrs as [|a rest IH]; intros n H; [now exists []|].
  cbn [responses_of]. destruct (H 0%nat a eq_refl) as (r & Hn & Hok).
  rewrite Nat.add_0_r in Hn. rewrite Hn, Hok.
  destruct (IH (S n)) as [rs Hrs].
  { intros i nr Hi. destruct (H (S i) nr Hi) as (r' & Hn' & Hok').
    exists r'. rewrite Nat.add_succ_r in Hn'. auto. }
  rewrite Hrs. eauto.
Qed.

Lemma set_caches_same (w : World) : set_caches (caches w) w = w.
Proof. now destruct w. Qed.

Lemma live_inv (cache : Handle) (w : World) (es : list Entry) :
  live cache w = Some es ->
  caches w !! h_name cache = Some {| p_id := h_id cache; p_entries := es |}.
Proof.
  unfold live. destruct (caches w !! h_name cache) as [[id es']|]; [|discriminate].
  cbn [p_id p_entries]. destruct (Nat.eqb_spec id (h_id cache)) as [->|]; [|discriminate].
  now intros [= ->].
Qed.

Lemma live_after_store (cache : Handle) (w : World) (es : list Entry) :
  live cache
    (set_caches (<[h_name cache := {| p_id := h_id cache; p_entries := es |}]> (caches w)) w)
  = Some es.
Proof.
  unfold live. cbn [caches set_caches]. rewrite lookup_insert_eq. cbn [p_id p_entries].
  now rewrite Nat.eqb_refl.
Qed.

Lemma cache_put_all_live (cache : Handle) (keys : list string) (rs : list Response)
    (w : World) (es : list Entry) :
  live cache w = Some es ->
  cache_put_all cache keys rs w
  = (Ok tt,
     set_caches
       (<[h_name cache := {| p_id := h_id cache; p_entries := put_all keys rs es |}]>
          (caches w)) w).
Proof.
  revert rs w es. induction keys as [|k keys IH]; intros rs w es Hlive.
  - cbn [cache_put_all put_all]. unfold ret.
    now rewrite (insert_id _ _ _ (live_inv cache w es Hlive)), set_caches_same.
  - destruct rs as [|r rs].
    + cbn [cache_put_all put_all]. unfold ret.
      now rewrite (insert_id _ _ _ (live_inv cache w es Hlive)), set_caches_same.
    + cbn [cache_put_all put_all]. unfold bind, cache_store, modify. rewrite Hlive.
      rewrite (IH rs _ (put_entry k [] r es)) by apply live_after_store.
      cbn [caches set_caches]. now rewrite insert_insert_eq.
Qed.

Lemma entries_of_stored_all (cache : string) (keys : list string) (rs : list Response)
    (w : World) (c : string) :
  entries_of (caches (stored_all cache keys rs w)) c
  = if String.eqb c cache then put_all keys rs (entries_of (caches w) cache)
    else entries_of (caches w) c.
Proof.
  unfold stored_all. cbn [caches set_caches]. unfold entries_of at 1.
  destruct (String.eqb_spec c cache) as [->|Hne].
  - now rewrite lookup_insert_eq.
  - rewrite lookup_insert_ne by congruence.
    fold (entries_of (caches (opened cache w)) c). apply entries_of_opened.
Qed.

Lemma fetched_stored_all (cache : string) (keys : list string) (rs : list Response)
    (w : World) :
  fetched (stored_all cache keys rs w) = fetched w.
Proof. unfold stored_all. cbn [fetched set_caches]. apply fetched_opened. Qed.

Lemma skip_waiting_opened (cache : string) (w : World) :
  skip_waiting (opened cache w) = skip_waiting w.
Proof. unfold opened. now destruct (caches w !! cache). Qed.

Lemma latest_put_all_other (keys : list string) (rs : list Response) (es : list Entry)
    (k : string) :
  ~ In k keys -> latest k (put_all keys rs es) = latest k es.
Proof.
  revert rs es. induction keys as [|key keys IH]; intros rs es H; [reflexivity|].
  destruct rs as [|r rs]; [reflexivity|]. cbn [put_all].
  rewrite IH by (cbn [In] in H; tauto).
  apply latest_put_entry_ne. cbn [In] in H. intros ->. tauto.
Qed.

Lemma latest_put_all (keys : list string) (rs : list Response) (es : list Entry)
    (i : nat) (k : string) (r : Response) :
  NoDup keys -> keys !! i = Some k -> rs !! i = Some r ->
  latest k (put_all keys rs es) = Some r.
Proof.
  revert rs es i. induction keys as [|key keys IH]; intros rs es i Hnd Hk Hr; [discriminate|].
  destruct rs as [|r0 rs]; [discriminate|]. cbn [put_all].
  apply NoDup_cons in Hnd as [Hnotin Hnd].
  destruct i as [|i]; cbn in Hk, Hr.
  - injection Hk as ->. injection Hr as ->.
    rewrite latest_put_all_other by (now rewrite <- list_elem_of_In).
    apply latest_put_entry.
  - eapply IH; eauto.
Qed.

Lemma query_put_all_other (keys : list string) (rs : list Response) (es : list Entry)
    (k : string) (hs : list (string * string)) :
  ~ In k keys -> query k hs (put_all keys rs es) = query k hs es.
Proof.
  revert rs es. induction keys as [|key keys IH]; intros rs es H; [reflexivity|].
  destruct rs as [|r rs]; [reflexivity|]. cbn [put_all].
  rewrite IH by (cbn [In] in H; tauto).
  apply query_put_entry_ne. cbn [In] in H. intros ->. tauto.
Qed.

Lemma find_filter_none {A} (P Q : A -> bool) (l : list A) :
  List.find P l = None -> List.find P (List.filter Q l) = None.
Proof.
  induction l as [|x l IH]; cbn [List.find List.filter]; [reflexivity|].
  destruct (P x) eqn:Hx; [discriminate|]. intros H.
  destruct (Q x); cbn [List.find]; rewrite ?Hx; auto.
Qed.

(** A request that found nothing before finds, after a put for the plain
    request of its URL, the response put, provided it matches that pair. *)
Lemma query_put_plain (key : string) (hs : list (string * string)) (r : Response)
    (es : list Entry) :
  query key hs es = None ->
  matches key hs {| e_url := key; e_headers := []; e_response := r |} = true ->
  query key hs (put_entry key [] r es) = Some r.
Proof.
  unfold query, put_entry. intros Hnone Hm.
  destruct (List.find (matches key hs) es) eqn:E; [discriminate|].
  assert (forall (l : list Entry) (e : Entry),
             List.find (matches key hs) l = None -> matches key hs e = true ->
             List.find (matches key hs) (l ++ [e]) = Some e) as Happ.
  { intros l e. induction l as [|x l IH]; cbn [app List.find].
    - intros _ ->. reflexivity.
    - destruct (matches key hs x); [discriminate | exact IH]. }
  rewrite (Happ _ _ (find_filter_none _ _ es E) Hm). reflexivity.
Qed.

Lemma query_put_all (keys : list string) (rs : list Response) (es : list Entry)
    (i : nat) (k : string) (r : Response) (hs : list (string * string)) :
  NoDup keys -> keys !! i = Some k -> rs !! i = Some r ->
  query k hs es = None ->
  matches k hs {| e_url := k; e_headers := []; e_response := r |} = true ->
  query k hs (put_all keys rs es) = Some r.
Proof.
  revert rs es i. induction keys as [|key keys IH]; intros rs es i Hnd Hk Hr Hnone Hm;
    [discriminate|].
  destruct rs as [|r0 rs]; [discriminate|]. cbn [put_all].
  apply NoDup_cons in Hnd as [Hnotin Hnd].
  destruct i as [|i]; cbn in Hk, Hr.
  - injection Hk as ->. injection Hr as ->.
    rewrite query_put_all_other by (now rewrite <- list_elem_of_In).
    now apply query_put_plain.
  - apply (IH rs _ i); auto.
    rewrite query_put_entry_ne; [exact Hnone|].
    intros ->. apply Hnotin. eapply list_elem_of_lookup_2; eauto.
Qed.

(** The plain request of a URL finds the response [cache.addAll] stored
    for it. *)
Lemma query_put_all_plain (keys : list string) (rs : list Response) (es : list Entry)
    (i : nat) (k : string) (r : Response) :
  NoDup keys -> keys !! i = Some k -> rs !! i = Some r ->
  query k [] (put_all keys rs es) = Some r.
Proof.
  revert rs es i. induction keys as [|key keys IH]; intros rs es i Hnd Hk Hr; [discriminate|].
  destruct rs as [|r0 rs]; [discriminate|]. cbn [put_all].
  apply NoDup_cons in Hnd as [Hnotin Hnd].
  destruct i as [|i]; cbn in Hk, Hr.
  - injection Hk as ->. injection Hr as ->.
    rewrite query_put_all_other by (now rewrite <- list_elem_of_In).
    apply query_put_entry.
  - eapply IH; eauto.
Qed.

Lemma append_empty_r (s : string) : s +:+ "" = s.
Proof. induction s as [|c s IH]; [reflexivity|]. rewrite append_String. now rewrite IH. Qed.

Lemma append_inj_l (p a b : string) : p +:+ a = p +:+ b -> a = b.
Proof.
  induction p as [|c p IH]; intros H; str_simpl; [exact H|].
  injection H as H. auto.
Qed.

Lemma href_self_url (self_origin path : string) :
  href (self_url self_origin path) = self_origin +:+ path.
Proof. unfold href, self_url. cbn [origin pathname search]. now rewrite append_empty_r. Qed.

Lemma static_keys_NoDup (self_origin : string) :
  NoDup (map n_url (static_requests self_origin)).
Proof.
  unfold static_requests, STATIC_ASSETS. cbn [map get_request n_url].
  rewrite !href_self_url.
  repeat (apply NoDup_cons; split;
          [ rewrite ?elem_of_cons, elem_of_nil;
            intros H; repeat destruct H as [H|H];
            try (apply append_inj_l in H; discriminate); exact H
          | ]).
  apply NoDup_nil_2.
Qed.

Section Install.

Variable net : nat -> NetRequest -> option Response.
Variable self_origin : string.

(** [caches.open(cache).then(cache => cache.addAll(paths))] when every
    fetch resolves with a success. *)
Lemma addAll_resolved (cache : string) (paths : list string) (w : World)
    (rs : list Response) :
  let nrs := map (fun path => get_request (self_url self_origin path)) paths in
  responses_of net (length (fetched w)) nrs = Some rs ->
  bind (caches_open cache) (fun c => cache_addAll net self_origin c paths) w
  = (Ok tt, stored_all cache (map n_url nrs) rs (set_fetched (fetched w ++ nrs) w)).
Proof.
  intros nrs Hrs. unfold bind at 1. rewrite caches_open_eq.
  unfold cache_addAll. fold nrs. unfold bind. rewrite fetch_start_all_eq.
  rewrite fetched_opened.
  pose proof (fetch_await_all_result net (length (fetched w)) nrs
                (set_fetched (fetched w ++ nrs) (opened cache w))) as Hres.
  pose proof (fetch_await_all_world net (seq (length (fetched w)) (length nrs)) nrs
                (set_fetched (fetched w ++ nrs) (opened cache w))) as Hw.
  rewrite Hrs in Hres.
  destruct (fetch_await_all net _ nrs _) as [[rs'|e] w1]; cbn [fst snd] in *;
    [|discriminate].
  injection Hres as ->. subst w1.
  rewrite (cache_put_all_live _ _ _ _ (entries_of (caches w) cache))
    by (now apply live_handle).
  unfold stored_all. now rewrite opened_set_fetched.
Qed.

(** The same when one fetch fails: nothing is stored. *)
Lemma addAll_failed (cache : string) (paths : list string) (w : World) :
  let nrs := map (fun path => get_request (self_url self_origin path)) paths in
  responses_of net (length (fetched w)) nrs = None ->
  exists e,
    bind (caches_open cache) (fun c => cache_addAll net self_origin c paths) w
    = (Throw e, opened cache (set_fetched (fetched w ++ nrs) w)).
Proof.
  intros nrs Hrs. unfold bind at 1. rewrite caches_open_eq.
  unfold cache_addAll. fold nrs. unfold bind. rewrite fetch_start_all_eq.
  rewrite fetched_opened.
  pose proof (fetch_await_all_result net (length (fetched w)) nrs
                (set_fetched (fetched w ++ nrs) (opened cache w))) as Hres.
  pose proof (fetch_await_all_world net (seq (length (fetched w)) (length nrs)) nrs
                (set_fetched (fetched w ++ nrs) (opened cache w))) as Hw.
  rewrite Hrs in Hres. destruct Hres as [e He].
  destruct (fetch_await_all net _ nrs _) as [[rs'|e'] w1]; cbn [fst snd] in *;
    [discriminate|].
  injection He as ->. subst w1. exists e. now rewrite opened_set_fetched.
Qed.

End Install.

Lemma install_unfold net self_origin (w : World) :
  install net self_origin w
  = (let (r1, w1) := bind (caches_open STATIC_CACHE)
                       (fun c => cache_addAll net self_origin c STATIC_ASSETS) w in
     let (r2, w2) := bind (caches_open AUDIO_CACHE)
                       (fun c => cache_add net c (essential_audio self_origin)) w1 in
     match r1, r2 with
     | Ok _, Ok _ => (Ok tt, set_skip_waiting true w2)
     | Ok _, Throw e => (Throw e, w2)
     | Throw e, _ => (Throw e, w2)
     end).
Proof.
  unfold install, bind at 1, promise_all2, essential_audio.
  destruct (bind (caches_open STATIC_CACHE) _ w) as [r1 w1].
  destruct (bind (caches_open AUDIO_CACHE) _ w1) as [r2 w2].
  destruct r1 as [[]|e1], r2 as [[]|e2]; reflexivity.
Qed.

Lemma static_lookup (self_origin : string) (i : nat) (asset : string) :
  STATIC_ASSETS !! i = Some asset ->
  static_requests self_origin !! i = Some (get_request (self_url self_origin asset))
  /\ map n_url (static_requests self_origin) !! i = Some (href (self_url self_origin asset)).
Proof.
  unfold static_requests, STATIC_ASSETS. intros Hi.
  destruct i as [|[|[|[|[|i]]]]]; cbn in Hi; try discriminate;
    injection Hi as <-; split; reflexivity.
Qed.

(** The world after install, in each of its outcomes. *)
Lemma install_eq net self_origin (w : World) :
  let nrs := static_requests self_origin in
  let audio := essential_audio self_origin in
  let w0 := set_fetched (fetched w ++ nrs) w in
  install net self_origin w
  = match responses_of net (length (fetched w)) nrs with
    | Some rs =>
        let w1 := stored_all STATIC_CACHE (map n_url nrs) rs w0 in
        let w2 := set_fetched (fetched w ++ nrs ++ [get_request audio]) w1 in
        match net (length (fetched w) + 5)%nat (get_request audio) with
        | Some ra =>
            if ok ra
            then (Ok tt, set_skip_waiting true (stored AUDIO_CACHE (href audio) [] ra w2))
            else (Throw NotOk, opened AUDIO_CACHE w2)
        | None => (Throw NetworkFailure, opened AUDIO_CACHE w2)
        end
    | None =>
        let w1 := opened STATIC_CACHE w0 in
        let w2 := set_fetched (fetched w ++ nrs ++ [get_request audio]) w1 in
        match net (length (fetched w) + 5)%nat (get_request audio) with
        | Some ra =>
            if ok ra
            then (fst (bind (caches_open STATIC_CACHE)
                         (fun c => cache_addAll net self_origin c STATIC_ASSETS) w),
                  stored AUDIO_CACHE (href audio) [] ra w2)
            else (fst (bind (caches_open STATIC_CACHE)
                         (fun c => cache_addAll net self_origin c STATIC_ASSETS) w),
                  opened AUDIO_CACHE w2)
        | None => (fst (bind (caches_open STATIC_CACHE)
                          (fun c => cache_addAll net self_origin c STATIC_ASSETS) w),
                   opened AUDIO_CACHE w2)
        end
    end.
Proof.
  cbv zeta. rewrite install_unfold.
  destruct (responses_of net (length (fetched w)) (static_requests self_origin))
    as [rs|] eqn:Hrs.
  - rewrite (addAll_resolved net self_origin STATIC_CACHE STATIC_ASSETS w rs Hrs).
    fold (static_requests self_origin).
    rewrite add_eq, fetched_stored_all. cbn [fetched set_fetched].
    replace (length (fetched w ++ static_requests self_origin))
      with (length (fetched w) + 5)%nat by (rewrite length_app; reflexivity).
    rewrite <- app_assoc.
    destruct (net _ (get_request (essential_audio self_origin))) as [ra|];
      [destruct (ok ra)|]; reflexivity.
  - destruct (addAll_failed net self_origin STATIC_CACHE STATIC_ASSETS w Hrs) as [e He].
    rewrite He. fold (static_requests self_origin).
    rewrite add_eq, fetched_opened. cbn [fetched set_fetched fst].
    replace (length (fetched w ++ static_requests self_origin))
      with (length (fetched w) + 5)%nat by (rewrite length_app; reflexivity).
    rewrite <- app_assoc.
    destruct (net _ (get_request (essential_audio self_origin))) as [ra|];
      [destruct (ok ra)|]; reflexivity.
Qed.

(** The pairs of the static partition after install, when every static
    asset was fetched with a success. *)
Lemma install_static_entries net self_origin (w : World) (rs : list Response) :
  responses_of net (length (fetched w)) (static_requests self_origin) = Some rs ->
  entries_of (caches (snd (install net self_origin w))) STATIC_CACHE
  = put_all (map n_url (static_requests self_origin)) rs (entries_of (caches w) STATIC_CACHE).
Proof.
  intros Hrs. pose proof (install_eq net self_origin w) as E. cbv zeta in E.
  rewrite E, Hrs. clear E.
  destruct (net _ (get_request (essential_audio self_origin))) as [ra|];
    [destruct (ok ra)|]; cbn [snd caches set_skip_waiting];
    rewrite ?entries_of_stored, ?entries_of_opened;
    change (String.eqb STATIC_CACHE AUDIO_CACHE) with false; cbv iota;
    cbn [caches set_fetched]; rewrite entries_of_stored_all; reflexivity.
Qed.

(** X14: when each of the five static assets and the essential audio file
    is fetched with a success, install succeeds, asks to skip waiting, and
    leaves in the static partition, for every asset, the response its own
    fetch resolved with, and the audio file in the audio partition; six
    requests went on the wire, the assets in order and then the audio
    file. *)
Theorem install_precaches net self_origin (w : World) :
  (forall i nr, static_requests self_origin !! i = Some nr ->
                exists r, net (length (fetched w) + i)%nat nr = Some r /\ ok r = true) ->
  (exists r, net (length (fetched w) + 5)%nat (get_request (essential_audio self_origin))
             = Some r /\ ok r = true) ->
  fst (install net self_origin w) = Ok tt
  /\ skip_waiting (snd (install net self_origin w)) = true
  /\ (forall i asset, STATIC_ASSETS !! i = Some asset ->
        snapshot (snd (install net self_origin w)) STATIC_CACHE
          (href (self_url self_origin asset))
        = net (length (fetched w) + i)%nat (get_request (self_url self_origin asset)))
  /\ snapshot (snd (install net self_origin w)) AUDIO_CACHE
       (href (essential_audio self_origin))
     = net (length (fetched w) + 5)%nat (get_request (essential_audio self_origin))
  /\ fetched (snd (install net self_origin w))
     = fetched w ++ static_requests self_origin
         ++ [get_request (essential_audio self_origin)].
Proof.
  intros Hstatic (ra & Hna & Hoka).
  destruct (responses_of_all net _ _ Hstatic) as [rs Hrs].
  split; [|split; [|split; [|split]]].
  3: { intros i asset Hi. destruct (static_lookup self_origin i asset Hi) as [Hnr Hkey].
       destruct (responses_of_lookup net _ _ rs i _ Hrs Hnr) as (r & Hr & Hn & _).
       rewrite Hn. unfold snapshot.
       rewrite (install_static_entries net self_origin w rs Hrs).
       apply (latest_put_all _ rs _ i); auto using static_keys_NoDup. }
  all: pose proof (install_eq net self_origin w) as E; cbv zeta in E;
    rewrite E, Hrs, Hna, Hoka; cbn [fst snd].
  - reflexivity.
  - reflexivity.
  - unfold snapshot. cbn [caches set_skip_waiting].
    fold (snapshot (stored AUDIO_CACHE (href (essential_audio self_origin)) [] ra
                      (set_fetched
                         (fetched w ++ static_requests self_origin
                            ++ [get_request (essential_audio self_origin)])
                         (stored_all STATIC_CACHE (map n_url (static_requests self_origin)) rs
                            (set_fetched (fetched w ++ static_requests self_origin) w))))
            AUDIO_CACHE (href (essential_audio self_origin))).
    apply snapshot_stored_eq.
  - cbn [fetched set_skip_waiting]. now rewrite fetched_stored.
Qed.

Lemma install_precaches_witness :
  fst (install Sample.online Sample.site Sample.fresh) = Ok tt
  /\ snapshot (snd (install Sample.online Sample.site Sample.fresh)) STATIC_CACHE
       (href (self_url Sample.site "/index.html")) = Some Sample.page.
Proof.
  destruct (install_precaches Sample.online Sample.site Sample.fresh)
    as (Hok & _ & Hsnap & _).
  - intros i nr _. exists Sample.page. split; reflexivity.
  - exists Sample.page. split; reflexivity.
  - split; [exact Hok|]. now rewrite (Hsnap 1%nat "/index.html" eq_refl).
Defined.

(** X15: the static pre-cache is all or nothing.  When the fetch of one
    static asset rejects or resolves with a status that is not a success,
    install fails, skip-waiting is not asked for, and no snapshot of the
    static partition has changed, whatever the other five fetches did. *)
Theorem install_static_all_or_nothing net self_origin (w : World) (i : nat)
    (nr : NetRequest) :
  static_requests self_origin !! i = Some nr ->
  (forall r, net (length (fetched w) + i)%nat nr = Some r -> ok r = false) ->
  (exists e, fst (install net self_origin w) = Throw e)
  /\ skip_waiting (snd (install net self_origin w)) = skip_waiting w
  /\ forall k, snapshot (snd (install net self_origin w)) STATIC_CACHE k
               = snapshot w STATIC_CACHE k.
Proof.
  intros Hi Hbad.
  pose proof (responses_of_none net _ _ i nr Hi Hbad) as Hnone.
  destruct (addAll_failed net self_origin STATIC_CACHE STATIC_ASSETS w Hnone) as [e He].
  pose proof (install_eq net self_origin w) as E. cbv zeta in E.
  rewrite E, Hnone, He.
  destruct (net _ (get_request (essential_audio self_origin))) as [ra|];
    [destruct (ok ra)|]; cbn [fst snd]; (split; [eauto|]);
    (split; [unfold stored; cbn [skip_waiting set_caches];
             rewrite ?skip_waiting_opened; cbn [skip_waiting set_fetched];
             now rewrite skip_waiting_opened|]);
    intros k; rewrite ?snapshot_stored_ne by (intros [= H]; discriminate H);
    rewrite ?snapshot_opened; unfold snapshot; cbn [caches set_fetched];
    fold (snapshot (opened STATIC_CACHE
                      (set_fetched (fetched w ++ static_requests self_origin) w))
            STATIC_CACHE k);
    now rewrite snapshot_opened.
Qed.

Lemma install_static_all_or_nothing_witness :
  (exists e, fst (install Sample2.no_manifest Sample.site Sample.fresh) = Throw e)
  /\ snapshot (snd (install Sample2.no_manifest Sample.site Sample.fresh)) STATIC_CACHE
       (href (self_url Sample.site "/index.html")) = None.
Proof.
  destruct (install_static_all_or_nothing Sample2.no_manifest Sample.site Sample.fresh
              2%nat (get_request (self_url Sample.site "/manifest.json")) eq_refl)
    as (Hfail & _ & Hsame).
  - intros r Hr. vm_compute in Hr. discriminate.
  - split; [exact Hfail|]. now rewrite Hsame.
Defined.

(** X16: install does not roll back.  When the six fetches are issued and
    only the audio pre-cache fails, install fails and skip-waiting is not
    asked for, yet every static asset stays stored. *)
Theorem install_audio_failure_keeps_assets net self_origin (w : World) :
  (forall i nr, static_requests self_origin !! i = Some nr ->
                exists r, net (length (fetched w) + i)%nat nr = Some r /\ ok r = true) ->
  (forall r, net (length (fetched w) + 5)%nat (get_request (essential_audio self_origin))
             = Some r -> ok r = false) ->
  (exists e, fst (install net self_origin w) = Throw e)
  /\ skip_waiting (snd (install net self_origin w)) = skip_waiting w
  /\ forall i asset, STATIC_ASSETS !! i = Some asset ->
       snapshot (snd (install net self_origin w)) STATIC_CACHE
         (href (self_url self_origin asset))
       = net (length (fetched w) + i)%nat (get_request (self_url self_origin asset)).
Proof.
  intros Hstatic Hbad.
  destruct (responses_of_all net _ _ Hstatic) as [rs Hrs].
  split; [|split].
  3: { intros i asset Hi. destruct (static_lookup self_origin i asset Hi) as [Hnr Hkey].
       destruct (responses_of_lookup net _ _ rs i _ Hrs Hnr) as (r & Hr & Hn & _).
       rewrite Hn. unfold snapshot.
       rewrite (install_static_entries net self_origin w rs Hrs).
       apply (latest_put_all _ rs _ i); auto using static_keys_NoDup. }
  all: pose proof (install_eq net self_origin w) as E; cbv zeta in E; rewrite E, Hrs;
    destruct (net _ (get_request (essential_audio self_origin))) as [ra|] eqn:Hna;
    [rewrite (Hbad ra eq_refl)|]; cbn [fst snd]; eauto;
    rewrite skip_waiting_opened; cbn [skip_waiting set_fetched];
    unfold stored_all; cbn [skip_waiting set_caches];
    now rewrite skip_waiting_opened.
Qed.

Lemma install_audio_failure_keeps_assets_witness :
  snapshot (snd (install Sample2.no_audio Sample.site Sample.fresh)) STATIC_CACHE
    (href (self_url Sample.site "/index.html")) = Some Sample.page
  /\ skip_waiting (snd (install Sample2.no_audio Sample.site Sample.fresh)) = false.
Proof.
  destruct (install_audio_failure_keeps_assets Sample2.no_audio Sample.site Sample.fresh)
    as (_ & Hskip & Hsnap).
  - intros i nr Hi. exists Sample.page.
    destruct i as [|[|[|[|[|i]]]]]; vm_compute in Hi; try discriminate;
      injection Hi as <-; split; reflexivity.
  - intros r Hr. vm_compute in Hr. now injection Hr as <-.
  - split; [|exact Hskip]. now rewrite (Hsnap 1%nat "/index.html" eq_refl).
Defined.

(** ** After install: what the worker can answer offline *)

Lemma classify_static (path : string) :
  is_static_asset path = true -> classify path = (CacheFirst, STATIC_CACHE).
Proof. unfold classify. now intros ->. Qed.

(** X17: once the static assets have been pre-cached at install, a GET for
    any of them on the worker's origin is answered with the response stored
    at install, without a fetch and whatever the network does, also when
    the audio pre-cache failed: provided the request carries none of the
    headers that response varies on, and found nothing in the static
    partition before the install. *)
Theorem installed_assets_served_offline net self_origin (w : World) net'
    (request : Request) (i : nat) (asset : string) :
  (forall j nr, static_requests self_origin !! j = Some nr ->
                exists r, net (length (fetched w) + j)%nat nr = Some r /\ ok r = true) ->
  STATIC_ASSETS !! i = Some asset ->
  method request = "GET" ->
  url request = self_url self_origin asset ->
  found w STATIC_CACHE request = None ->
  (forall r field,
     net (length (fetched w) + i)%nat (get_request (self_url self_origin asset)) = Some r ->
     In field (vary_fields r) -> headers_get (headers request) field = None) ->
  exists r,
    net (length (fetched w) + i)%nat (get_request (self_url self_origin asset)) = Some r
    /\ handleGetRequest net' self_origin request (url request)
         (snd (install net self_origin w))
       = (Ok r, snd (install net self_origin w)).
Proof.
  intros Hstatic Hi Hget Hurl Hmiss Hvary.
  destruct (responses_of_all net _ _ Hstatic) as [rs Hrs].
  destruct (static_lookup self_origin i asset Hi) as [Hnr Hkey].
  destruct (responses_of_lookup net _ _ rs i _ Hrs Hnr) as (r & Hr & Hn & _).
  exists r. split; [exact Hn|].
  rewrite handleGet_classified. rewrite Hurl at 1 2. cbn [pathname self_url].
  rewrite classify_static.
  - cbn [fst snd run_strategy]. unfold try_catch.
    rewrite (cacheFirst_hit net' request STATIC_CACHE _ r); [reflexivity|].
    rewrite (found_get _ _ _ Hget) in Hmiss. rewrite (found_get _ _ _ Hget).
    rewrite (install_static_entries net self_origin w rs Hrs), Hurl.
    apply (query_put_all _ rs _ i); auto using static_keys_NoDup.
    + now rewrite Hurl in Hmiss.
    + unfold matches. cbn [e_url e_headers e_response]. rewrite String.eqb_refl.
      cbn [andb]. apply forallb_forall. intros field Hin.
      now rewrite (Hvary r field Hn Hin).
  - apply is_static_asset_iff. exists "", asset. split; [|reflexivity].
    apply list_elem_of_In. eapply list_elem_of_lookup_2; eauto.
Qed.

Lemma installed_assets_served_offline_witness :
  handleGetRequest Sample.offline Sample.site (Sample.request_to "GET" "/manifest.json")
    (url (Sample.request_to "GET" "/manifest.json"))
    (snd (install Sample2.no_audio Sample.site Sample.fresh))
  = (Ok Sample.page, snd (install Sample2.no_audio Sample.site Sample.fresh)).
Proof.
  destruct (installed_assets_served_offline Sample2.no_audio Sample.site Sample.fresh
              Sample.offline (Sample.request_to "GET" "/manifest.json") 2%nat
              "/manifest.json") as (r & Hr & Hrun).
  - intros j nr Hj. exists Sample.page.
    destruct j as [|[|[|[|[|j]]]]]; vm_compute in Hj; try discriminate;
      injection Hj as <-; split; reflexivity.
  - reflexivity.
  - reflexivity.
  - reflexivity.
  - reflexivity.
  - intros r field Hr Hin. vm_compute in Hr. injection Hr as <-. destruct Hin.
  - vm_compute in Hr. injection Hr as <-. exact Hrun.
Defined.

(** The proviso on the headers is needed: when the response stored at
    install varies on Accept, a request that sends an Accept header does not
    find it, although it is stored under the request's URL, and offline the
    request gets the fallback response. *)
Lemma negotiated_asset_missed :
  snapshot (snd (install Sample2.negotiating Sample.site Sample.fresh)) STATIC_CACHE
    (fingerprint (Sample.request_to "GET" "/manifest.json")) = Some Sample2.negotiated
  /\ found (snd (install Sample2.negotiating Sample.site Sample.fresh)) STATIC_CACHE
       (Sample.request_to "GET" "/manifest.json") = None
  /\ fst (handleGetRequest Sample.offline Sample.site
            (Sample.request_to "GET" "/manifest.json")
            (url (Sample.request_to "GET" "/manifest.json"))
            (snd (install Sample2.negotiating Sample.site Sample.fresh)))
     = Ok unavailableResponse.
Proof. split; [|split]; vm_compute; reflexivity. Qed.

Lemma strategy_answer_none (s : Strategy) : strategy_answer s None None = None.
Proof. now destruct s. Qed.

(** X18: once the static assets have been pre-cached at install, a GET
    that accepts HTML and can be answered neither from its partition nor by
    the network gets the application shell: the response stored for the
    root path at install. *)
Theorem offline_navigation_gets_shell net self_origin (w : World) net' (request : Request) :
  (forall j nr, static_requests self_origin !! j = Some nr ->
                exists r, net (length (fetched w) + j)%nat nr = Some r /\ ok r = true) ->
  accepts request "text/html" = true ->
  snapshot (snd (install net self_origin w))
    (snd (classify (pathname (url request)))) (fingerprint request) = None ->
  net' (length (fetched (snd (install net self_origin w)))) (wire request) = None ->
  exists shell,
    net (length (fetched w)) (get_request (self_url self_origin "/")) = Some shell
    /\ fst (handleGetRequest net' self_origin request (url request)
              (snd (install net self_origin w)))
       = Ok shell.
Proof.
  intros Hstatic Hhtml Hmiss Hoff.
  destruct (responses_of_all net _ _ Hstatic) as [rs Hrs].
  destruct (static_lookup self_origin 0%nat "/" eq_refl) as [Hnr Hkey].
  destruct (responses_of_lookup net _ _ rs 0%nat _ Hrs Hnr) as (r & Hr & Hn & _).
  rewrite Nat.add_0_r in Hn. exists r. split; [exact Hn|].
  rewrite handleGet_answer. unfold answer.
  assert (found (snd (install net self_origin w)) (snd (classify (pathname (url request))))
            request = None) as ->.
  { unfold found. destruct (String.eqb (method request) "GET"); [|reflexivity].
    apply latest_none_query. exact Hmiss. }
  rewrite Hoff. cbn [usable]. rewrite strategy_answer_none. cbn [default from_option].
  unfold fallback_response. rewrite Hhtml. unfold shell.
  rewrite (install_static_entries net self_origin w rs Hrs).
  rewrite href_self_url in Hkey.
  now rewrite (query_put_all_plain _ rs _ 0%nat _ r (static_keys_NoDup self_origin) Hkey Hr).
Qed.

Lemma offline_navigation_gets_shell_witness :
  fst (handleGetRequest Sample.offline Sample.site Sample2.navigation
         (url Sample2.navigation) (snd (install Sample.online Sample.site Sample.fresh)))
  = Ok Sample.page.
Proof.
  destruct (offline_navigation_gets_shell Sample.online Sample.site Sample.fresh
              Sample.offline Sample2.navigation) as (shell & Hshell & Hrun).
  - intros j nr _. exists Sample.page. split; reflexivity.
  - reflexivity.
  - vm_compute. reflexivity.
  - reflexivity.
  - vm_compute in Hshell. injection Hshell as <-. exact Hrun.
Defined.


(** ** Batch syncs and the sync listener *)

Section BatchSync.

Variable net : nat -> NetRequest -> option Response.
Variable self_origin : string.
Variable stringify_moods : list MoodRecord -> string.
Variable stringify_progress : list SessionProgress -> string.

Lemma syncMoodData_eq (w : World) :
  syncMoodData net self_origin stringify_moods w
  = (Ok tt,
     match mood_data w with
     | [] => w
     | _ :: _ =>
         if succeeded (net (length (fetched w)) (mood_batch self_origin stringify_moods w))
         then set_mood_data []
                (set_fetched (fetched w ++ [mood_batch self_origin stringify_moods w]) w)
         else set_fetched (fetched w ++ [mood_batch self_origin stringify_moods w]) w
     end).
Proof.
  unfold syncMoodData, try_catch, bind at 1, gets.
  destruct (mood_data w) as [|mood moods] eqn:Hm; [reflexivity|].
  cbn [length Nat.ltb Nat.leb]. unfold bind.
  assert ({| n_url := href (self_url self_origin "/api/sync-mood"); n_method := "POST";
             n_headers := [("Content-Type", "application/json")];
             n_body := Some (stringify_moods (mood :: moods)) |}
          = mood_batch self_origin stringify_moods w) as ->
    by (unfold mood_batch; now rewrite Hm).
  unfold succeeded.
  destruct (net (length (fetched w)) (mood_batch self_origin stringify_moods w))
    as [response|] eqn:Hn.
  - rewrite (fetch_resolved net _ _ response Hn). now destruct (ok response).
  - now rewrite (fetch_rejected net _ _ Hn).
Qed.

(** X19: the mood batch sync.  With no mood record stored it does nothing,
    not even a fetch.  Otherwise it sends one POST to /api/sync-mood that
    carries all the records, and empties the store exactly when the
    response is a success; on a rejection or another status the records
    stay.  It never throws, and touches neither the Outbox nor any
    partition. *)
Theorem mood_batch_sync (w : World) :
  let w' := snd (syncMoodData net self_origin stringify_moods w) in
  let outcome := net (length (fetched w)) (mood_batch self_origin stringify_moods w) in
  fst (syncMoodData net self_origin stringify_moods w) = Ok tt
  /\ (mood_data w = [] -> w' = w)
  /\ (mood_data w <> [] ->
      fetched w' = fetched w ++ [mood_batch self_origin stringify_moods w]
      /\ mood_data w' = if succeeded outcome then [] else mood_data w)
  /\ pending_requests w' = pending_requests w
  /\ caches w' = caches w.
Proof.
  cbv zeta. rewrite syncMoodData_eq. cbn [fst snd]. split; [reflexivity|].
  destruct (mood_data w) as [|mood moods] eqn:Hm.
  - split; [reflexivity|]. split; [congruence|]. split; reflexivity.
  - split; [discriminate|]. split.
    + intros _. destruct (succeeded _); (split; [reflexivity|]); cbn; auto.
    + destruct (succeeded _); split; reflexivity.
Qed.

(** X20: a successful mood sync silences the crisis check: the store it
    reads has been emptied, so the check that follows shows nothing, also
    when the records just sent were three low moods of the last three
    days. *)
Theorem crisis_check_silent_after_mood_sync (w : World) :
  succeeded (net (length (fetched w)) (mood_batch self_origin stringify_moods w)) = true ->
  let w' := snd (syncMoodData net self_origin stringify_moods w) in
  low_count w' = 0%nat /\ checkCrisisSupport w' = (Ok tt, w').
Proof.
  intros Hok w'. subst w'. rewrite syncMoodData_eq. cbn [snd].
  destruct (mood_data w) as [|mood moods] eqn:Hm.
  - assert (low_count w = 0%nat) as H0 by (unfold low_count; now rewrite Hm).
    split; [exact H0|]. rewrite checkCrisisSupport_eq. now rewrite H0.
  - rewrite Hok. split; [reflexivity|].
    rewrite checkCrisisSupport_eq. reflexivity.
Qed.

Lemma syncSessionProgress_eq (db : Db) :
  syncSessionProgress net self_origin stringify_progress db
  = (Ok tt,
     match session_progress db with
     | [] => db
     | _ :: _ =>
         {| world := set_fetched
                       (fetched (world db)
                          ++ [progress_batch self_origin stringify_progress db])
                       (world db);
            session_progress :=
              if succeeded (net (length (fetched (world db)))
                              (progress_batch self_origin stringify_progress db))
              then [] else session_progress db |}
     end).
Proof.
  unfold syncSessionProgress.
  destruct (session_progress db) as [|p ps] eqn:Hp; [reflexivity|].
  cbn [length Nat.ltb Nat.leb].
  assert ({| n_url := href (self_url self_origin "/api/sync-progress"); n_method := "POST";
             n_headers := [("Content-Type", "application/json")];
             n_body := Some (stringify_progress (p :: ps)) |}
          = progress_batch self_origin stringify_progress db) as ->
    by (unfold progress_batch; now rewrite Hp).
  unfold succeeded.
  destruct (net (length (fetched (world db)))
              (progress_batch self_origin stringify_progress db)) as [response|] eqn:Hn.
  - rewrite (fetch_resolved net _ _ response Hn). now destruct (ok response).
  - now rewrite (fetch_rejected net _ _ Hn).
Qed.

(** X21: the session progress batch sync.  With no record stored it does
    nothing, not even a fetch.  Otherwise it sends one POST to
    /api/sync-progress that carries all the records and empties the store
    exactly when the response is a success.  It never throws and changes
    nothing else but the list of fetches issued. *)
Theorem progress_batch_sync (db : Db) :
  let db' := snd (syncSessionProgress net self_origin stringify_progress db) in
  let outcome := net (length (fetched (world db)))
                   (progress_batch self_origin stringify_progress db) in
  fst (syncSessionProgress net self_origin stringify_progress db) = Ok tt
  /\ (session_progress db = [] -> db' = db)
  /\ (session_progress db <> [] ->
      world db'
      = set_fetched (fetched (world db)
                       ++ [progress_batch self_origin stringify_progress db]) (world db)
      /\ session_progress db' = if succeeded outcome then [] else session_progress db).
Proof.
  cbv zeta. rewrite syncSessionProgress_eq. cbn [fst snd]. split; [reflexivity|].
  destruct (session_progress db) as [|p ps] eqn:Hp.
  - split; [reflexivity | congruence].
  - split; [discriminate|]. intros _. split; reflexivity.
Qed.

Lemma lift_eq {A} (m : M A) (db : Db) :
  lift m db = (fst (m (world db)),
               {| world := snd (m (world db)); session_progress := session_progress db |}).
Proof. unfold lift. now destruct (m (world db)). Qed.

(** X22: the sync listener.  It never throws and never changes a
    partition; a tag it does not know changes nothing; and each of its
    three tags touches its own collection only: replaying the Outbox leaves
    the mood and session progress records, the mood sync leaves the Outbox
    and the session progress records, the session progress sync leaves the
    Outbox and the mood records. *)
Theorem sync_listener_footprint (t : string) (db : Db) :
  let db' := snd (onSync net self_origin stringify_moods stringify_progress t db) in
  fst (onSync net self_origin stringify_moods stringify_progress t db) = Ok tt
  /\ caches (world db') = caches (world db)
  /\ (~ In t known_sync_tags -> db' = db)
  /\ (t = "sync-pending-requests" ->
      mood_data (world db') = mood_data (world db)
      /\ session_progress db' = session_progress db)
  /\ (t = "sync-mood-data" ->
      pending_requests (world db') = pending_requests (world db)
      /\ session_progress db' = session_progress db)
  /\ (t = "sync-session-progress" ->
      pending_requests (world db') = pending_requests (world db)
      /\ mood_data (world db') = mood_data (world db)).
Proof.
  cbv zeta. unfold onSync, known_sync_tags. cbn [In].
  destruct (String.eqb_spec t "sync-pending-requests") as [->|H1].
  { rewrite lift_eq. cbn [fst snd world session_progress].
    assert (untouched caches (syncPendingRequests net)) as Hc.
    { unfold syncPendingRequests, getAllFromStore.
      apply untouched_try_catch; [|intros; apply untouched_ret].
      apply untouched_bind; [apply untouched_gets|]. intros l.
      apply untouched_replay_loop; reflexivity. }
    assert (untouched mood_data (syncPendingRequests net)) as Hm.
    { unfold syncPendingRequests, getAllFromStore.
      apply untouched_try_catch; [|intros; apply untouched_ret].
      apply untouched_bind; [apply untouched_gets|]. intros l.
      apply untouched_replay_loop; reflexivity. }
    assert (fst (syncPendingRequests net (world db)) = Ok tt) as ->.
    { unfold syncPendingRequests, try_catch, bind, getAllFromStore, gets.
      now rewrite replay_loop_eq. }
    split; [reflexivity|]. split; [apply Hc|]. split; [intuition congruence|].
    split; [intros _; split; [apply Hm | reflexivity]|].
    split; discriminate. }
  destruct (String.eqb_spec t "sync-mood-data") as [->|H2].
  { rewrite lift_eq. cbn [fst snd world session_progress].
    rewrite syncMoodData_eq. cbn [fst snd].
    split; [reflexivity|].
    assert (forall X (f : World -> X),
               (forall l w, f (set_fetched l w) = f w) ->
               (forall l w, f (set_mood_data l w) = f w) ->
               f match mood_data (world db) with
                 | [] => world db
                 | _ :: _ =>
                     if succeeded (net (length (fetched (world db)))
                                     (mood_batch self_origin stringify_moods (world db)))
                     then set_mood_data []
                            (set_fetched
                               (fetched (world db)
                                  ++ [mood_batch self_origin stringify_moods (world db)])
                               (world db))
                     else set_fetched
                            (fetched (world db)
                               ++ [mood_batch self_origin stringify_moods (world db)])
                            (world db)
                 end = f (world db)) as Hf.
    { intros X f Hfe Hmo. destruct (mood_data (world db)); [reflexivity|].
      destruct (succeeded _); now rewrite ?Hmo, ?Hfe. }
    split; [apply Hf; reflexivity|]. split; [intuition congruence|].
    split; [discriminate|].
    split; [intros _; split; [apply Hf; reflexivity | reflexivity]|].
    discriminate. }
  destruct (String.eqb_spec t "sync-session-progress") as [->|H3].
  { rewrite syncSessionProgress_eq. cbn [fst snd]. split; [reflexivity|].
    destruct (session_progress db); cbn [world];
      (split; [reflexivity|]); (split; [intuition congruence|]);
      (split; [discriminate|]); (split; [discriminate|]); intros _; split; reflexivity. }
  cbn [fst snd]. split; [reflexivity|]. split; [reflexivity|]. split; [reflexivity|].
  repeat split; congruence.
Qed.

End BatchSync.

Lemma mood_batch_sync_witness :
  mood_data
    (snd (syncMoodData Sample.online Sample.site Sample2.count_moods Sample2.low_week))
  = []
  /\ mood_data
       (snd (syncMoodData Sample.broken Sample.site Sample2.count_moods Sample2.low_week))
     = mood_data Sample2.low_week.
Proof.
  split.
  - destruct (mood_batch_sync Sample.online Sample.site Sample2.count_moods
                Sample2.low_week) as (_ & _ & H & _).
    now rewrite (proj2 (H ltac:(discriminate))).
  - destruct (mood_batch_sync Sample.broken Sample.site Sample2.count_moods
                Sample2.low_week) as (_ & _ & H & _).
    now rewrite (proj2 (H ltac:(discriminate))).
Defined.

Lemma crisis_check_silent_after_mood_sync_witness :
  (3 <= low_count Sample2.low_week)%nat
  /\ checkCrisisSupport
       (snd (syncMoodData Sample.online Sample.site Sample2.count_moods Sample2.low_week))
     = (Ok tt,
        snd (syncMoodData Sample.online Sample.site Sample2.count_moods Sample2.low_week)).
Proof.
  split.
  - vm_compute. lia.
  - apply (crisis_check_silent_after_mood_sync Sample.online Sample.site
             Sample2.count_moods Sample2.low_week). reflexivity.
Defined.

Lemma progress_batch_sync_witness :
  session_progress
    (snd (syncSessionProgress Sample.online Sample.site Sample2.count_progress
            Sample2.two_sessions))
  = [].
Proof.
  destruct (progress_batch_sync Sample.online Sample.site Sample2.count_progress
              Sample2.two_sessions) as (_ & _ & H).
  now rewrite (proj2 (H ltac:(discriminate))).
Defined.

Lemma sync_listener_footprint_witness :
  snd (onSync Sample.online Sample.site Sample2.count_moods Sample2.count_progress
         "sync-everything" Sample2.two_sessions)
  = Sample2.two_sessions
  /\ session_progress
       (snd (onSync Sample.online Sample.site Sample2.count_moods Sample2.count_progress
               "sync-mood-data" Sample2.two_sessions))
     = session_progress Sample2.two_sessions.
Proof.
  split.
  - apply (sync_listener_footprint Sample.online Sample.site Sample2.count_moods
             Sample2.count_progress "sync-everything" Sample2.two_sessions).
    cbn. intuition discriminate.
  - apply (sync_listener_footprint Sample.online Sample.site Sample2.count_moods
             Sample2.count_progress "sync-mood-data" Sample2.two_sessions).
    reflexivity.
Defined.

(** ** Periodic sync *)

Lemma sendMoodReminder_eq isoDate localStorage (w : World) :
  sendMoodReminder isoDate localStorage w
  = (Ok tt,
     match localStorage with
     | None => w
     | Some getItem =>
         match getItem ("mood_" +:+ isoDate (clock w)) with
         | Some moodToday =>
             if String.eqb moodToday ""
             then set_notifications (notifications w ++ [reminderNotification]) w
             else w
         | None => set_notifications (notifications w ++ [reminderNotification]) w
         end
     end).
Proof.
  unfold sendMoodReminder, bind, date_now, gets. cbv beta iota.
  destruct localStorage as [getItem|]; [|reflexivity].
  destruct (getItem _) as [moodToday|]; [|reflexivity].
  now destruct (String.eqb moodToday "").
Qed.

(** X23: a periodic tick only reads and notifies.  Whatever its tag, it
    never throws, issues no fetch, changes neither a partition, nor the
    Outbox, nor the mood records, and shows at most one notification; a tag
    it does not know changes nothing, and neither does the mood reminder
    where the worker has no [localStorage]. *)
Theorem periodic_tick_footprint isoDate localStorage (t : string) (w : World) :
  let w' := snd (onPeriodicSync isoDate localStorage t w) in
  fst (onPeriodicSync isoDate localStorage t w) = Ok tt
  /\ fetched w' = fetched w
  /\ caches w' = caches w
  /\ pending_requests w' = pending_requests w
  /\ mood_data w' = mood_data w
  /\ (notifications w' = notifications w
      \/ exists n, notifications w' = notifications w ++ [n])
  /\ (t <> "crisis-check" -> t <> "mood-reminder" -> w' = w)
  /\ (t = "mood-reminder" -> localStorage = None -> w' = w).
Proof.
  cbv zeta. unfold onPeriodicSync.
  destruct (String.eqb_spec t "crisis-check") as [->|H1].
  { rewrite checkCrisisSupport_eq. cbn [fst snd].
    destruct (3 <=? low_count w)%nat; repeat (split; [reflexivity|]);
      (split; [eauto|]); split; congruence. }
  destruct (String.eqb_spec t "mood-reminder") as [->|H2].
  { rewrite sendMoodReminder_eq. cbn [fst snd].
    destruct localStorage as [getItem|].
    - destruct (getItem _) as [moodToday|]; [destruct (String.eqb moodToday "")|];
        repeat (split; [reflexivity|]); (split; [eauto|]); split; congruence.
    - repeat (split; [reflexivity|]). split; [eauto|]. split; reflexivity. }
  cbn [fst snd]. repeat (split; [reflexivity|]). split; [eauto|]. split; reflexivity.
Qed.

Lemma periodic_tick_footprint_witness :
  snd (onPeriodicSync Sample2.iso_day None "mood-reminder" Sample.fresh) = Sample.fresh
  /\ snd (onPeriodicSync Sample2.iso_day None "weekly-digest" Sample.fresh) = Sample.fresh.
Proof.
  pose proof (periodic_tick_footprint Sample2.iso_day None "mood-reminder" Sample.fresh)
    as Hreminder.
  pose proof (periodic_tick_footprint Sample2.iso_day None "weekly-digest" Sample.fresh)
    as Hunknown.
  cbv zeta in Hreminder, Hunknown.
  destruct Hreminder as (_ & _ & _ & _ & _ & _ & _ & Hreminder).
  destruct Hunknown as (_ & _ & _ & _ & _ & _ & Hunknown & _).
  split; [apply Hreminder; reflexivity | apply Hunknown; discriminate].
Defined.

(** X24: the crisis check keeps no memory of having fired: as long as the
    stored records count three low moods, every tick shows the support
    notification again. *)
Theorem crisis_check_fires_every_tick (n : nat) (w : World) :
  (3 <= low_count w)%nat ->
  snd (calls n checkCrisisSupport w)
  = set_notifications (notifications w ++ replicate n crisisNotification) w.
Proof.
  revert w. induction n as [|n IH]; intros w Hlow.
  - cbn. rewrite app_nil_r. now destruct w.
  - cbn [calls]. rewrite checkCrisisSupport_eq.
    apply Nat.leb_le in Hlow as Hb. rewrite Hb.
    specialize (IH (set_notifications (notifications w ++ [crisisNotification]) w) Hlow).
    destruct (calls n checkCrisisSupport _) as [rs w']. cbn [snd] in *. subst w'.
    cbn [notifications set_notifications replicate].
    now rewrite <- app_assoc.
Qed.

Lemma crisis_check_fires_every_tick_witness :
  notifications (snd (calls 3 checkCrisisSupport Sample2.low_week))
  = [crisisNotification; crisisNotification; crisisNotification].
Proof.
  rewrite (crisis_check_fires_every_tick 3 Sample2.low_week).
  - reflexivity.
  - vm_compute. lia.
Defined.

(** ** Notification click *)

Lemma first_to_focus_spec (u : string) (clientList : list Client) (start index : nat) :
  first_to_focus u clientList start = Some index ->
  exists i client,
    index = (start + i)%nat
    /\ clientList !! i = Some client
    /\ client_url client = u /\ can_focus client = true
    /\ forall j other, (j < i)%nat -> clientList !! j = Some other ->
                       client_url other <> u \/ can_focus other = false.
Proof.
  revert start. induction clientList as [|c rest IH]; intros start; [discriminate|].
  cbn [first_to_focus].
  destruct (String.eqb_spec (client_url c) u) as [Hu|Hu]; cbn [andb].
  - destruct (can_focus c) eqn:Hf.
    + intros [= <-]. exists 0%nat, c. rewrite Nat.add_0_r.
      repeat split; auto. intros j other Hj. lia.
    + intros H. destruct (IH _ H) as (i & client & -> & Hi & Hcu & Hcf & Hfirst).
      exists (S i), client. rewrite Nat.add_succ_r. repeat split; auto.
      intros [|j] other Hj Ho; cbn in Ho.
      * injection Ho as <-. now right.
      * apply (Hfirst j other); [lia | exact Ho].
  - intros H. destruct (IH _ H) as (i & client & -> & Hi & Hcu & Hcf & Hfirst).
    exists (S i), client. rewrite Nat.add_succ_r. repeat split; auto.
    intros [|j] other Hj Ho; cbn in Ho.
    + injection Ho as <-. now left.
    + apply (Hfirst j other); [lia | exact Ho].
Qed.

Lemma first_to_focus_none (u : string) (clientList : list Client) (start : nat) :
  first_to_focus u clientList start = None <->
  forall client, In client clientList -> client_url client <> u \/ can_focus client = false.
Proof.
  revert start. induction clientList as [|c rest IH]; intros start; cbn [first_to_focus In].
  - split; [intros _ client [] | reflexivity].
  - destruct (String.eqb_spec (client_url c) u) as [Hu|Hu]; cbn [andb].
    + destruct (can_focus c) eqn:Hf.
      * split; [discriminate|]. intros H. destruct (H c (or_introl eq_refl)); congruence.
      * rewrite IH. split; [intros H client [<-|Hin]; auto | auto].
    + rewrite IH. split; [intros H client [<-|Hin]; auto | auto].
Qed.

(** X25: a click on a notification focuses the first window client whose
    URL is exactly the notification's URL (the root path when it has none)
    and that can be focused; only when there is no such client does it open
    a new window on that URL, and it does nothing when it can do
    neither. *)
Theorem notification_click_target (n : Notification) (clientList : list Client)
    (canOpenWindow : bool) :
  (forall index,
     onNotificationClick n clientList canOpenWindow = FocusClient index ->
     exists client,
       clientList !! index = Some client
       /\ client_url client = urlToOpen n /\ can_focus client = true
       /\ forall j other, (j < index)%nat -> clientList !! j = Some other ->
                          client_url other <> urlToOpen n \/ can_focus other = false)
  /\ (forall u,
        onNotificationClick n clientList canOpenWindow = OpenWindow u ->
        u = urlToOpen n /\ canOpenWindow = true
        /\ forall client, In client clientList ->
                          client_url client <> urlToOpen n \/ can_focus client = false)
  /\ (onNotificationClick n clientList canOpenWindow = NoAction -> canOpenWindow = false).
Proof.
  unfold onNotificationClick.
  destruct (first_to_focus (urlToOpen n) clientList 0) as [i|] eqn:E.
  - split; [|split; discriminate].
    intros index [= <-].
    destruct (first_to_focus_spec _ _ _ _ E) as (i' & client & -> & H). cbn [Nat.add].
    exists client. exact H.
  - destruct canOpenWindow; (split; [discriminate|]); split;
      try discriminate; try reflexivity.
    intros u [= <-]. split; [reflexivity|]. split; [reflexivity|].
    now apply (first_to_focus_none (urlToOpen n) clientList 0).
Qed.

Lemma notification_click_target_witness :
  exists client,
    Sample2.windows !! 1%nat = Some client /\ client_url client = "/?section=crisis".
Proof.
  destruct (notification_click_target crisisNotification Sample2.windows true)
    as (Hfocus & _).
  destruct (Hfocus 1%nat eq_refl) as (client & Hc & Hu & _).
  exists client. split; [exact Hc | exact Hu].
Defined.

(** X26: a window client whose URL does not start with a slash is never
    focused for a notification whose URL does, and every URL the worker
    itself puts in a notification does (as does the default): with such
    clients only, the click opens a new window. *)
Theorem relative_url_never_focuses (n : Notification) (clientList : list Client) :
  startsWith (urlToOpen n) "/" = true ->
  (forall client, In client clientList -> startsWith (client_url client) "/" = false) ->
  onNotificationClick n clientList true = OpenWindow (urlToOpen n)
  /\ startsWith (urlToOpen crisisNotification) "/" = true
  /\ startsWith (urlToOpen reminderNotification) "/" = true
  /\ (data_url n = "" -> urlToOpen n = "/").
Proof.
  intros Hrel Habs. split; [|split; [reflexivity|split; [reflexivity|]]].
  - unfold onNotificationClick.
    assert (first_to_focus (urlToOpen n) clientList 0 = None) as ->; [|reflexivity].
    apply first_to_focus_none. intros client Hin. left. intros Heq.
    specialize (Habs client Hin). congruence.
  - intros H. unfold urlToOpen. now rewrite H.
Qed.

Lemma relative_url_never_focuses_witness :
  onNotificationClick crisisNotification Sample2.open_app true
  = OpenWindow "/?section=crisis".
Proof.
  apply (relative_url_never_focuses crisisNotification Sample2.open_app).
  - reflexivity.
  - intros client [<-|[<-|[]]]; reflexivity.
Defined.
